(** * WESUP: the CDWS-MIL model and the training driver

    A shallow embedding of [models/cdws_mil.py] (class [CDWS]: [__init__],
    [forward], [compute_loss]) and of [train.py] ([train_one_iteration],
    [train_one_epoch], [fit], and the record directory that [__main__]
    derives from a resume path).

    Conventions of the embedding.
    - Python exceptions are values of [exn]; a method that mutates [self]
      is a computation in the state-and-exception monad [M]: it returns
      either a value or a raised exception, together with the state reached
      (attributes assigned before a [raise] stay assigned).
    - A tensor is a shape and an element function on multi-indices.  The
      elements are exact rationals: rounding of float32 arithmetic is not
      modelled, and the elementwise transcendental kernels ([sigmoid],
      [log], [**] with a fractional exponent) are parameters.
    - The PyTorch primitives ([conv2d], [max_pool2d], [cat], [view],
      broadcasting, reductions) are modelled with the shape checks PyTorch
      performs; a failed check raises [RuntimeError] (or [IndexError] for a
      dimension out of range).  Convolution and pooling take a batch (four
      dimensions) or a single image (three).  Devices and dtypes are not
      modelled.
    - The collaborators of [train.py] (model, optimizer, scheduler, tracker,
      loaders, the [record] module) are parameters that act on their own
      state and may raise.  A loader is the list of its fetches, each run
      when the [for] statement asks for the next batch.  The disk is a map
      from paths to files; it holds what [train.py] itself reads, writes
      and removes. *)

From Stdlib Require Import ZArith QArith List Ascii String Bool Lia.
From stdpp Require Import base option list gmap strings fin_maps pretty.

Set Default Proof Using "Type".
Open Scope nat_scope.

(** ** Python exceptions *)

(** The built-in classes that occur in the two files or in the claims about
    them, with the part of the built-in hierarchy above them. *)
Inductive exn : Type :=
  | BaseException
  | KeyboardInterrupt
  | PyException
  | AssertionError
  | AttributeError
  | LookupError
  | IndexError
  | KeyError
  | OSError
  | RuntimeError
  | NotImplementedError
  | RecursionError
  | TypeError
  | ValueError.

#[global] Instance exn_eq_dec : EqDecision exn.
Proof. solve_decision. Defined.

(** The direct base class ([__bases__]) of each class. *)
Definition base_class (e : exn) : option exn :=
  match e with
  | BaseException => None
  | KeyboardInterrupt => Some BaseException
  | PyException => Some BaseException
  | AssertionError | AttributeError | LookupError | OSError
  | RuntimeError | TypeError | ValueError => Some PyException
  | IndexError | KeyError => Some LookupError
  | NotImplementedError | RecursionError => Some RuntimeError
  end.

Fixpoint issubclass_fuel (n : nat) (c d : exn) : bool :=
  if bool_decide (c = d) then true
  else match n with
       | O => false
       | S n' => match base_class c with
                 | Some b => issubclass_fuel n' b d
                 | None => false
                 end
       end.

(** [issubclass c d]; the hierarchy above has depth 3. *)
Definition issubclass (c d : exn) : bool := issubclass_fuel 3 c d.

(** ** The state-and-exception monad *)

Inductive result (A : Type) : Type :=
  | Ok (a : A)
  | Raise (e : exn).
Arguments Ok {A} a.
Arguments Raise {A} e.

Definition M (S A : Type) : Type := S -> result A * S.

Definition ret {S A} (a : A) : M S A := fun s => (Ok a, s).
Definition raise {S A} (e : exn) : M S A := fun s => (Raise e, s).
Definition bind {S A B} (c : M S A) (k : A -> M S B) : M S B :=
  fun s => match c s with
           | (Ok a, s') => k a s'
           | (Raise e, s') => (Raise e, s')
           end.
Definition get {S} : M S S := fun s => (Ok s, s).
Definition modify {S} (f : S -> S) : M S unit := fun s => (Ok tt, f s).
Definition lift {S A} (r : result A) : M S A := fun s => (r, s).

(** [assert c] *)
Definition py_assert {S} (c : bool) : M S unit :=
  if c then ret tt else raise AssertionError.

Declare Scope py_scope.
Delimit Scope py_scope with py.
Notation "x <- c ;; k" := (bind c (fun x => k))
  (at level 100, c at next level, right associativity) : py_scope.
Notation "c ;;; k" := (bind c (fun _ => k))
  (at level 100, right associativity) : py_scope.

(** The same for computations without state. *)
Definition rbind {A B} (r : result A) (k : A -> result B) : result B :=
  match r with
  | Ok a => k a
  | Raise e => Raise e
  end.
Notation "x <~ c ;; k" := (rbind c (fun x => k))
  (at level 100, c at next level, right associativity) : py_scope.

(** ** Tensors *)

(** A tensor is its shape and its entries.  The entries are exact
    rationals: the [float32] rounding of PyTorch is not modelled, so what
    is stated of an entry is the formula that the source computes, not its
    rounded value. *)
Record tensor : Type := mkTensor {
  shape : list nat;
  data : list nat -> Q
}.

Definition numel (sh : list nat) : nat := fold_right Nat.mul 1 sh.

(** [sumQ n f] is the sum of [f 0 .. f (n-1)]. *)
Fixpoint sumQ (n : nat) (f : nat -> Q) : Q :=
  match n with
  | O => 0%Q
  | S n' => (sumQ n' f + f n')%Q
  end.

(** Sum of [f] over all multi-indices of a shape. *)
Fixpoint sum_over (sh : list nat) (f : list nat -> Q) : Q :=
  match sh with
  | [] => f []
  | d :: sh' => sumQ d (fun i => sum_over sh' (fun idx => f (i :: idx)))
  end.

Definition Qmaxb (x y : Q) : Q := if Qle_bool x y then y else x.

(** [maxQ n f] is the maximum of [f 0 .. f n]. *)
Fixpoint maxQ (n : nat) (f : nat -> Q) : Q :=
  match n with
  | O => f O
  | S n' => Qmaxb (maxQ n' f) (f n)
  end.

Fixpoint shape_eqb (a b : list nat) : bool :=
  match a, b with
  | [], [] => true
  | x :: a', y :: b' => (x =? y) && shape_eqb a' b'
  | _, _ => false
  end.

(** *** Broadcasting *)

(** Shapes are aligned from the right; [broadcast_rev] works on the
    reversed shapes. *)
Fixpoint broadcast_rev (a b : list nat) : option (list nat) :=
  match a, b with
  | [], _ => Some b
  | _, [] => Some a
  | x :: a', y :: b' =>
      match broadcast_rev a' b' with
      | Some r =>
          if x =? y then Some (x :: r)
          else if x =? 1 then Some (y :: r)
          else if y =? 1 then Some (x :: r)
          else None
      | None => None
      end
  end.

Definition broadcast_shapes (a b : list nat) : option (list nat) :=
  match broadcast_rev (rev a) (rev b) with
  | Some r => Some (rev r)
  | None => None
  end.

Fixpoint bcast_zip (sh idx : list nat) : list nat :=
  match sh, idx with
  | d :: sh', i :: idx' => (if d =? 1 then 0 else i) :: bcast_zip sh' idx'
  | _, _ => []
  end.

(** The index of an operand of shape [sh] read for the result index
    [idx]. *)
Definition bcast_index (sh idx : list nat) : list nat :=
  bcast_zip sh (skipn (length idx - length sh) idx).

Definition binop (f : Q -> Q -> Q) (a b : tensor) : result tensor :=
  match broadcast_shapes (shape a) (shape b) with
  | Some sh =>
      Ok (mkTensor sh (fun idx =>
            f (data a (bcast_index (shape a) idx))
              (data b (bcast_index (shape b) idx))))
  | None => Raise RuntimeError
  end.

Definition t_add := binop Qplus.
Definition t_sub := binop Qminus.
Definition t_mul := binop Qmult.

(** Elementwise map, and the scalar forms [c - t] and [t ** n]. *)
Definition t_map (f : Q -> Q) (t : tensor) : tensor :=
  mkTensor (shape t) (fun idx => f (data t idx)).

Definition scalar_rsub (c : Q) (t : tensor) : tensor :=
  t_map (fun x => (c - x)%Q) t.

Definition t_square (t : tensor) : tensor :=
  t_map (fun x => (x ^ 2)%Q) t.

(** *** Reshaping *)

Fixpoint ravel (sh idx : list nat) : nat :=
  match sh, idx with
  | _ :: sh', i :: idx' => i * numel sh' + ravel sh' idx'
  | _, _ => 0
  end.

Fixpoint unravel (sh : list nat) (n : nat) : list nat :=
  match sh with
  | [] => []
  | _ :: sh' => (n / numel sh') :: unravel sh' (n mod numel sh')
  end.

(** [t.view(sh)] *)
Definition view (t : tensor) (sh : list nat) : result tensor :=
  if numel (shape t) =? numel sh then
    Ok (mkTensor sh (fun idx => data t (unravel (shape t) (ravel sh idx))))
  else Raise RuntimeError.

(** [t.unsqueeze(-1)] and [t.unsqueeze(0)] *)
Definition unsqueeze_last (t : tensor) : tensor :=
  mkTensor (shape t ++ [1]) (fun idx => data t (removelast idx)).

Definition unsqueeze_0 (t : tensor) : tensor :=
  mkTensor (1 :: shape t) (fun idx => data t (tl idx)).

Fixpoint squeeze_index (sh idx : list nat) : list nat :=
  match sh with
  | [] => []
  | d :: sh' =>
      if d =? 1 then 0 :: squeeze_index sh' idx
      else match idx with
           | i :: idx' => i :: squeeze_index sh' idx'
           | [] => 0 :: squeeze_index sh' []
           end
  end.

(** [t.squeeze()]: every dimension of size 1 is removed. *)
Definition squeeze (t : tensor) : tensor :=
  mkTensor (List.filter (fun d => negb (d =? 1)) (shape t))
           (fun idx => data t (squeeze_index (shape t) idx)).

(** *** Reductions *)

(** [t.mean(dim=(2, 3))] (of an empty plane: 0 here, [nan] in PyTorch) *)
Definition mean_2_3 (t : tensor) : result tensor :=
  match shape t with
  | d0 :: d1 :: d2 :: d3 :: rest =>
      Ok (mkTensor (d0 :: d1 :: rest) (fun idx =>
            match idx with
            | i0 :: i1 :: r =>
                (sumQ d2 (fun i => sumQ d3 (fun j =>
                   data t (i0 :: i1 :: i :: j :: r)))
                 / inject_Z (Z.of_nat (d2 * d3)))%Q
            | _ => 0%Q
            end))
  | _ => Raise IndexError
  end.

(** [torch.sum(t, dim=1, keepdim=...)] *)
Definition sum_dim1 (keepdim : bool) (t : tensor) : result tensor :=
  match shape t with
  | d0 :: d1 :: rest =>
      if keepdim then
        Ok (mkTensor (d0 :: 1 :: rest) (fun idx =>
              match idx with
              | i0 :: _ :: r => sumQ d1 (fun c => data t (i0 :: c :: r))
              | _ => 0%Q
              end))
      else
        Ok (mkTensor (d0 :: rest) (fun idx =>
              match idx with
              | i0 :: r => sumQ d1 (fun c => data t (i0 :: c :: r))
              | _ => 0%Q
              end))
  | _ => Raise IndexError
  end.

(** [torch.sum(t)]: a tensor with no dimension. *)
Definition sum_all (t : tensor) : tensor :=
  mkTensor [] (fun _ => sum_over (shape t) (data t)).

(** *** Concatenation along dimension 1 *)

Definition cat1_compatible (a b : list nat) : bool :=
  match a, b with
  | a0 :: _ :: ar, b0 :: _ :: br => (a0 =? b0) && shape_eqb ar br
  | _, _ => false
  end.

Fixpoint cat1_pick (ts : list tensor) (i0 c : nat) (r : list nat) : Q :=
  match ts with
  | [] => 0%Q
  | t :: ts' =>
      let n := nth 1 (shape t) 0 in
      if c <? n then data t (i0 :: c :: r) else cat1_pick ts' i0 (c - n) r
  end.

(** [torch.cat(ts, dim=1)].  One-dimensional empty tensors are skipped, as
    PyTorch does; the others must agree on every dimension but the
    second. *)
Definition cat1 (ts : list tensor) : result tensor :=
  match List.filter (fun t => negb (shape_eqb (shape t) [0])) ts with
  | [] => match ts with
          | [] => Raise RuntimeError
          | t :: _ => Ok t
          end
  | t :: ts' =>
      match shape t with
      | d0 :: _ :: rest =>
          if forallb (fun u => cat1_compatible (shape t) (shape u)) ts' then
            Ok (mkTensor
                  (d0 :: fold_right (fun u n => nth 1 (shape u) 0 + n) 0 (t :: ts')
                      :: rest)
                  (fun idx => match idx with
                              | i0 :: c :: r => cat1_pick (t :: ts') i0 c r
                              | _ => 0%Q
                              end))
          else Raise RuntimeError
      | _ => Raise IndexError
      end
  end.

(** ** Layers *)

(** [nn.Conv2d] with stride 1: the parameters and the padding.  The channel
    counts and the kernel size are read off the weight, as [F.conv2d]
    does. *)
Record Conv2d : Type := mkConv2d {
  weight : tensor;
  bias : tensor;
  padding : nat
}.

(** [nn.MaxPool2d(kernel_size, stride=stride)] *)
Record MaxPool2d : Type := mkMaxPool2d {
  kernel_size : nat;
  stride : nat
}.

(** [nn.Conv2d(cin, cout, (kh, kw), padding=p)]; [init] gives the values the
    constructor draws for the weight and the bias. *)
Definition Conv2d_new (cin cout kh kw p : nat)
    (init : (list nat -> Q) * (list nat -> Q)) : Conv2d :=
  mkConv2d (mkTensor [cout; cin; kh; kw] (fst init))
           (mkTensor [cout] (snd init)) p.

(** A batch of images has four dimensions, a single image three: the
    layers take both, as the recent versions of PyTorch do (older ones
    refuse the single image at the first convolution). *)
Inductive batching : Type :=
  | Unbatched
  | Batched (B : nat).

(** The shape [(C, H, W)] or [(B, C, H, W)], and the index of a pixel. *)
Definition planes (b : batching) (C H W : nat) : list nat :=
  match b with
  | Unbatched => [C; H; W]
  | Batched B => [B; C; H; W]
  end.

Definition batching_of (sh : list nat) : option (batching * (nat * nat * nat)) :=
  match sh with
  | [C; H; W] => Some (Unbatched, (C, H, W))
  | [B; C; H; W] => Some (Batched B, (C, H, W))
  | _ => None
  end.

(** The image that an index of the output speaks of ([[]] for a single
    image), and the rest of the index. *)
Definition split_index (b : batching) (idx : list nat) : list nat * list nat :=
  match b with
  | Unbatched => ([], idx)
  | Batched _ => (firstn 1 idx, skipn 1 idx)
  end.

(** The input read at row [u], column [v] of the zero-padded plane of
    channel [c] of the image [img]. *)
Definition pad_read (x : tensor) (p H W : nat) (img : list nat) (c u v : nat) : Q :=
  if (p <=? u) && (u <? H + p) && (p <=? v) && (v <? W + p)
  then data x (img ++ [c; u - p; v - p]) else 0%Q.

(** Calling a convolution layer on a batch or on a single image.  The
    channels are those of the weight, and the padded plane is at least as
    large as the kernel; otherwise [RuntimeError], as for an input of any
    other number of dimensions. *)
Definition Conv2d_call (L : Conv2d) (x : tensor) : result tensor :=
  match batching_of (shape x), shape (weight L) with
  | Some (b, (C, H, W)), [Co; Ci; kh; kw] =>
      let p := padding L in
      if (C =? Ci) && shape_eqb (shape (bias L)) [Co]
         && (1 <=? kh) && (1 <=? kw)
         && (kh <=? H + 2 * p) && (kw <=? W + 2 * p)
      then
        Ok (mkTensor (planes b Co (H + 2 * p + 1 - kh) (W + 2 * p + 1 - kw))
              (fun idx =>
                 match split_index b idx with
                 | (img, [o; i; j]) =>
                     (data (bias L) [o] +
                      sumQ C (fun c => sumQ kh (fun di => sumQ kw (fun dj =>
                        data (weight L) [o; c; di; dj]
                        * pad_read x p H W img c (i + di) (j + dj)))))%Q
                 | _ => 0%Q
                 end))
      else Raise RuntimeError
  | _, _ => Raise RuntimeError
  end.

(** Calling a pooling layer (no padding, floor mode) on a batch or on a
    single image.  An output plane without a row or a column is
    refused. *)
Definition MaxPool2d_call (P : MaxPool2d) (x : tensor) : result tensor :=
  match batching_of (shape x) with
  | Some (b, (C, H, W)) =>
      let k := kernel_size P in
      let s := stride P in
      if (1 <=? k) && (1 <=? s) && (k <=? H) && (k <=? W) then
        Ok (mkTensor (planes b C ((H - k) / s + 1) ((W - k) / s + 1))
              (fun idx =>
                 match split_index b idx with
                 | (img, [c; i; j]) =>
                     maxQ (k - 1) (fun di => maxQ (k - 1) (fun dj =>
                       data x (img ++ [c; i * s + di; j * s + dj])))
                 | _ => 0%Q
                 end))
      else Raise RuntimeError
  | None => Raise RuntimeError
  end.

(** [F.relu] *)
Definition relu (t : tensor) : tensor :=
  t_map (fun x => if Qle_bool 0 x then x else 0%Q) t.

(** ** The pretrained network *)

(** [torchvision.models.vgg16(pretrained=True).features]: the layers that
    torchvision builds from its configuration D, with the pretrained
    values [theta] (by position in [features]) in the convolutions. *)
Inductive vgg_layer : Type :=
  | VConv (c : Conv2d)
  | VReLU
  | VMaxPool (p : MaxPool2d).

Definition vgg16_cfg : list (option nat) :=
  [Some 64; Some 64; None; Some 128; Some 128; None;
   Some 256; Some 256; Some 256; None;
   Some 512; Some 512; Some 512; None;
   Some 512; Some 512; Some 512; None].

Fixpoint make_layers (theta : nat -> (list nat -> Q) * (list nat -> Q))
    (cfg : list (option nat)) (in_channels pos : nat) : list vgg_layer :=
  match cfg with
  | [] => []
  | None :: cfg' =>
      VMaxPool (mkMaxPool2d 2 2) :: make_layers theta cfg' in_channels (S pos)
  | Some v :: cfg' =>
      VConv (Conv2d_new in_channels v 3 3 1 (theta pos)) :: VReLU
        :: make_layers theta cfg' v (S (S pos))
  end.

Definition vgg16_features (theta : nat -> (list nat -> Q) * (list nat -> Q))
    : list vgg_layer :=
  make_layers theta vgg16_cfg 3 0.

(** ** Python objects held in attributes *)

(** An attribute of the class that is a plain [int] or a tensor. *)
Inductive pyobj : Type :=
  | PyInt (z : Z)
  | PyTensor (t : tensor).

(** [o.to(device)]: a tensor has the method, an [int] has no attribute
    [to]. *)
Definition call_to (o : pyobj) : result tensor :=
  match o with
  | PyTensor t => Ok t
  | PyInt _ => Raise AttributeError
  end.

(** [o is not None] *)
Definition is_Some_b {A} (o : option A) : bool :=
  match o with
  | Some _ => true
  | None => false
  end.

(** [torch.tensor([q0, q1, ...])] *)
Definition tensor_of_list (l : list Q) : tensor :=
  mkTensor [length l] (fun idx => nth (hd 0 idx) l 0%Q).

(** * models/cdws_mil.py *)

Module CdwsMil.

Open Scope py_scope.

(** The layers created by [__init__]. *)
Record Layers : Type := mkLayers {
  conv1_1 : Conv2d;
  conv1_2 : Conv2d;
  pool1 : MaxPool2d;
  conv2_1 : Conv2d;
  conv2_2 : Conv2d;
  pool2 : MaxPool2d;
  conv3_1 : Conv2d;
  conv3_2 : Conv2d;
  conv3_3 : Conv2d;
  pool3 : MaxPool2d;
  side_conv1 : Conv2d;
  side_conv2 : Conv2d;
  side_conv3 : Conv2d
}.

(** An instance of [CDWS]: its layers, the two outputs kept by [forward]
    ([None] until then), and the attributes that [forward] and
    [compute_loss] read on [self] and assign back ([fusion_weights],
    [side_ac_weights], [fuse_ac_weight]), which start as the class
    attributes. *)
Record CDWS : Type := mkCDWS {
  layers : Layers;
  side_outputs : option tensor;
  fused_output : option tensor;
  fusion_weights : tensor;
  side_ac_weights : tensor;
  fuse_ac_weight : pyobj
}.

Definition set_side_outputs (v : option tensor) (self : CDWS) : CDWS :=
  mkCDWS (layers self) v (fused_output self) (fusion_weights self)
         (side_ac_weights self) (fuse_ac_weight self).

Definition set_fused_output (v : option tensor) (self : CDWS) : CDWS :=
  mkCDWS (layers self) (side_outputs self) v (fusion_weights self)
         (side_ac_weights self) (fuse_ac_weight self).

Definition set_fusion_weights (v : tensor) (self : CDWS) : CDWS :=
  mkCDWS (layers self) (side_outputs self) (fused_output self) v
         (side_ac_weights self) (fuse_ac_weight self).

Definition set_side_ac_weights (v : tensor) (self : CDWS) : CDWS :=
  mkCDWS (layers self) (side_outputs self) (fused_output self)
         (fusion_weights self) v (fuse_ac_weight self).

Definition set_fuse_ac_weight (v : pyobj) (self : CDWS) : CDWS :=
  mkCDWS (layers self) (side_outputs self) (fused_output self)
         (fusion_weights self) (side_ac_weights self) v.

(** The class attributes. *)
Definition class_fusion_weights : tensor :=
  tensor_of_list [2 # 10; 35 # 100; 45 # 100]%Q.

Definition class_side_ac_weights : tensor :=
  tensor_of_list [25 # 10; 5 # 1; 10 # 1]%Q.

Definition class_fuse_ac_weight : pyobj := PyInt 10.

Definition gmp : Q := 4 # 1.

(** [layer.weight.data = vgg_layer.weight.data] and the same for the bias,
    for the layer of the pretrained network at [layer_idx]. *)
Definition copy_from (vgg_features : list vgg_layer) (layer : Conv2d)
    (layer_idx : nat) : result Conv2d :=
  match nth_error vgg_features layer_idx with
  | None => Raise IndexError
  | Some (VConv v) => Ok (mkConv2d (weight v) (bias v) (padding layer))
  | Some _ => Raise AttributeError
  end.

Definition _copy_weights_from_vgg16
    (theta : nat -> (list nat -> Q) * (list nat -> Q)) (L : Layers)
    : result Layers :=
  let vgg_features := vgg16_features theta in
  c11 <~ copy_from vgg_features (conv1_1 L) 0 ;;
  c12 <~ copy_from vgg_features (conv1_2 L) 2 ;;
  c21 <~ copy_from vgg_features (conv2_1 L) 5 ;;
  c22 <~ copy_from vgg_features (conv2_2 L) 7 ;;
  c31 <~ copy_from vgg_features (conv3_1 L) 10 ;;
  c32 <~ copy_from vgg_features (conv3_2 L) 12 ;;
  c33 <~ copy_from vgg_features (conv3_3 L) 14 ;;
  Ok (mkLayers c11 c12 (pool1 L) c21 c22 (pool2 L) c31 c32 c33 (pool3 L)
               (side_conv1 L) (side_conv2 L) (side_conv3 L)).

(** The layers as the constructors of [__init__] create them; [init] gives
    the values each [nn.Conv2d] draws (by order of creation). *)
Definition new_layers (init : nat -> (list nat -> Q) * (list nat -> Q))
    : Layers :=
  mkLayers
    (* First stage *)
    (Conv2d_new 3 64 3 3 1 (init 0))
    (Conv2d_new 64 64 3 3 1 (init 1))
    (mkMaxPool2d 2 2)  (* 1/2 *)
    (* Second stage *)
    (Conv2d_new 64 128 3 3 1 (init 2))
    (Conv2d_new 128 128 3 3 1 (init 3))
    (mkMaxPool2d 2 2)  (* 1/4 *)
    (* Third stage *)
    (Conv2d_new 128 256 3 3 1 (init 4))
    (Conv2d_new 256 256 3 3 1 (init 5))
    (Conv2d_new 256 256 3 3 1 (init 6))
    (mkMaxPool2d 2 2)  (* 1/8 *)
    (* Side output conv layers. *)
    (Conv2d_new 64 1 1 1 0 (init 7))
    (Conv2d_new 128 1 1 1 0 (init 8))
    (Conv2d_new 256 1 1 1 0 (init 9)).

(** [CDWS()]; [theta] gives the pretrained values. *)
Definition __init__ (init theta : nat -> (list nat -> Q) * (list nat -> Q))
    : result CDWS :=
  L <~ _copy_weights_from_vgg16 theta (new_layers init) ;;
  Ok (mkCDWS L None None class_fusion_weights class_side_ac_weights
             class_fuse_ac_weight).

Section Kernels.

(** The elementwise kernels: [sigmoid], [torch.log], and [x ** y] for a
    fractional [y]. *)
Variable k_sigmoid : Q -> Q.
Variable k_log : Q -> Q.
Variable k_pow : Q -> Q -> Q.

Definition forward (x : tensor) : M CDWS tensor :=
  self <- get ;;
  let L := layers self in
  let h := x in

  h <- lift (Conv2d_call (conv1_1 L) h) ;;
  let h := relu h in
  h <- lift (Conv2d_call (conv1_2 L) h) ;;
  let h := relu h in
  side1 <- lift (Conv2d_call (side_conv1 L) h) ;;
  let side1 := t_map k_sigmoid side1 in
  h <- lift (MaxPool2d_call (pool1 L) h) ;;

  h <- lift (Conv2d_call (conv2_1 L) h) ;;
  let h := relu h in
  h <- lift (Conv2d_call (conv2_2 L) h) ;;
  let h := relu h in
  side2 <- lift (Conv2d_call (side_conv2 L) h) ;;
  let side2 := t_map k_sigmoid side2 in
  h <- lift (MaxPool2d_call (pool2 L) h) ;;

  h <- lift (Conv2d_call (conv3_1 L) h) ;;
  let h := relu h in
  h <- lift (Conv2d_call (conv3_2 L) h) ;;
  let h := relu h in
  h <- lift (Conv2d_call (conv3_3 L) h) ;;
  let h := relu h in
  side3 <- lift (Conv2d_call (side_conv3 L) h) ;;
  let side3 := t_map k_sigmoid side3 in
  h <- lift (MaxPool2d_call (pool3 L) h) ;;

  (* concatenate side outputs *)
  so <- lift (cat1 [side1; side2; side3]) ;;
  modify (set_side_outputs (Some so)) ;;;

  self <- get ;;
  fw <- lift (view (fusion_weights self) [1; 3; 1; 1]) ;;
  modify (set_fusion_weights fw) ;;;
  prod <- lift (t_mul so fw) ;;
  fused <- lift (sum_dim1 true prod) ;;
  modify (set_fused_output (Some fused)) ;;;

  ret h.

(** [output.mean(dim=(2, 3))] on the value of an attribute that may still be
    [None], which has no attribute [mean]. *)
Definition attr_mean (output : option tensor) : result tensor :=
  match output with
  | Some t => mean_2_3 t
  | None => Raise AttributeError
  end.

(** [w * t] for the value [w] of an attribute. *)
Definition py_mul (w : pyobj) (t : tensor) : result tensor :=
  match w with
  | PyTensor u => t_mul u t
  | PyInt z => Ok (t_map (fun v => (inject_Z z * v)%Q) t)
  end.

(** The two local functions of [compute_loss]; [target_class] and
    [target_area] are the unsqueezed targets they close over. *)
Definition mil_loss (target_class : tensor) (output : option tensor)
    : result tensor :=
  m <~ attr_mean output ;;
  let image_pred := t_map (fun v => k_pow v (1 / gmp)%Q) m in  (* (B, C) *)
  a <~ t_mul target_class (t_map k_log image_pred) ;;
  b <~ t_mul (scalar_rsub 1 target_class)
             (t_map k_log (scalar_rsub 1 image_pred)) ;;
  t_add a b.

Definition ac_loss (target_class target_area : tensor)
    (output : option tensor) : result tensor :=
  area_pred <~ attr_mean output ;;  (* (B, C) *)
  d <~ t_sub area_pred target_area ;;
  t_mul target_class (sum_all (t_square d)).

Definition compute_loss (target_class target_area : tensor)
    : M CDWS tensor :=
  (* Make sure that we cannot compute loss without a forward pass *)
  self <- get ;;
  py_assert (is_Some_b (side_outputs self)) ;;;
  py_assert (is_Some_b (fused_output self)) ;;;

  let target_class := unsqueeze_last target_class in
  let target_area := unsqueeze_last target_area in

  side_mil_loss <- lift (mil_loss target_class (side_outputs self)) ;;
  side_ac_loss <- lift (ac_loss target_class target_area (side_outputs self)) ;;
  modify (set_side_ac_weights (unsqueeze_0 (side_ac_weights self))) ;;;
  self <- get ;;
  wl <- lift (t_mul (side_ac_weights self) side_ac_loss) ;;
  side_loss <- lift (t_add side_mil_loss wl) ;;
  side_loss <- lift (sum_dim1 false side_loss) ;;

  fuse_mil_loss <- lift (mil_loss target_class (fused_output self)) ;;
  fuse_ac_loss <- lift (ac_loss target_class target_area (fused_output self)) ;;
  fw <- lift (call_to (fuse_ac_weight self)) ;;
  modify (set_fuse_ac_weight (PyTensor (unsqueeze_0 fw))) ;;;
  self <- get ;;
  wl <- lift (py_mul (fuse_ac_weight self) fuse_ac_loss) ;;
  fuse_loss <- lift (t_add fuse_mil_loss wl) ;;
  let fuse_loss := squeeze fuse_loss in

  lift (t_add side_loss fuse_loss).

(** A method call on an instance, and a sequence of calls with the result
    of each. *)
Inductive call : Type :=
  | Forward (x : tensor)
  | ComputeLoss (target_class target_area : tensor).

Definition do_call (c : call) : M CDWS tensor :=
  match c with
  | Forward x => forward x
  | ComputeLoss target_class target_area => compute_loss target_class target_area
  end.

Fixpoint run_calls (cs : list call) (self : CDWS)
    : list (result tensor) * CDWS :=
  match cs with
  | [] => ([], self)
  | c :: cs' =>
      let (r, self') := do_call c self in
      let (rs, self'') := run_calls cs' self' in
      (r :: rs, self'')
  end.

(** The call was a forward pass and it returned. *)
Definition forward_returned (cr : call * result tensor) : bool :=
  match cr with
  | (Forward _, Ok _) => true
  | _ => false
  end.

End Kernels.

End CdwsMil.

(** * train.py *)

Module Train.

Open Scope py_scope.

(** ** Files *)

(** A path is the list of its components: [osp.join(d, 'checkpoints', n)]
    is [d ++ ["checkpoints"; n]]. *)
Definition path : Type := list string.

Fixpoint ends_with (suffix s : string) : bool :=
  if String.eqb s suffix then true
  else match s with
       | EmptyString => false
       | String _ s' => ends_with suffix s'
       end.

Definition starts_with_dot (s : string) : bool :=
  match s with
  | String c _ => Ascii.eqb c "."%char
  | EmptyString => false
  end.

(** [fnmatch] of a file name against ['*.pth'], as [glob] applies it: a
    leading dot is not matched by the star. *)
Definition matches_pth (name : string) : bool :=
  negb (starts_with_dot name) && ends_with ".pth" name.

Fixpoint strip_prefix (d p : path) : option path :=
  match d, p with
  | [], _ => Some p
  | x :: d', y :: p' => if String.eqb x y then strip_prefix d' p' else None
  | _ :: _, [] => None
  end.

(** [glob.has_magic]: the name holds one of the characters [*], [?] and
    [[], which make [glob] read it as a pattern. *)
Fixpoint has_magic (s : string) : bool :=
  match s with
  | EmptyString => false
  | String c s' =>
      Ascii.eqb c "*"%char || Ascii.eqb c "?"%char || Ascii.eqb c "["%char
      || has_magic s'
  end.

(** A directory that [glob] takes literally: none of its components is a
    pattern. *)
Definition plain (d : path) : bool := forallb (fun s => negb (has_magic s)) d.

(** Whether [p] matches [osp.join(record_dir, 'checkpoints', '*.pth')], for
    a [record_dir] that is [plain].  (A [record_dir] with a magic character
    is a pattern of its own: [glob] then lists what the pattern matches,
    which need not be under [record_dir]; this function does not describe
    it, and it is used under [plain record_dir] only.) *)
Definition is_checkpoint_file (record_dir p : path) : bool :=
  match strip_prefix record_dir p with
  | Some [d; name] => String.eqb d "checkpoints" && matches_pth name
  | _ => false
  end.

Fixpoint zeros (n : nat) : string :=
  match n with
  | O => EmptyString
  | S n' => String "0"%char (zeros n')
  end.

Definition zfill (width : nat) (s : string) : string :=
  zeros (width - String.length s) +:+ s.

(** ['{:04d}'.format(z)]: the sign counts in the width. *)
Definition format_04d (z : Z) : string :=
  if (z <? 0)%Z then "-" +:+ zfill 3 (pretty (Z.abs z))
  else zfill 4 (pretty z).

(** ['ckpt.{:04d}.pth'.format(epoch)] under [record_dir/checkpoints]. *)
Definition ckpt_name (epoch : Z) : string :=
  "ckpt." +:+ format_04d epoch +:+ ".pth".

Definition ckpt_path (record_dir : path) (epoch : Z) : path :=
  record_dir ++ ["checkpoints"; ckpt_name epoch].

Definition history_path (record_dir : path) : path :=
  record_dir ++ ["history.csv"].

(** ** The collaborators *)

Inductive phase : Type := train | val.

Definition is_train (ph : phase) : bool :=
  match ph with
  | train => true
  | val => false
  end.

(** [phase.capitalize()] *)
Definition capitalize (ph : phase) : string :=
  match ph with
  | train => "Train"
  | val => "Val"
  end.

Inductive metric_func : Type := accuracy | dice | detection_f1 | object_dice.

Inductive log_record : Type :=
  | Info (msg : string)
  | Warning (ex : exn).

(** What the training module holds of the model and the optimizer, and the
    rest of the state of its collaborators (gradients, the tracker's
    accumulated metrics, the loaders). *)
Record heap (MS OS X : Type) : Type := mkHeap {
  model_state : MS;
  optimizer_state : OS;
  aux : X
}.
Arguments mkHeap {MS OS X}.
Arguments model_state {MS OS X}.
Arguments optimizer_state {MS OS X}.
Arguments aux {MS OS X}.

(** The model, optimizer, scheduler, tracker and loaders that [train.py]
    drives.  Their code is outside the two files: each operation is a
    parameter that may change the heap it is given and may raise.

    A loader gives, when the [for] statement starts, the fetches of its
    batches: each fetch is run when the loop asks for the next batch, it
    may change the state of the loader and it may raise.

    The files that the [record] module writes on its own (the parameters
    of the run, the learning curves) are not modelled: its two functions
    act on the state of the collaborators only, and nothing is stated
    here about the files they create. *)
Class Collaborators : Type := {
  MS : Type;
  OS : Type;
  X : Type;
  batch : Type;
  input : Type;
  target : Type;
  pred : Type;
  loss : Type;
  table : Type;
  (* the model *)
  preprocess : batch -> M (heap MS OS X) (input * target);
  model_call : input -> M (heap MS OS X) pred;
  model_compute_loss :
    pred -> target -> gmap string Q -> M (heap MS OS X) (loss * gmap string Q);
  loss_item : loss -> Q;
  loss_backward : loss -> M (heap MS OS X) unit;
  postprocess : pred -> target -> M (heap MS OS X) (pred * target);
  evaluate : pred -> target -> list metric_func -> M (heap MS OS X) (gmap string Q);
  model_train : M (heap MS OS X) unit;
  model_eval : M (heap MS OS X) unit;
  model_summary : heap MS OS X -> string;
  fresh_model : string -> MS;
  (* the optimizer and the scheduler *)
  optimizer_zero_grad : M (heap MS OS X) unit;
  optimizer_step : M (heap MS OS X) unit;
  fresh_optimizer : MS -> OS;
  learning_rate : OS -> Q;
  has_scheduler : bool;
  scheduler_step : Q -> M (heap MS OS X) unit;
  (* the tracker *)
  tracker_train : M X unit;
  tracker_eval : M X unit;
  tracker_step : gmap string Q -> M X unit;
  tracker_log : X -> string;
  tracker_start_new_epoch : Q -> M X unit;
  tracker_history : X -> gmap string (list Q);
  tracker_table : X -> table;
  tracker_report : M X unit;
  (* records, datasets and loaders *)
  record_save_params : M X unit;
  record_plot_learning_curves : M X unit;
  load_datasets : M X unit;
  val_exists : bool;
  loader_batches : phase -> M X (list (M X batch));
  underline : string -> string -> string;
  (* the exception, if any, that writing a checkpoint file raises *)
  save_checkpoint_error : heap MS OS X -> option exn
}.

Section Driver.

Context `{C : Collaborators}.

(** [record_dir], a global of the module. *)
Variable record_dir : path.

(** The record a checkpoint file holds (spec, section 6). *)
Record checkpoint : Type := mkCheckpoint {
  ck_epoch : Z;
  ck_model_state : MS;
  ck_optimizer_state_dict : OS
}.

Inductive file : Type :=
  | CheckpointFile (ck : checkpoint)
  | HistoryFile (t : table)
  | OtherFile.

Record world : Type := mkWorld {
  w_heap : heap MS OS X;
  grad_enabled : bool;
  log : list log_record;
  files : gmap path file
}.

Definition set_heap (h : heap MS OS X) (w : world) : world :=
  mkWorld h (grad_enabled w) (log w) (files w).
Definition set_grad_enabled (b : bool) (w : world) : world :=
  mkWorld (w_heap w) b (log w) (files w).
Definition add_log (r : log_record) (w : world) : world :=
  mkWorld (w_heap w) (grad_enabled w) (log w ++ [r]) (files w).
Definition set_files (f : gmap path file) (w : world) : world :=
  mkWorld (w_heap w) (grad_enabled w) (log w) f.

(** Running a collaborator on its part of the world. *)
Definition on_heap {A} (c : M (heap MS OS X) A) : M world A :=
  fun w => let (r, h) := c (w_heap w) in (r, set_heap h w).

Definition on_aux {A} (c : M X A) : M world A :=
  on_heap (fun h =>
    let (r, x) := c (aux h) in
    (r, mkHeap (model_state h) (optimizer_state h) x)).

Definition logger_info (msg : string) : M world unit := modify (add_log (Info msg)).
Definition logger_warning (ex : exn) : M world unit := modify (add_log (Warning ex)).

(** [with torch.set_grad_enabled(mode): body]: the previous mode is restored
    when the block is left, also by an exception. *)
Definition with_grad_enabled {A} (mode : bool) (body : M world A) : M world A :=
  fun w =>
    let prev := grad_enabled w in
    let (r, w') := body (set_grad_enabled mode w) in
    (r, set_grad_enabled prev w').

Fixpoint for_each {S A} (l : list A) (body : A -> M S unit) : M S unit :=
  match l with
  | [] => ret tt
  | a :: l' => body a ;;; for_each l' body
  end.

Definition train_one_iteration (ph : phase) (data : batch) : M world unit :=
  it <- on_heap (preprocess data) ;;
  let input_ := fst it in
  let target := snd it in

  on_heap optimizer_zero_grad ;;;
  let metrics : gmap string Q := ∅ in

  pm <- with_grad_enabled (is_train ph)
          (pred <- on_heap (model_call input_) ;;
           if is_train ph then
             lm <- on_heap (model_compute_loss pred target metrics) ;;
             let loss := fst lm in
             let metrics := <["loss" := loss_item loss]> (snd lm) in
             on_heap (loss_backward loss) ;;;
             on_heap optimizer_step ;;;
             ret (pred, metrics)
           else ret (pred, metrics)) ;;
  let pred := fst pm in
  let metrics := snd pm in

  let metric_funcs :=
    [accuracy; dice] ++
    match ph with
    | val => [detection_f1; object_dice]
    | train => []
    end in

  pt <- on_heap (postprocess pred target) ;;
  ev <- on_heap (evaluate (fst pt) (snd pt) metric_funcs) ;;
  (* {**metrics, **evaluate(...)}: the keys of the second win *)
  on_aux (tracker_step (ev ∪ metrics)).

(** [try: train_one_iteration(...) except RuntimeError as ex:
    logger.warning(ex)] *)
Definition try_one_iteration (ph : phase) (data : batch) : M world unit :=
  fun w =>
    match train_one_iteration ph data w with
    | (Ok tt, w') => (Ok tt, w')
    | (Raise ex, w') =>
        if issubclass ex RuntimeError then logger_warning ex w'
        else (Raise ex, w')
    end.

(** One turn of [for data in pbar]: the loader fetches the batch, outside
    the [try], and the body of the loop is run on it. *)
Definition fetch_and_try (ph : phase) (fetch : M X batch) : M world unit :=
  data <- on_aux fetch ;;
  try_one_iteration ph data.

(** The start of a phase, up to the fetches of its loader. *)
Definition phase_setup (ph : phase) : M world (list (M X batch)) :=
  logger_info (capitalize ph +:+ " phase:") ;;;
  (if is_train ph
   then on_heap model_train ;;; on_aux tracker_train
   else on_heap model_eval ;;; on_aux tracker_eval) ;;;
  on_aux (loader_batches ph).

(** [logger.info(tracker.log())] *)
Definition phase_summary : M world unit :=
  w <- get ;;
  logger_info (tracker_log (aux (w_heap w))).

(** A phase of an epoch (the progress bar is left out). *)
Definition run_phase (ph : phase) : M world unit :=
  fetches <- phase_setup ph ;;
  for_each fetches (fetch_and_try ph) ;;;
  phase_summary.

Definition phases_of (no_val : bool) : list phase :=
  if no_val then [train] else [train; val].

Definition train_one_epoch (no_val : bool) : M world unit :=
  let phases := phases_of no_val in
  for_each phases run_phase.

(** ** Collaborators modelled from the spec *)

(** Modelled from the spec: [torch.load] and the checkpoint format
    ("a persisted record containing at least {epoch, model_state,
    optimizer_state_dict}"); the reader is not under src/.  A missing file
    raises [OSError], a file that is not a checkpoint [PyException]. *)
Definition torch_load (p : path) : M world checkpoint :=
  w <- get ;;
  match files w !! p with
  | Some (CheckpointFile ck) => ret ck
  | Some _ => raise PyException
  | None => raise OSError
  end.

(** Modelled from the spec: [initialize_model(name, checkpoint=...)], whose
    code is not under src/ ("loading restores both model and optimizer"). *)
Definition initialize_model (name : string) (ck : option checkpoint)
    : M world unit :=
  on_heap (modify (fun h =>
    mkHeap (match ck with
            | Some c => ck_model_state c
            | None => fresh_model name
            end)
           (optimizer_state h) (aux h))).

(** Modelled from the spec: [model.get_default_optimizer(checkpoint)], whose
    code is not under src/; the scheduler it returns with the optimizer is
    [None] when [has_scheduler] is false. *)
Definition get_default_optimizer (ck : option checkpoint) : M world unit :=
  on_heap (modify (fun h =>
    mkHeap (model_state h)
           (match ck with
            | Some c => ck_optimizer_state_dict c
            | None => fresh_optimizer (model_state h)
            end)
           (aux h))).

(** Modelled from the spec: [model.save_checkpoint(ckpt_path, epoch=...,
    optimizer_state_dict=...)], whose code is not under src/: it writes the
    record at the path, or raises and writes nothing. *)
Definition save_checkpoint (p : path) (epoch : Z) (optimizer_state_dict : OS)
    : M world unit :=
  w <- get ;;
  match save_checkpoint_error (w_heap w) with
  | Some ex => raise ex
  | None =>
      modify (set_files
        (<[p := CheckpointFile
                 (mkCheckpoint epoch (model_state (w_heap w)) optimizer_state_dict)]>
           (files w)))
  end.

(** Modelled from the spec: [tracker.save()], whose code is not under src/
    ("persists to a tabular file"): the table goes to [history.csv]. *)
Definition tracker_save : M world unit :=
  w <- get ;;
  modify (set_files
    (<[history_path record_dir := HistoryFile (tracker_table (aux (w_heap w)))]>
       (files w))).

(** ** fit *)

(** The arguments that [fit] reads here. *)
Record args : Type := mkArgs {
  model : string;
  epochs : Z;
  resume_ckpt : option path
}.

Definition newline : string := String (ascii_of_nat 10) EmptyString.

Definition path_str (p : path) : string := String.concat "/" p.

(** [np.mean] *)
Definition np_mean (l : list Q) : Q :=
  (fold_right Qplus 0 l / inject_Z (Z.of_nat (length l)))%Q.

(** [d[key]] *)
Definition getitem {A} (d : gmap string A) (key : string) : M world A :=
  match d !! key with
  | Some v => ret v
  | None => raise KeyError
  end.

(** [glob.glob(osp.join(record_dir, 'checkpoints', '*.pth'))], for a
    [record_dir] that is [plain] (see [is_checkpoint_file]). *)
Definition glob_checkpoints (f : gmap path file) : list path :=
  filter (fun p => is_checkpoint_file record_dir p = true) (map_to_list f).*1.

(** [os.remove(p)] *)
Definition os_remove (p : path) : M world unit :=
  w <- get ;;
  match files w !! p with
  | Some _ => modify (set_files (delete p (files w)))
  | None => raise OSError
  end.

(** The start of an epoch: its header and the new epoch of the tracker. *)
Definition epoch_start (epoch total_epochs : Z) : M world unit :=
  logger_info (underline (newline +:+ "Epoch " +:+ pretty epoch +:+ "/"
                            +:+ pretty total_epochs) "-") ;;;

  w <- get ;;
  on_aux (tracker_start_new_epoch (learning_rate (optimizer_state (w_heap w)))).

(** The step of the scheduler, if there is one. *)
Definition scheduler_update : M world unit :=
  if has_scheduler then
    w <- get ;;
    let history := tracker_history (aux (w_heap w)) in
    l <- getitem history "loss" ;;
    let labeled_loss := np_mean l in

    (* only adjust learning rate according to loss of labeled examples *)
    labeled_loss <-
      match history !! "propagate_loss" with
      | Some pl => ret (labeled_loss - np_mean pl)%Q
      | None => ret labeled_loss
      end ;;

    on_heap (scheduler_step labeled_loss)
  else ret tt.

(** The part of an epoch up to the scheduler step. *)
Definition epoch_training (epoch total_epochs : Z) : M world unit :=
  epoch_start epoch total_epochs ;;;
  train_one_epoch (negb val_exists) ;;;
  scheduler_update.

(** The rest of the epoch: metrics, learning curves, checkpoints. *)
Definition epoch_persist (epoch : Z) : M world unit :=
  (* save metrics to csv file *)
  tracker_save ;;;

  (* save learning curves *)
  on_aux record_plot_learning_curves ;;;

  (* remove previous checkpoints *)
  w <- get ;;
  for_each (glob_checkpoints (files w)) os_remove ;;;

  (* save checkpoints for resuming training *)
  w <- get ;;
  save_checkpoint (ckpt_path record_dir epoch) epoch
                  (optimizer_state (w_heap w)).

Definition epoch_body (total_epochs epoch : Z) : M world unit :=
  epoch_training epoch total_epochs ;;;
  epoch_persist epoch.

(** [fit] up to the training loop; it returns [initial_epoch] and
    [total_epochs].  [model.to(device)] is left out (devices are not
    modelled); [load_datasets] stands for the construction and the
    summaries of the datasets and of the loaders. *)
Definition fit_setup (a : args) : M world (Z * Z) :=
  checkpoint <-
    match resume_ckpt a with
    | Some p =>
        logger_info ("Loading checkpoints from " +:+ path_str p +:+ ".") ;;;
        ck <- torch_load p ;;
        ret (Some ck)
    | None => ret None
    end ;;

  initialize_model (model a) checkpoint ;;;
  w <- get ;;
  logger_info (model_summary (w_heap w)) ;;;
  on_aux record_save_params ;;;

  on_aux load_datasets ;;;

  logger_info (underline (newline +:+ "Training Stage") "=") ;;;
  get_default_optimizer checkpoint ;;;
  let initial_epoch :=
    match checkpoint with
    | Some ck => (ck_epoch ck + 1)%Z
    | None => 1%Z
    end in
  let total_epochs := (epochs a + initial_epoch - 1)%Z in
  ret (initial_epoch, total_epochs).

Definition fit (a : args) : M world unit :=
  ie_te <- fit_setup a ;;
  let initial_epoch := fst ie_te in
  let total_epochs := snd ie_te in

  (* range(initial_epoch, total_epochs + 1) *)
  for_each (seqZ initial_epoch (total_epochs + 1 - initial_epoch))
           (epoch_body total_epochs) ;;;

  on_aux tracker_report.

End Driver.

End Train.

(** * Paths as strings *)

(** [posixpath.join] and [posixpath.dirname] on the strings themselves,
    for the two places where [train.py] builds a path and takes it apart
    again. *)
Module PosixPath.

(** [c == '/'] ([os.path] is [posixpath]) *)
Definition is_sep (c : ascii) : bool := Ascii.eqb c "/".

(** ['/' in s] *)
Fixpoint has_sep (s : string) : bool :=
  match s with
  | EmptyString => false
  | String c r => is_sep c || has_sep r
  end.

(** [s == '/' * len(s)] *)
Fixpoint all_sep (s : string) : bool :=
  match s with
  | EmptyString => true
  | String c r => is_sep c && all_sep r
  end.

(** [s.startswith('/')] and [s.endswith('/')] *)
Definition starts_with_sep (s : string) : bool :=
  match s with
  | String c _ => is_sep c
  | EmptyString => false
  end.

Fixpoint ends_with_sep (s : string) : bool :=
  match s with
  | EmptyString => false
  | String c EmptyString => is_sep c
  | String _ r => ends_with_sep r
  end.

(** [p[:p.rfind('/') + 1]] *)
Fixpoint head_to_last_sep (p : string) : string :=
  match p with
  | EmptyString => EmptyString
  | String c r => if has_sep p then String c (head_to_last_sep r) else EmptyString
  end.

(** [s.rstrip('/')] *)
Fixpoint rstrip_sep (s : string) : string :=
  match s with
  | EmptyString => EmptyString
  | String c r => if all_sep s then EmptyString else String c (rstrip_sep r)
  end.

(** [posixpath.dirname] *)
Definition dirname (p : string) : string :=
  let head := head_to_last_sep p in
  if negb (String.eqb head EmptyString) && negb (all_sep head)
  then rstrip_sep head else head.

(** One step of the loop of [posixpath.join], and [join(a, *p)]. *)
Definition join_step (path b : string) : string :=
  if starts_with_sep b then b
  else if String.eqb path EmptyString || ends_with_sep path then path +:+ b
  else path +:+ "/" +:+ b.

Definition join (a : string) (p : list string) : string :=
  fold_left join_step p a.

(** [osp.join(record_dir, 'checkpoints', 'ckpt.{:04d}.pth'.format(epoch))],
    the path [fit] saves to, and
    [osp.dirname(osp.dirname(args.resume_ckpt))], the record directory of a
    resumed run. *)
Definition ckpt_file (record_dir : string) (epoch : Z) : string :=
  join record_dir ["checkpoints"; Train.ckpt_name epoch].

Definition record_dir_of (resume_ckpt : string) : string :=
  dirname (dirname resume_ckpt).

(** A directory name without a trailing separator: the empty name, a run of
    separators (the root), or a name whose last character is no
    separator. *)
Definition no_trailing_sep (d : string) : Prop :=
  ends_with_sep d = false \/ all_sep d = true.

End PosixPath.

(** * Vocabulary of the statements *)

Import CdwsMil Train.
Open Scope py_scope.

(** The element of a four-dimensional tensor at batch [b], channel [c], row
    [i], column [j]. *)
Definition pixel (t : tensor) (b c i j : nat) : Q := data t [b; c; i; j].

(** The entry of a one-dimensional tensor, and of a two-dimensional one. *)
Definition entry (t : tensor) (b : nat) : Q := data t [b].
Definition cell (t : tensor) (b c : nat) : Q := data t [b; c].

(** The weight has shape [(cout, cin, k, k)], the bias [(cout,)], and the
    padding is [p]. *)
Definition shaped (c : Conv2d) (cout cin k p : nat) : Prop :=
  shape (weight c) = [cout; cin; k; k] /\ shape (bias c) = [cout] /\ padding c = p.

(** The layers have the shapes and the pooling that [__init__] gives
    them. *)
Definition constructor_layers (L : Layers) : Prop :=
  shaped (conv1_1 L) 64 3 3 1 /\ shaped (conv1_2 L) 64 64 3 1 /\
  pool1 L = mkMaxPool2d 2 2 /\
  shaped (conv2_1 L) 128 64 3 1 /\ shaped (conv2_2 L) 128 128 3 1 /\
  pool2 L = mkMaxPool2d 2 2 /\
  shaped (conv3_1 L) 256 128 3 1 /\ shaped (conv3_2 L) 256 256 3 1 /\
  shaped (conv3_3 L) 256 256 3 1 /\
  pool3 L = mkMaxPool2d 2 2 /\
  shaped (side_conv1 L) 1 64 1 0 /\ shaped (side_conv2 L) 1 128 1 0 /\
  shaped (side_conv3 L) 1 256 1 0.

(** [w] holds the three class weights 0.2, 0.35, 0.45 in row-major order
    (as the class attribute does, and its view as [(1, 3, 1, 1)]). *)
Definition is_fusion_weights (w : tensor) : Prop :=
  numel (shape w) = 3
  /\ data w (unravel (shape w) 0) = (2 # 10)%Q
  /\ data w (unravel (shape w) 1) = (35 # 100)%Q
  /\ data w (unravel (shape w) 2) = (45 # 100)%Q.

(** Each side head has one output channel. *)
Definition single_channel_heads (L : Layers) : Prop :=
  hd 0 (shape (weight (side_conv1 L))) = 1
  /\ hd 0 (shape (weight (side_conv2 L))) = 1
  /\ hd 0 (shape (weight (side_conv3 L))) = 1.

(** Whether a call returned, and the value it returned ([d] when it
    raised). *)
Definition is_Ok {A} (r : result A) : bool :=
  match r with
  | Ok _ => true
  | Raise _ => false
  end.

Definition returned {A} (d : A) (r : result A) : A :=
  match r with
  | Ok a => a
  | Raise _ => d
  end.

(** The exceptions of the tensor computations of [compute_loss]. *)
Definition tensor_error (e : exn) : Prop :=
  e = RuntimeError \/ e = IndexError \/ e = AttributeError.

(** [fused_output] is only set on an instance whose [side_outputs] is
    set. *)
Definition outputs_linked (st : CDWS) : Prop :=
  fused_output st <> None -> side_outputs st <> None.

(** The mean of the plane of sample [b], channel [c] of a four-dimensional
    tensor. *)
Definition plane_mean (o : tensor) (b c : nat) : Q :=
  match shape o with
  | [_; _; H; W] =>
      (sumQ H (fun i => sumQ W (fun j => pixel o b c i j))
       / inject_Z (Z.of_nat (H * W)))%Q
  | _ => 0%Q
  end.

(** The prediction for a whole image: the generalized mean of [mil_loss],
    [output.mean(dim=(2, 3)) ** (1 / self.gmp)]. *)
Definition image_pred (k_pow : Q -> Q -> Q) (o : tensor) (b c : nat) : Q :=
  k_pow (plane_mean o b c) (1 / gmp)%Q.

(** The squared gaps between predicted and target area, summed over the
    samples and the channels of the batch. *)
Definition area_gap (o ta : tensor) (B C0 : nat) : Q :=
  sumQ B (fun b => sumQ C0 (fun c => ((plane_mean o b c - entry ta b) ^ 2)%Q)).

(** [w] is the attribute [fusion_weights] as [forward] leaves it. *)
Definition viewed_fusion_weights (w : tensor) : Prop :=
  shape w = [1; 3; 1; 1] /\ is_fusion_weights w.

(** The string without its leading zeros. *)
Fixpoint strip_zeros (s : string) : string :=
  match s with
  | String c r => if Ascii.eqb c "0" then strip_zeros r else s
  | EmptyString => EmptyString
  end.

(** The first character is neither a zero nor a sign. *)
Definition starts_with_digit_1_9 (s : string) : Prop :=
  exists c r, s = String c r /\ c <> "0"%char /\ c <> "-"%char.

(** What a computation of the training module leaves as it was. *)
Section TrainVocabulary.

Context `{C : Collaborators}.

(** The second world differs from the first in the heap at most. *)
Definition untouched (w w' : world) : Prop :=
  grad_enabled w' = grad_enabled w /\ log w' = log w /\ files w' = files w.

(** A computation that changes the heap at most, whatever its outcome. *)
Definition quiet {A} (c : M world A) : Prop :=
  forall w, untouched w (snd (c w)).

(** The second world has the records [l] more in its log, and the grad
    mode and the files of the first. *)
Definition logged (l : list log_record) (w w' : world) : Prop :=
  grad_enabled w' = grad_enabled w /\ files w' = files w /\ log w' = log w ++ l.

(** A computation that changes the heap and adds to the log at most. *)
Definition logs_only {A} (c : M world A) : Prop :=
  forall w, exists l, logged l w (snd (c w)).

(** The exceptions that the handler of the batch loop has to catch when
    the loop is run on the fetches of a loader, in the order of the
    batches: the loop ends at the first fetch that raises and at the first
    iteration that raises something else than an instance of
    [RuntimeError]. *)
Fixpoint caught (ph : phase) (fetches : list (M X batch)) (w : world) : list exn :=
  match fetches with
  | [] => []
  | fetch :: rest =>
      match on_aux fetch w with
      | (Ok data, w1) =>
          match train_one_iteration ph data w1 with
          | (Ok _, w2) => caught ph rest w2
          | (Raise ex, w2) =>
              if issubclass ex RuntimeError
              then ex :: caught ph rest (add_log (Warning ex) w2)
              else []
          end
      | (Raise _, _) => []
      end
  end.

(** The exceptions caught in a whole phase. *)
Definition caught_in_phase (ph : phase) (w : world) : list exn :=
  match phase_setup ph w with
  | (Ok fetches, w0) => caught ph fetches w0
  | (Raise _, _) => []
  end.

End TrainVocabulary.

(** * Instances for the closed examples *)

Module Demo.

(** All-zero parameters. *)
Definition zero_values : nat -> (list nat -> Q) * (list nat -> Q) :=
  fun _ => (fun _ => 0%Q, fun _ => 0%Q).

(** Rational stand-ins for the three kernels.  With all-zero parameters
    every side head computes 0, where the sigmoid is exactly 1/2. *)
Definition demo_sigmoid (x : Q) : Q := (1 # 2)%Q.
Definition demo_log (x : Q) : Q := (x - 1)%Q.
Definition demo_pow (x y : Q) : Q := x.

(** An image batch of shape (1, 3, 8, 8), and a single image of shape
    (3, 8, 8). *)
Definition batch_8x8 : tensor := mkTensor [1; 3; 8; 8] (fun _ => 1%Q).
Definition image_8x8 : tensor := mkTensor [3; 8; 8] (fun _ => 1%Q).

(** The scenario of the spec: [target_class = [1, 0]],
    [target_area = [0.3, 0.0]]. *)
Definition scenario_class : tensor := tensor_of_list [1; 0]%Q.
Definition scenario_area : tensor := tensor_of_list [3 # 10; 0]%Q.

(** An instance with the layers of the constructor and the outputs that a
    forward pass on two 2x2 images would leave, had it reached its end: the
    side maps hold (1 + b + c + i + j) / 10, the fused map their weighted
    sum. *)
Definition scenario_side_outputs : tensor :=
  mkTensor [2; 3; 2; 2] (fun idx =>
    match idx with
    | [b; c; i; j] => (inject_Z (Z.of_nat (1 + b + c + i + j)) / 10)%Q
    | _ => 0%Q
    end).

Definition scenario_fused_output : tensor :=
  mkTensor [2; 1; 2; 2] (fun idx =>
    match idx with
    | [b; _; i; j] =>
        ((2 # 10) * pixel scenario_side_outputs b 0 i j
         + (35 # 100) * pixel scenario_side_outputs b 1 i j
         + (45 # 100) * pixel scenario_side_outputs b 2 i j)%Q
    | _ => 0%Q
    end).

Definition populated : CDWS :=
  mkCDWS (new_layers zero_values)
         (Some scenario_side_outputs) (Some scenario_fused_output)
         class_fusion_weights class_side_ac_weights class_fuse_ac_weight.

(** An instance whose three pooling layers were replaced by
    [nn.MaxPool2d(1, stride=1)], which keep the size of the feature map:
    the only instances on which [forward] reaches the concatenation. *)
Definition replace_pools (P : MaxPool2d) (L : Layers) : Layers :=
  mkLayers (conv1_1 L) (conv1_2 L) P (conv2_1 L) (conv2_2 L) P
           (conv3_1 L) (conv3_2 L) (conv3_3 L) P
           (side_conv1 L) (side_conv2 L) (side_conv3 L).

Definition unpooled : CDWS :=
  mkCDWS (replace_pools (mkMaxPool2d 1 1) (new_layers zero_values))
         None None class_fusion_weights class_side_ac_weights
         class_fuse_ac_weight.

(** Collaborators for [train.py] small enough to run: a batch is [None]
    when the model handles it and [Some ex] when its forward pass raises
    [ex]; the model state counts the optimizer steps, the optimizer state
    is the learning rate, and the rest of the heap is the list of what the
    fetches of the loaders give: a batch, or the exception that the fetch
    raises. *)
#[export] Instance toy : Collaborators := {|
  MS := nat;
  OS := Q;
  X := list (result (option exn));
  batch := option exn;
  input := option exn;
  target := unit;
  pred := unit;
  loss := Q;
  table := nat;
  preprocess := fun b => ret (b, tt);
  model_call := fun i =>
    match i with
    | Some ex => raise ex
    | None => ret tt
    end;
  model_compute_loss := fun _ _ metrics => ret (1%Q, metrics);
  loss_item := fun l => l;
  loss_backward := fun _ => ret tt;
  postprocess := fun p t => ret (p, t);
  evaluate := fun _ _ _ => ret ∅;
  model_train := ret tt;
  model_eval := ret tt;
  model_summary := fun _ => EmptyString;
  fresh_model := fun _ => 0;
  optimizer_zero_grad := ret tt;
  optimizer_step :=
    modify (fun h => mkHeap (S (model_state h)) (optimizer_state h) (aux h));
  fresh_optimizer := fun _ => (1 # 100)%Q;
  learning_rate := fun lr => lr;
  has_scheduler := false;
  scheduler_step := fun _ => ret tt;
  tracker_train := ret tt;
  tracker_eval := ret tt;
  tracker_step := fun _ => ret tt;
  tracker_log := fun _ => EmptyString;
  tracker_start_new_epoch := fun _ => ret tt;
  tracker_history := fun _ => ∅;
  tracker_table := fun x => length x;
  tracker_report := ret tt;
  record_save_params := ret tt;
  record_plot_learning_curves := ret tt;
  load_datasets := ret tt;
  val_exists := false;
  loader_batches := fun _ => x <- get ;; ret (map lift x);
  underline := fun s _ => s;
  save_checkpoint_error := fun _ => None
|}.

(** A batch that trains, and a batch on which the forward pass raises. *)
Definition good : @batch toy := None.
Definition failing (ex : exn) : @batch toy := Some ex.

(** The fetch of a loader that yields the batch [b]. *)
Definition fetch_of (b : @batch toy) : M (@X toy) (@batch toy) := lift (Ok b).

Definition toy_record_dir : path := ["records"; "run"].

(** A world whose loaders yield [batches] and whose disk holds [f]. *)
Definition toy_world (batches : list (@batch toy)) (f : gmap path file)
    : @world toy :=
  mkWorld (mkHeap 0 (1 # 100)%Q (map Ok batches)) true [] f.

(** A world whose loaders fetch [good], then raise [ex], then would fetch
    [good] again. *)
Definition toy_world_failing_fetch (ex : exn) (f : gmap path file)
    : @world toy :=
  mkWorld (mkHeap 0 (1 # 100)%Q [Ok good; Raise ex; Ok good]) true [] f.

(** A checkpoint saved at epoch 7, and the arguments that resume from it for
    three more epochs. *)
Definition saved_at_7 : checkpoint := mkCheckpoint 7 42 (1 # 1000)%Q.

Definition disk_with_checkpoint : gmap path file :=
  {[ ckpt_path toy_record_dir 7 := CheckpointFile saved_at_7 ]}.

Definition resume_args : args :=
  mkArgs "wessup" 3 (Some (ckpt_path toy_record_dir 7)).

End Demo.

Module Cases.
Import Demo.

(** Labels for a batch of three, where the populated instance holds a batch
    of two. *)
Definition three_labels : tensor := tensor_of_list [1; 0; 1]%Q.

(** The populated instance after [model.fuse_ac_weight = torch.tensor([10.])]. *)
Definition ten : tensor := tensor_of_list [10 # 1]%Q.

Definition with_tensor_weight : CDWS :=
  set_fuse_ac_weight (PyTensor ten) populated.

(** The worlds of a train phase over the batches [good], [failing ex] and
    [good], from the world [w] in which the phase starts: after the setup
    of the phase, after the first turn of the loop, after the fetch of the
    second batch, and after the iteration on it. *)
Definition three_batches (ex : exn) : @world toy :=
  toy_world [good; failing ex; good] ∅.

Definition phase_ready (w : @world toy) : @world toy :=
  snd (phase_setup train w).

Definition first_done (w : @world toy) : @world toy :=
  snd (for_each [fetch_of good] (fetch_and_try train) (phase_ready w)).

Definition second_fetched (ex : exn) (w : @world toy) : @world toy :=
  snd (on_aux (fetch_of (failing ex)) (first_done w)).

Definition second_raised (ex : exn) (w : @world toy) : @world toy :=
  snd (train_one_iteration train (failing ex) (second_fetched ex w)).

(** The worlds of a new run of two epochs over the same batches: after the
    setup of [fit], and after the start of the first epoch. *)
Definition run_ready (ex : exn) : @world toy :=
  snd (fit_setup (mkArgs "wessup" 2 None) (three_batches ex)).

Definition epoch_ready (ex : exn) : @world toy :=
  snd (epoch_start 1 2 (run_ready ex)).



(** A new run of no epoch, a new run of two epochs, and the arguments that
    resume from the checkpoint the latter leaves. *)
Definition no_epochs : args := mkArgs "wessup" 0 None.
Definition two_epochs : args := mkArgs "wessup" 2 None.
Definition resume_after_two : args :=
  mkArgs "wessup" 3 (Some (ckpt_path toy_record_dir 2)).

End Cases.

(** * Facts about the monad and the tensor primitives *)

Lemma bind_lift {S A B} (r : result A) (k : A -> M S B) (s : S) :
  bind (lift r) k s = match r with Ok a => k a s | Raise e => (Raise e, s) end.
Proof. unfold bind, lift. destruct r; reflexivity. Qed.

Lemma bind_get {S B} (k : S -> M S B) (s : S) : bind get k s = k s s.
Proof. reflexivity. Qed.

Lemma bind_modify {S B} (f : S -> S) (k : unit -> M S B) (s : S) :
  bind (modify f) k s = k tt (f s).
Proof. reflexivity. Qed.

Lemma bind_ok {S A B} (c : M S A) (k : A -> M S B) s a s' :
  c s = (Ok a, s') -> bind c k s = k a s'.
Proof. intros H. unfold bind. rewrite H. reflexivity. Qed.

Lemma bind_raise {S A B} (c : M S A) (k : A -> M S B) s e s' :
  c s = (Raise e, s') -> bind c k s = (Raise e, s').
Proof. intros H. unfold bind. rewrite H. reflexivity. Qed.

Lemma shape_eqb_refl a : shape_eqb a a = true.
Proof.
  induction a as [|x a IH]; simpl; [reflexivity|].
  rewrite Nat.eqb_refl. exact IH.
Qed.

(** ** Which exception a primitive raises *)

Lemma Conv2d_call_raises c x e : Conv2d_call c x = Raise e -> e = RuntimeError.
Proof.
  unfold Conv2d_call.
  destruct (batching_of (shape x)) as [[b [[C0 H] W]]|];
    [|intros [= <-]; reflexivity].
  destruct (shape (weight c)) as [|Co [|Ci [|kh [|kw [|]]]]];
    try (intros [= <-]; reflexivity).
  destruct (_ && _); [discriminate | intros [= <-]; reflexivity].
Qed.

Lemma binop_raises f a b e : binop f a b = Raise e -> e = RuntimeError.
Proof.
  unfold binop. destruct (broadcast_shapes _ _); [discriminate | congruence].
Qed.

Lemma mean_2_3_raises t e : mean_2_3 t = Raise e -> e = IndexError.
Proof.
  unfold mean_2_3. destruct (shape t) as [|B [|C0 [|H [|W ?]]]]; congruence.
Qed.

Lemma sum_dim1_raises k t e : sum_dim1 k t = Raise e -> e = IndexError.
Proof.
  unfold sum_dim1. destruct (shape t) as [|B [|C0 ?]]; try congruence.
  destruct k; congruence.
Qed.

Lemma tensor_error_not_assertion e : tensor_error e -> e <> AssertionError.
Proof. intros [-> | [-> | ->]]; discriminate. Qed.

(** ** Shapes through the layers *)

Lemma batching_of_planes b C0 H W :
  batching_of (planes b C0 H W) = Some (b, (C0, H, W)).
Proof. destruct b; reflexivity. Qed.

Lemma batching_of_Some sh b C0 H W :
  batching_of sh = Some (b, (C0, H, W)) -> sh = planes b C0 H W.
Proof.
  destruct sh as [|d0 [|d1 [|d2 [|d3 [|]]]]]; cbn; try discriminate;
    intros [= <- <- <- <-]; reflexivity.
Qed.

(** A layer that returns was given an image or a batch of images. *)
Lemma Conv2d_call_in c x y :
  Conv2d_call c x = Ok y -> exists b C0 H W, shape x = planes b C0 H W.
Proof.
  unfold Conv2d_call.
  destruct (batching_of (shape x)) as [[b [[C0 H] W]]|] eqn:E; [|discriminate].
  intros _. apply batching_of_Some in E. eauto.
Qed.

(** A convolution keeps the batching and gives the channels of its
    weight. *)
Lemma Conv2d_call_out c x y b C0 H W :
  shape x = planes b C0 H W -> Conv2d_call c x = Ok y ->
  exists H' W', shape y = planes b (hd 0 (shape (weight c))) H' W'.
Proof.
  intros Hx. unfold Conv2d_call. rewrite Hx, batching_of_planes.
  destruct (shape (weight c)) as [|Co [|Ci [|kh [|kw [|]]]]]; try discriminate.
  destruct (_ && _); [|discriminate]. intros [= <-]. cbn. eauto.
Qed.

(** A pooling keeps the batching and the channels. *)
Lemma MaxPool2d_call_out P x y b C0 H W :
  shape x = planes b C0 H W -> MaxPool2d_call P x = Ok y ->
  exists H' W', shape y = planes b C0 H' W'.
Proof.
  intros Hx. unfold MaxPool2d_call. rewrite Hx, batching_of_planes.
  destruct (_ && _); [|discriminate]. intros [= <-]. cbn. eauto.
Qed.

(** A convolution whose kernel is [2 p + 1] wide keeps the size of the
    plane. *)
Lemma Conv2d_call_same c cout cin k p x b C0 H W :
  shaped c cout cin k p -> k = 2 * p + 1 -> shape x = planes b C0 H W ->
  (exists y, Conv2d_call c x = Ok y /\ shape y = planes b cout H W
             /\ C0 = cin /\ 1 <= H /\ 1 <= W)
  \/ Conv2d_call c x = Raise RuntimeError.
Proof.
  intros (Hw & Hb & Hp) Hk Hx. unfold Conv2d_call.
  rewrite Hx, batching_of_planes, Hw, Hb, Hp.
  destruct (_ && _) eqn:E; [left | right; reflexivity].
  repeat (apply andb_prop in E as [E ?]).
  apply Nat.eqb_eq in E.
  repeat match goal with H : (_ <=? _) = true |- _ => apply Nat.leb_le in H end.
  eexists; split; [reflexivity|]. simpl shape.
  split; [f_equal; lia|].
  repeat split; lia.
Qed.

Lemma MaxPool2d_call_halve x b C0 H W :
  shape x = planes b C0 H W ->
  (exists y, MaxPool2d_call (mkMaxPool2d 2 2) x = Ok y
             /\ shape y = planes b C0 ((H - 2) / 2 + 1) ((W - 2) / 2 + 1)
             /\ 2 <= H /\ 2 <= W)
  \/ MaxPool2d_call (mkMaxPool2d 2 2) x = Raise RuntimeError.
Proof.
  intros Hx. unfold MaxPool2d_call. rewrite Hx, batching_of_planes.
  cbn [kernel_size stride].
  destruct (_ && _) eqn:E; [left | right; reflexivity].
  repeat (apply andb_prop in E as [E ?]).
  repeat match goal with H : (_ <=? _) = true |- _ => apply Nat.leb_le in H end.
  eexists; split; [reflexivity|]. simpl shape. repeat split; lia.
Qed.

Lemma halved_lt H : 2 <= H -> (H - 2) / 2 + 1 <> H.
Proof. intros. pose proof (Nat.div_mod_eq (H - 2) 2). lia. Qed.

(** ** Concatenation *)

(** Side maps that differ in height and in width cannot be concatenated:
    in a batch the second dimension is the channel, in a single image it is
    the height. *)
Lemma cat1_mismatch a a' rest b ca H W cb H' W' :
  shape a = planes b ca H W -> shape a' = planes b cb H' W' ->
  H <> H' -> W <> W' ->
  cat1 (a :: a' :: rest) = Raise RuntimeError.
Proof.
  intros Ha Hb HneH HneW. unfold cat1. cbn [List.filter].
  rewrite Ha, Hb.
  apply Nat.eqb_neq in HneH, HneW.
  destruct b as [|B]; cbn [planes shape_eqb]; rewrite ?andb_false_r; cbn [negb];
    rewrite Ha; cbn [planes forallb]; rewrite Hb;
    cbn [planes cat1_compatible shape_eqb];
    rewrite ?HneH, ?HneW, ?andb_false_r; reflexivity.
Qed.

(** The concatenation of three one-channel side maps of a batch. *)
Lemma cat1_three a b c so B1 H1 W1 B2 H2 W2 B3 H3 W3 :
  shape a = [B1; 1; H1; W1] -> shape b = [B2; 1; H2; W2] ->
  shape c = [B3; 1; H3; W3] ->
  cat1 [a; b; c] = Ok so -> shape so = [B1; 3; H1; W1].
Proof.
  intros Ha Hb Hc. unfold cat1. cbn [List.filter].
  rewrite Ha, Hb, Hc. cbn [shape_eqb]. rewrite !andb_false_r. cbn [negb].
  rewrite Ha. destruct (forallb _ _); [|discriminate].
  intros [= <-]. cbn. rewrite Ha, Hb, Hc. reflexivity.
Qed.

(** The same for three single images: the maps are stacked by rows. *)
Lemma cat1_three_unbatched a b c so H1 W1 H2 W2 H3 W3 :
  shape a = [1; H1; W1] -> shape b = [1; H2; W2] ->
  shape c = [1; H3; W3] ->
  cat1 [a; b; c] = Ok so -> shape so = [1; H1 + (H2 + (H3 + 0)); W1].
Proof.
  intros Ha Hb Hc. unfold cat1. cbn [List.filter].
  rewrite Ha, Hb, Hc. cbn [shape_eqb]. rewrite !andb_false_r. cbn [negb].
  rewrite Ha. destruct (forallb _ _); [|discriminate].
  intros [= <-]. cbn. rewrite Ha, Hb, Hc. reflexivity.
Qed.

(** ** Broadcasting *)

Lemma binop_ok f a b sh :
  broadcast_shapes (shape a) (shape b) = Some sh ->
  exists y, binop f a b = Ok y /\ shape y = sh
            /\ forall idx, data y idx
                 = f (data a (bcast_index (shape a) idx))
                     (data b (bcast_index (shape b) idx)).
Proof. intros Hb. unfold binop. rewrite Hb. eauto. Qed.

Lemma broadcast_column B C0 : broadcast_shapes [B; 1] [B; C0] = Some [B; C0].
Proof.
  unfold broadcast_shapes.
  destruct C0 as [|[|C0]]; cbn; rewrite Nat.eqb_refl; reflexivity.
Qed.

Lemma broadcast_column_r B C0 : broadcast_shapes [B; C0] [B; 1] = Some [B; C0].
Proof.
  unfold broadcast_shapes.
  destruct C0 as [|[|C0]]; cbn; rewrite Nat.eqb_refl; reflexivity.
Qed.

Lemma broadcast_same sh : broadcast_shapes sh sh = Some sh.
Proof.
  unfold broadcast_shapes.
  assert (H : forall l, broadcast_rev l l = Some l).
  { induction l as [|x l IH]; cbn; [reflexivity|].
    rewrite IH, Nat.eqb_refl. reflexivity. }
  rewrite H, rev_involutive. reflexivity.
Qed.

Lemma broadcast_scalar sh : broadcast_shapes sh [] = Some sh.
Proof.
  unfold broadcast_shapes.
  assert (H : forall l, broadcast_rev l [] = Some l) by (intros [|? ?]; reflexivity).
  change (rev []) with (@nil nat). rewrite H, rev_involutive. reflexivity.
Qed.

Lemma broadcast_row_column B : broadcast_shapes [1; 3] [B; 1] = Some [B; 3].
Proof. unfold broadcast_shapes. destruct B as [|[|B]]; reflexivity. Qed.

Lemma broadcast_weights B H W :
  broadcast_shapes [B; 3; H; W] [1; 3; 1; 1] = Some [B; 3; H; W].
Proof.
  unfold broadcast_shapes. cbn.
  destruct (B =? 1) eqn:EB; destruct (H =? 1) eqn:EH; destruct (W =? 1) eqn:EW;
    cbn; try reflexivity;
    repeat match goal with
           | E : (_ =? 1) = true |- _ => apply Nat.eqb_eq in E; subst
           end;
    try reflexivity.
Qed.

Lemma bcast_keep d i : i < d -> (if d =? 1 then 0 else i) = i.
Proof.
  intros Hlt. destruct (d =? 1) eqn:E; [apply Nat.eqb_eq in E; lia | reflexivity].
Qed.

(** ** Following the shape through the layers of a pass *)

Ltac shape_of t k :=
  lazymatch t with
  | relu ?h => match goal with Hx : shape h = _ |- _ => k Hx end
  | _ => match goal with Hx : shape t = _ |- _ => k Hx end
  end.

Ltac track E :=
  lazymatch type of E with
  | Conv2d_call ?L ?t = Ok ?y =>
      shape_of t ltac:(fun Hx =>
        let H' := fresh "H" in
        let W' := fresh "W" in
        let Hy := fresh "Hy" in
        destruct (Conv2d_call_out L t y _ _ _ _ Hx E) as (H' & W' & Hy))
  | MaxPool2d_call ?P ?t = Ok ?y =>
      shape_of t ltac:(fun Hx =>
        let H' := fresh "H" in
        let W' := fresh "W" in
        let Hy := fresh "Hy" in
        destruct (MaxPool2d_call_out P t y _ _ _ _ Hx E) as (H' & W' & Hy))
  end.

(** * Facts about models/cdws_mil.py *)

Section CdwsMilFacts.

Variables (k_sigmoid k_log : Q -> Q) (k_pow : Q -> Q -> Q).

(** ** The constructor *)

Lemma init_returns init theta :
  exists st, __init__ init theta = Ok st /\ constructor_layers (layers st)
    /\ side_outputs st = None /\ fused_output st = None
    /\ fusion_weights st = class_fusion_weights
    /\ side_ac_weights st = class_side_ac_weights
    /\ fuse_ac_weight st = PyInt 10.
Proof.
  eexists. split; [reflexivity|].
  split; [|repeat split].
  unfold constructor_layers, shaped. cbn. repeat split.
Qed.

(** ** The forward pass on the layers of the constructor *)

Ltac conv_step Hs :=
  rewrite bind_lift;
  lazymatch goal with
  | |- context [Conv2d_call ?L ?t] =>
      shape_of t ltac:(fun Hx =>
        let y := fresh "h" in
        let E := fresh "E" in
        let Hy := fresh "Hy" in
        destruct (Conv2d_call_same L _ _ _ _ t _ _ _ _ Hs eq_refl Hx)
          as [(y & E & Hy & _ & _ & _) | E]; rewrite E; [|reflexivity])
  end.

Ltac pool_step HP :=
  rewrite bind_lift, HP;
  lazymatch goal with
  | |- context [MaxPool2d_call _ ?t] =>
      shape_of t ltac:(fun Hx =>
        let y := fresh "h" in
        let E := fresh "E" in
        let Hy := fresh "Hy" in
        destruct (MaxPool2d_call_halve t _ _ _ _ Hx)
          as [(y & E & Hy & ? & ?) | E]; rewrite E; [|reflexivity])
  end.

(** Every stage halves the plane, so the three side maps never have one
    size, for a batch and for a single image: the pass raises at a layer,
    or at the latest at [torch.cat], before anything is assigned. *)
Lemma forward_raises_shaped (st : CDWS) (x : tensor) :
  constructor_layers (layers st) ->
  forward k_sigmoid x st = (Raise RuntimeError, st).
Proof.
  intros (H11 & H12 & P1 & H21 & H22 & P2 & H31 & H32 & H33 & P3 & S1 & S2 & S3).
  unfold forward. rewrite bind_get. cbv zeta.
  rewrite bind_lift.
  destruct (Conv2d_call (conv1_1 (layers st)) x) as [h1|e] eqn:E1;
    [|apply Conv2d_call_raises in E1; subst e; reflexivity].
  destruct (Conv2d_call_in _ _ _ E1) as (b & C0 & H & W & Hx).
  destruct (Conv2d_call_same _ _ _ _ _ _ _ _ _ _ H11 eq_refl Hx)
    as [(y & E & Hy & _ & _ & _) | E]; [|congruence].
  assert (y = h1) by congruence. subst y. clear E E1 Hx.
  conv_step H12. conv_step S1. pool_step P1.
  conv_step H21. conv_step H22. conv_step S2. pool_step P2.
  conv_step H31. conv_step H32. conv_step H33. conv_step S3. pool_step P3.
  rewrite bind_lift.
  erewrite cat1_mismatch; [reflexivity | eassumption | eassumption | |];
    intros Heq; symmetry in Heq; revert Heq; apply halved_lt; assumption.
Qed.

(** ** What the two methods do to the stored outputs *)

Lemma attr_mean_raises o e : attr_mean o = Raise e -> tensor_error e.
Proof.
  unfold attr_mean, tensor_error. destruct o.
  - intros He. apply mean_2_3_raises in He. auto.
  - intros [= <-]. auto.
Qed.

Lemma mil_loss_raises tc o e :
  mil_loss k_log k_pow tc o = Raise e -> tensor_error e.
Proof.
  unfold mil_loss, rbind.
  destruct (attr_mean o) eqn:E1; [|intros [= <-]; eauto using attr_mean_raises].
  destruct (t_mul _ _) eqn:E2;
    [|intros [= <-]; apply binop_raises in E2; left; exact E2].
  destruct (t_mul _ _) eqn:E3 in |- *;
    [|intros [= <-]; apply binop_raises in E3; left; exact E3].
  intros He. apply binop_raises in He. left; exact He.
Qed.

Lemma ac_loss_raises tc ta o e : ac_loss tc ta o = Raise e -> tensor_error e.
Proof.
  unfold ac_loss, rbind.
  destruct (attr_mean o) eqn:E1; [|intros [= <-]; eauto using attr_mean_raises].
  destruct (t_sub _ _) eqn:E2;
    [|intros [= <-]; apply binop_raises in E2; left; exact E2].
  intros He. apply binop_raises in He. left; exact He.
Qed.

Lemma call_to_raises o e : call_to o = Raise e -> tensor_error e.
Proof.
  destruct o; simpl; [intros [= <-]; right; right; reflexivity | discriminate].
Qed.

Lemma py_mul_raises o t e : py_mul o t = Raise e -> tensor_error e.
Proof.
  destruct o; simpl; [discriminate|].
  intros He. apply binop_raises in He. left; exact He.
Qed.

(** [compute_loss] never assigns the two outputs, and its result is an
    assertion failure exactly when one of them is [None]. *)
Lemma compute_loss_effect tc ta st :
  side_outputs (snd (compute_loss k_log k_pow tc ta st)) = side_outputs st
  /\ fused_output (snd (compute_loss k_log k_pow tc ta st)) = fused_output st
  /\ (fst (compute_loss k_log k_pow tc ta st) = Raise AssertionError
      <-> side_outputs st = None \/ fused_output st = None).
Proof.
  set (Q := fun rs : result tensor * CDWS =>
    side_outputs (snd rs) = side_outputs st
    /\ fused_output (snd rs) = fused_output st
    /\ (fst rs = Raise AssertionError
        <-> side_outputs st = None \/ fused_output st = None)).
  change (Q (compute_loss k_log k_pow tc ta st)).
  unfold compute_loss. rewrite bind_get.
  destruct (side_outputs st) as [so|] eqn:Hso; cbn [is_Some_b py_assert];
    [|unfold Q; cbn; try rewrite Hso; intuition].
  unfold bind at 1. cbn [ret].
  destruct (fused_output st) as [fo|] eqn:Hfo; cbn [is_Some_b py_assert];
    [|unfold Q; cbn; try rewrite Hso; try rewrite Hfo; intuition].
  unfold bind at 1. cbn [ret].
  assert (Hgoal : forall (r : result tensor) (s : CDWS),
     side_outputs s = Some so -> fused_output s = Some fo ->
     (forall e, r = Raise e -> tensor_error e) -> Q (r, s)).
  { intros r s H1 H2 Hr. unfold Q. cbn [fst snd].
    try rewrite Hso. try rewrite Hfo.
    repeat split; auto.
    - intros ->. exfalso. eapply tensor_error_not_assertion; eauto.
    - intros [?|?]; discriminate. }
  clearbody Q.
  repeat first
    [ rewrite bind_get
    | rewrite bind_modify
    | rewrite bind_lift;
      match goal with
      | |- Q (match ?r with Ok _ => _ | Raise _ => _ end) =>
          let E := fresh "E" in
          destruct r eqn:E;
          [| apply Hgoal; [assumption | assumption |];
             intros ? [= <-];
             eauto using mil_loss_raises, ac_loss_raises, call_to_raises,
               py_mul_raises;
             first [ apply binop_raises in E | apply sum_dim1_raises in E ];
             subst; unfold tensor_error; auto ]
      end ].
  unfold lift. apply Hgoal; cbn; auto.
  intros e He. apply binop_raises in He. left; exact He.
Qed.

(** A pass that returns has assigned both outputs; a pass that raises has
    not touched [fused_output], and has left [side_outputs] as it was or
    assigned it. *)
Lemma forward_effect x st :
  match fst (forward k_sigmoid x st) with
  | Ok _ =>
      side_outputs (snd (forward k_sigmoid x st)) <> None
      /\ fused_output (snd (forward k_sigmoid x st)) <> None
  | Raise _ =>
      fused_output (snd (forward k_sigmoid x st)) = fused_output st
      /\ (side_outputs (snd (forward k_sigmoid x st)) = side_outputs st
          \/ side_outputs (snd (forward k_sigmoid x st)) <> None)
  end.
Proof.
  set (Q := fun rs : result tensor * CDWS =>
    match fst rs with
    | Ok _ => side_outputs (snd rs) <> None /\ fused_output (snd rs) <> None
    | Raise _ =>
        fused_output (snd rs) = fused_output st
        /\ (side_outputs (snd rs) = side_outputs st
            \/ side_outputs (snd rs) <> None)
    end).
  change (Q (forward k_sigmoid x st)).
  unfold forward. rewrite bind_get. cbv zeta.
  repeat first
    [ rewrite bind_get
    | rewrite bind_modify
    | rewrite bind_lift;
      match goal with
      | |- Q (match ?r with Ok _ => _ | Raise _ => _ end) =>
          destruct r;
          [| unfold Q; cbn; split;
             [reflexivity | first [left; reflexivity | right; discriminate]] ]
      end ].
  unfold Q; cbn. split; discriminate.
Qed.

Lemma do_call_step c st :
  outputs_linked st ->
  outputs_linked (snd (do_call k_sigmoid k_log k_pow c st))
  /\ (fused_output (snd (do_call k_sigmoid k_log k_pow c st)) <> None
      <-> fused_output st <> None
          \/ forward_returned (c, fst (do_call k_sigmoid k_log k_pow c st)) = true).
Proof.
  intros HJ. destruct c as [x | tc ta]; cbn [do_call].
  - pose proof (forward_effect x st) as HF. unfold outputs_linked in *.
    destruct (forward k_sigmoid x st) as [[h|e] st'];
      cbn [fst snd forward_returned] in *.
    + destruct HF as [H1 H2]. split; [auto|]. split; auto.
    + destruct HF as [H1 H2]. rewrite H1. split.
      * intros Hf. destruct H2 as [-> | ?]; auto.
      * split; [auto|]. intros [?|?]; [assumption | discriminate].
  - destruct (compute_loss_effect tc ta st) as (H1 & H2 & _).
    unfold outputs_linked in *.
    destruct (compute_loss k_log k_pow tc ta st) as [r st'];
      cbn [fst snd forward_returned] in *.
    rewrite H1, H2. split; [assumption|].
    split; [auto|]. intros [?|?]; [assumption | discriminate].
Qed.

(** Over any sequence of calls, [fused_output] is set exactly when it was
    set before or a forward pass of the sequence returned. *)
Lemma run_calls_invariant cs st :
  outputs_linked st ->
  outputs_linked (snd (run_calls k_sigmoid k_log k_pow cs st))
  /\ (fused_output (snd (run_calls k_sigmoid k_log k_pow cs st)) <> None
      <-> fused_output st <> None
          \/ existsb forward_returned
               (combine cs (fst (run_calls k_sigmoid k_log k_pow cs st))) = true).
Proof.
  revert st. induction cs as [|c cs IH]; intros st HJ; cbn [run_calls].
  - cbn. split; [assumption|]. split; [auto|].
    intros [?|?]; [assumption|discriminate].
  - destruct (do_call_step c st HJ) as [HJ' Hc].
    destruct (do_call k_sigmoid k_log k_pow c st) as [r st'] eqn:Ec.
    cbn [fst snd] in *.
    destruct (IH st' HJ') as [HJ'' Hcs].
    destruct (run_calls k_sigmoid k_log k_pow cs st') as [rs st''] eqn:Er.
    cbn [fst snd combine existsb] in *.
    split; [assumption|].
    rewrite Hcs, Hc, orb_true_iff. tauto.
Qed.

(** ** The fusion at the end of the forward pass *)

Ltac fwd_step :=
  rewrite bind_lift;
  lazymatch goal with
  | |- match ?r with Ok _ => _ | Raise _ => _ end = _ -> _ =>
      let E := fresh "E" in destruct r eqn:E; [|discriminate]; track E
  end.

(** The fusion on a batch: a pass that returns has stored side outputs and
    a fused output for the images of the batch, and the fused output is
    the weighted sum of the three side outputs. *)
Lemma forward_fuses st x h st' B C0 H0 W0 :
  is_fusion_weights (fusion_weights st) ->
  single_channel_heads (layers st) ->
  shape x = [B; C0; H0; W0] ->
  forward k_sigmoid x st = (Ok h, st') ->
  exists so fo H W,
    side_outputs st' = Some so /\ fused_output st' = Some fo
    /\ shape so = [B; 3; H; W] /\ shape fo = [B; 1; H; W]
    /\ is_fusion_weights (fusion_weights st')
    /\ forall b i j, b < B -> i < H -> j < W ->
         (pixel fo b 0 i j ==
            (2 # 10) * pixel so b 0 i j + (35 # 100) * pixel so b 1 i j
            + (45 # 100) * pixel so b 2 i j)%Q.
Proof.
  intros (Hn & Hw0 & Hw1 & Hw2) (Hs1 & Hs2 & Hs3) Hx.
  change (shape x = planes (Batched B) C0 H0 W0) in Hx.
  unfold forward. rewrite bind_get. cbv zeta.
  do 13 fwd_step.
  rewrite Hs1 in Hy1. rewrite Hs2 in Hy5. rewrite Hs3 in Hy10.
  cbn [planes] in Hy1, Hy5, Hy10.
  rewrite bind_lift.
  lazymatch goal with
  | |- match ?r with Ok _ => _ | Raise _ => _ end = _ -> _ =>
      destruct r as [so|] eqn:Ec; [|discriminate]
  end.
  pose proof (cat1_three (t_map k_sigmoid _) (t_map k_sigmoid _)
    (t_map k_sigmoid _) _ _ _ _ _ _ _ _ _ _ Hy1 Hy5 Hy10 Ec) as Hso.
  rewrite bind_modify, bind_get. cbn [fusion_weights set_side_outputs].
  rewrite bind_lift. unfold view at 1. rewrite Hn.
  change (3 =? numel [1; 3; 1; 1]) with true. cbv iota.
  rewrite bind_modify.
  rewrite bind_lift. unfold t_mul, binop at 1. cbn [shape].
  rewrite Hso, broadcast_weights.
  rewrite bind_lift. unfold sum_dim1 at 1. cbn [shape].
  rewrite bind_modify. unfold ret. intros [= <- <-].
  eexists _, _, _, _. cbn [side_outputs fused_output set_fused_output
    set_fusion_weights set_side_outputs fusion_weights shape].
  split; [reflexivity|]. split; [reflexivity|]. split; [eassumption|].
  split; [reflexivity|]. split.
  - unfold is_fusion_weights. cbn [shape data]. repeat split; assumption.
  - intros b i j Hb' Hi Hj. unfold pixel. cbn [data sumQ].
    unfold bcast_index. cbn [length Nat.sub skipn bcast_zip Nat.eqb].
    rewrite !(bcast_keep B b), !(bcast_keep _ i), !(bcast_keep _ j) by assumption.
    cbn [ravel numel fold_right Nat.mul Nat.add].
    rewrite Hw0, Hw1, Hw2. ring.
Qed.

(** ** The loss on populated outputs *)

Lemma mil_loss_ok tc o B C0 H W :
  shape tc = [B; 1] -> shape o = [B; C0; H; W] ->
  exists y, mil_loss k_log k_pow tc (Some o) = Ok y /\ shape y = [B; C0].
Proof.
  intros Htc Ho. unfold mil_loss, attr_mean, mean_2_3. rewrite Ho. cbn [rbind].
  unfold t_mul, t_add.
  match goal with |- context [binop Qmult tc ?v] =>
    destruct (binop_ok Qmult tc v [B; C0]) as (a & Ea & Ha & _);
      [rewrite Htc; apply broadcast_column|]
  end.
  rewrite Ea. cbn [rbind].
  match goal with |- context [binop Qmult ?u ?v] =>
    destruct (binop_ok Qmult u v [B; C0]) as (b & Eb & Hb & _);
      [cbn [shape scalar_rsub t_map]; rewrite Htc; apply broadcast_column|]
  end.
  rewrite Eb. cbn [rbind].
  destruct (binop_ok Qplus a b [B; C0]) as (y & Ey & Hy & _).
  { rewrite Ha, Hb. apply broadcast_same. }
  exists y. split; assumption.
Qed.

(** The area term of a sample is its class label times a sum over the
    batch: it is 0 for a sample whose label is 0. *)
Lemma ac_loss_gated tc ta o B C0 H W :
  shape tc = [B] -> shape ta = [B] -> shape o = [B; C0; H; W] ->
  exists y, ac_loss (unsqueeze_last tc) (unsqueeze_last ta) (Some o) = Ok y
    /\ shape y = [B; 1]
    /\ forall b, b < B -> (entry tc b == 0)%Q -> (cell y b 0 == 0)%Q.
Proof.
  intros Htc Hta Ho.
  assert (Htc' : shape (unsqueeze_last tc) = [B; 1])
    by (cbn; rewrite Htc; reflexivity).
  assert (Hta' : shape (unsqueeze_last ta) = [B; 1])
    by (cbn; rewrite Hta; reflexivity).
  unfold ac_loss, attr_mean, mean_2_3. rewrite Ho. cbn [rbind].
  unfold t_sub, t_mul.
  match goal with |- context [binop Qminus ?u ?v] =>
    destruct (binop_ok Qminus u v [B; C0]) as (d & Ed & Hd & _);
      [cbn [shape]; rewrite Hta'; apply broadcast_column_r|]
  end.
  rewrite Ed. cbn [rbind].
  destruct (binop_ok Qmult (unsqueeze_last tc) (sum_all (t_square d)) [B; 1])
    as (y & Ey & Hy & Hdata).
  { rewrite Htc'. apply broadcast_scalar. }
  exists y. split; [exact Ey|]. split; [exact Hy|].
  intros b Hb Hz. unfold cell. rewrite Hdata, Htc'. unfold bcast_index.
  cbn [length Nat.sub skipn bcast_zip Nat.eqb].
  rewrite (bcast_keep B b) by assumption.
  cbn [data unsqueeze_last removelast]. unfold entry in Hz. rewrite Hz. ring.
Qed.

(** With outputs of the shapes that the comments of the source give, the
    computation reaches the line that calls [.to] on [fuse_ac_weight],
    which is still the [int] of the class. *)
Lemma compute_loss_attribute_error st so fo tc ta B H W z :
  side_outputs st = Some so -> fused_output st = Some fo ->
  shape so = [B; 3; H; W] -> shape fo = [B; 1; H; W] ->
  shape tc = [B] -> shape ta = [B] ->
  shape (side_ac_weights st) = [3] ->
  fuse_ac_weight st = PyInt z ->
  compute_loss k_log k_pow tc ta st
    = (Raise AttributeError,
       set_side_ac_weights (unsqueeze_0 (side_ac_weights st)) st).
Proof.
  intros Hso Hfo Hsso Hsfo Htc Hta Hw Hz.
  assert (Htc' : shape (unsqueeze_last tc) = [B; 1])
    by (cbn; rewrite Htc; reflexivity).
  unfold compute_loss. rewrite bind_get, Hso, Hfo. cbn [is_Some_b py_assert].
  unfold bind at 1. cbn [ret]. unfold bind at 1. cbn [ret].
  destruct (mil_loss_ok _ so B 3 H W Htc' Hsso) as (m1 & E1 & Hm1).
  destruct (ac_loss_gated tc ta so B 3 H W Htc Hta Hsso) as (c1 & E2 & Hc1 & _).
  destruct (mil_loss_ok _ fo B 1 H W Htc' Hsfo) as (m2 & E3 & Hm2).
  destruct (ac_loss_gated tc ta fo B 1 H W Htc Hta Hsfo) as (c2 & E4 & Hc2 & _).
  rewrite bind_lift, E1, bind_lift, E2, bind_modify, bind_get.
  cbn [side_ac_weights fused_output fuse_ac_weight set_side_ac_weights].
  rewrite ?Hfo, ?Hz.
  destruct (binop_ok Qmult (unsqueeze_0 (side_ac_weights st)) c1 [B; 3])
    as (wl & Ewl & Hwl & _).
  { cbn [shape unsqueeze_0]. rewrite Hw, Hc1. apply broadcast_row_column. }
  unfold t_mul at 1. rewrite bind_lift, Ewl.
  destruct (binop_ok Qplus m1 wl [B; 3]) as (sl & Esl & Hsl & _).
  { rewrite Hm1, Hwl. apply broadcast_same. }
  unfold t_add at 1. rewrite bind_lift, Esl.
  rewrite bind_lift. unfold sum_dim1 at 1. rewrite Hsl.
  rewrite bind_lift, E3, bind_lift, E4, bind_lift.
  reflexivity.
Qed.

(** ** The claims about the model *)

(** C1 (the code does not do this).  The claim: once forward has run,
    [compute_loss] returns one loss per batch element, the sum of the side
    and fused terms.  The code: on an instance whose outputs are populated
    with the shapes [(B, 3, H, W)] and [(B, 1, H, W)], and for targets of
    shape [(B,)], [compute_loss] computes the side terms, assigns the
    unsqueezed [side_ac_weights], and then raises [AttributeError] at
    [self.fuse_ac_weight.to(device)], because [fuse_ac_weight] is the plain
    [int] of the class; no loss is returned. *)
Theorem compute_loss_raises_AttributeError st so fo tc ta B H W z :
  side_outputs st = Some so -> fused_output st = Some fo ->
  shape so = [B; 3; H; W] -> shape fo = [B; 1; H; W] ->
  shape tc = [B] -> shape ta = [B] ->
  shape (side_ac_weights st) = [3] ->
  fuse_ac_weight st = PyInt z ->
  compute_loss k_log k_pow tc ta st
    = (Raise AttributeError,
       set_side_ac_weights (unsqueeze_0 (side_ac_weights st)) st).
Proof. apply compute_loss_attribute_error. Qed.

(** C2 (the code does not do this).  The claim: for a batch [(B, 3, H, W)]
    with [H] and [W] divisible by 8, forward returns the final feature map
    of spatial size [(H/8, W/8)].  The code: on every instance that
    [__init__] builds and for every batch whatsoever, forward raises
    [RuntimeError] and leaves the instance as it was: the side maps of the
    three stages have sizes [H], [H/2] and [H/4], and [torch.cat] refuses
    them (a smaller batch is refused earlier, by a convolution or a
    pooling). *)
Theorem forward_raises_RuntimeError init theta (x : tensor) :
  exists st, __init__ init theta = Ok st
    /\ forward k_sigmoid x st = (Raise RuntimeError, st)
    /\ side_outputs st = None /\ fused_output st = None.
Proof.
  destruct (init_returns init theta) as (st & Hinit & HL & Hso & Hfo & _).
  exists st. split; [exact Hinit|]. split; [|split; assumption].
  apply forward_raises_shaped. exact HL.
Qed.

(** X1.  The fusion lines of [forward] on a batch [(B, C, H, W)], on an
    instance that holds the three class weights and whose side heads have
    one channel each: a pass that returns has stored side outputs of shape
    [(B, 3, H', W')] and a fused output of shape [(B, 1, H', W')] for the
    same [B], and the fused output is, at every pixel, the sum of the three
    side outputs weighted by 0.2, 0.35 and 0.45 (the formula of the source,
    in exact arithmetic). *)
Theorem fused_output_is_the_weighted_sum st x h st' B C0 H0 W0 :
  is_fusion_weights (fusion_weights st) ->
  single_channel_heads (layers st) ->
  shape x = [B; C0; H0; W0] ->
  forward k_sigmoid x st = (Ok h, st') ->
  exists so fo H W,
    side_outputs st' = Some so /\ fused_output st' = Some fo
    /\ shape so = [B; 3; H; W] /\ shape fo = [B; 1; H; W]
    /\ forall b i j, b < B -> i < H -> j < W ->
         (pixel fo b 0 i j ==
            (2 # 10) * pixel so b 0 i j + (35 # 100) * pixel so b 1 i j
            + (45 # 100) * pixel so b 2 i j)%Q.
Proof.
  intros Hw Hs Hx Hf.
  destruct (forward_fuses st x h st' B C0 H0 W0 Hw Hs Hx Hf)
    as (so & fo & H & W & Hso & Hfo & Hsso & Hsfo & _ & Hpix).
  exists so, fo, H, W. repeat (split; [assumption|]). exact Hpix.
Qed.

(** C3 (the code does not do this).  The claim: after every forward pass
    the fused output is the sum of the three side outputs weighted by 0.2,
    0.35 and 0.45, and lies between their least and their greatest.  The
    code: on an instance that [__init__] builds, every forward pass of any
    sequence of passes raises [RuntimeError] at [torch.cat] or before (the
    defect of C2), so the lines that compute the fused output are never
    run: [fused_output] and [side_outputs] stay [None]. *)
Theorem fused_output_is_never_assigned init theta (xs : list tensor) :
  exists st, __init__ init theta = Ok st
    /\ run_calls k_sigmoid k_log k_pow (map Forward xs) st
       = (map (fun _ => Raise RuntimeError) xs, st)
    /\ fused_output st = None /\ side_outputs st = None.
Proof.
  destruct (init_returns init theta) as (st & Hinit & HL & Hso & Hfo & _).
  exists st. split; [exact Hinit|]. split; [|split; assumption].
  induction xs as [|x xs IH]; cbn [map run_calls do_call].
  - reflexivity.
  - rewrite (forward_raises_shaped st x HL), IH. reflexivity.
Qed.

(** C4.  On an instance that [__init__] has just built, [compute_loss]
    raises [AssertionError] for every pair of targets and leaves the
    instance as it was; so does every call of any sequence of such calls. *)
Theorem compute_loss_before_forward_asserts init theta :
  exists st, __init__ init theta = Ok st
    /\ (forall tc ta,
          compute_loss k_log k_pow tc ta st = (Raise AssertionError, st))
    /\ forall targets : list (tensor * tensor),
         run_calls k_sigmoid k_log k_pow
           (map (fun p => ComputeLoss (fst p) (snd p)) targets) st
         = (map (fun _ => Raise AssertionError) targets, st).
Proof.
  destruct (init_returns init theta) as (st & Hinit & _ & Hso & _).
  exists st. split; [exact Hinit|].
  assert (Hone : forall tc ta,
    compute_loss k_log k_pow tc ta st = (Raise AssertionError, st)).
  { intros tc ta. unfold compute_loss. rewrite bind_get, Hso. reflexivity. }
  split; [exact Hone|].
  induction targets as [|[tc ta] l IH]; cbn [map run_calls do_call fst snd].
  - reflexivity.
  - rewrite Hone, IH. reflexivity.
Qed.

(** C5 (the code does not do this).  The claim: with [target_class] 0 the
    area-consistency term adds exactly 0 to the returned loss, and in the
    scenario of two samples the returned loss has shape [(2,)].  The code:
    [ac_loss] does gate the term (its entry for a sample whose class is 0 is
    0, on the side outputs and on the fused output), but no loss is
    returned: [compute_loss] raises [AttributeError] on these inputs (the
    defect of C1). *)
Theorem ac_term_gated_but_no_loss_returned st so fo tc ta B H W z :
  side_outputs st = Some so -> fused_output st = Some fo ->
  shape so = [B; 3; H; W] -> shape fo = [B; 1; H; W] ->
  shape tc = [B] -> shape ta = [B] ->
  shape (side_ac_weights st) = [3] ->
  fuse_ac_weight st = PyInt z ->
  fst (compute_loss k_log k_pow tc ta st) = Raise AttributeError
  /\ exists side_ac fuse_ac,
       ac_loss (unsqueeze_last tc) (unsqueeze_last ta) (side_outputs st)
         = Ok side_ac
       /\ ac_loss (unsqueeze_last tc) (unsqueeze_last ta) (fused_output st)
         = Ok fuse_ac
       /\ forall b, b < B -> (entry tc b == 0)%Q ->
            (cell side_ac b 0 == 0)%Q /\ (cell fuse_ac b 0 == 0)%Q.
Proof.
  intros Hso Hfo Hsso Hsfo Htc Hta Hw Hz. split.
  - erewrite compute_loss_attribute_error by eassumption. reflexivity.
  - destruct (ac_loss_gated tc ta so B 3 H W Htc Hta Hsso) as (c1 & E1 & _ & G1).
    destruct (ac_loss_gated tc ta fo B 1 H W Htc Hta Hsfo) as (c2 & E2 & _ & G2).
    exists c1, c2. rewrite Hso, Hfo. repeat split; auto.
Qed.

(** The guard of [compute_loss] on passes that return.  On an instance
    whose two outputs are unset (such as a new one), after any sequence of
    forward and [compute_loss] calls, the assertion of [compute_loss] fails
    exactly when no forward pass of the sequence has returned; and
    [compute_loss] leaves both outputs as they are, so outputs stored by an
    earlier pass keep passing the assertion. *)
Lemma guard_is_one_shot st0 cs tc ta :
  side_outputs st0 = None -> fused_output st0 = None ->
  let rs := fst (run_calls k_sigmoid k_log k_pow cs st0) in
  let st := snd (run_calls k_sigmoid k_log k_pow cs st0) in
  (fst (compute_loss k_log k_pow tc ta st) = Raise AssertionError
   <-> existsb forward_returned (combine cs rs) = false)
  /\ side_outputs (snd (compute_loss k_log k_pow tc ta st)) = side_outputs st
  /\ fused_output (snd (compute_loss k_log k_pow tc ta st)) = fused_output st.
Proof.
  intros Hso Hfo. cbv zeta.
  assert (HJ : outputs_linked st0) by (intros H; rewrite Hfo in H; contradiction).
  destruct (run_calls_invariant cs st0 HJ) as [HJ' Hinv].
  destruct (compute_loss_effect tc ta
              (snd (run_calls k_sigmoid k_log k_pow cs st0))) as (H1 & H2 & H3).
  split; [|split; assumption].
  rewrite H3. unfold outputs_linked in HJ'. rewrite Hfo in Hinv.
  destruct (existsb forward_returned _) eqn:Ex.
  - split; [|discriminate]. intros Hnone. exfalso.
    assert (Hf : fused_output (snd (run_calls k_sigmoid k_log k_pow cs st0)) <> None)
      by (apply Hinv; right; reflexivity).
    destruct Hnone as [Hn|Hn]; [apply (HJ' Hf Hn) | apply (Hf Hn)].
  - split; [reflexivity|]. intros _. right.
    destruct (fused_output (snd (run_calls k_sigmoid k_log k_pow cs st0))) eqn:E;
      [|reflexivity].
    exfalso. assert (Hne : Some t <> None) by discriminate.
    apply Hinv in Hne. destruct Hne as [Hne|Hne]; [apply Hne; reflexivity | discriminate].
Qed.

(** C9 (the code does not do this).  The claim: the guard of
    [compute_loss] opens with the first forward pass and stays open, and
    the assertion fails exactly when forward has never been run on the
    instance.  The code: on an instance that [__init__] builds, in any
    sequence of forward and [compute_loss] calls, every forward pass raises
    [RuntimeError] and stores nothing (the defect of C2), and every
    [compute_loss] raises [AssertionError], also after forward has been
    run; the instance stays as it was built.  (Of passes that return, on
    other instances, the guard is as the claim says: lemma
    [guard_is_one_shot].) *)
Theorem guard_never_opens init theta (cs : list call) :
  exists st, __init__ init theta = Ok st
    /\ run_calls k_sigmoid k_log k_pow cs st
       = (map (fun c => match c with
                        | Forward _ => Raise RuntimeError
                        | ComputeLoss _ _ => Raise AssertionError
                        end) cs, st).
Proof.
  destruct (init_returns init theta) as (st & Hinit & HL & Hso & _).
  exists st. split; [exact Hinit|].
  induction cs as [|[x | tc ta] cs IH]; cbn [map run_calls do_call].
  - reflexivity.
  - rewrite (forward_raises_shaped st x HL), IH. reflexivity.
  - assert (Hone : compute_loss k_log k_pow tc ta st = (Raise AssertionError, st))
      by (unfold compute_loss; rewrite bind_get, Hso; reflexivity).
    rewrite Hone, IH. reflexivity.
Qed.

End CdwsMilFacts.

(** * Facts about train.py *)

(** ** Checkpoint names *)

Lemma ends_with_refl s : ends_with s s = true.
Proof. destruct s; cbn [ends_with]; rewrite String.eqb_refl; reflexivity. Qed.

Lemma append_cons c (s t : string) : String c s +:+ t = String c (s +:+ t).
Proof. reflexivity. Qed.

Lemma ends_with_app suffix s : ends_with suffix (s +:+ suffix) = true.
Proof.
  induction s as [|c s IH].
  - apply ends_with_refl.
  - rewrite append_cons. cbn [ends_with].
    match goal with |- (if ?b then _ else _) = _ => destruct b end;
      [reflexivity | exact IH].
Qed.

Lemma append_assoc (a b c : string) : (a +:+ b) +:+ c = a +:+ (b +:+ c).
Proof.
  induction a as [|x a IH]; [reflexivity|].
  rewrite !append_cons. f_equal. exact IH.
Qed.

Lemma matches_pth_ckpt_name epoch : matches_pth (ckpt_name epoch) = true.
Proof.
  unfold matches_pth, ckpt_name. apply andb_true_intro. split.
  - reflexivity.
  - rewrite <- append_assoc. apply ends_with_app.
Qed.

Lemma strip_prefix_app d p : strip_prefix d (d ++ p) = Some p.
Proof.
  induction d as [|x d IH]; cbn [strip_prefix app]; [reflexivity|].
  rewrite String.eqb_refl. exact IH.
Qed.

(** A list without repetition whose only member is [x]. *)
Lemma NoDup_singleton_list {A} (l : list A) (x : A) :
  NoDup l -> (forall y, y ∈ l <-> y = x) -> l = [x].
Proof.
  intros Hnd Hin. destruct l as [|a l].
  - exfalso. apply (not_elem_of_nil x). apply Hin. reflexivity.
  - assert (a = x) as -> by (apply Hin; left).
    destruct l as [|b l]; [reflexivity|].
    exfalso. apply NoDup_cons in Hnd as [Hx _].
    assert (b = x) as -> by (apply Hin; right; left).
    apply Hx. left.
Qed.

Section TrainFacts.

Context `{C : Collaborators}.
Variable record_dir : path.

Lemma ckpt_path_is_checkpoint_file epoch :
  is_checkpoint_file record_dir (ckpt_path record_dir epoch) = true.
Proof.
  unfold is_checkpoint_file, ckpt_path. rewrite strip_prefix_app.
  rewrite matches_pth_ckpt_name. reflexivity.
Qed.

Lemma history_path_not_checkpoint :
  is_checkpoint_file record_dir (history_path record_dir) = false.
Proof.
  unfold is_checkpoint_file, history_path. rewrite strip_prefix_app. reflexivity.
Qed.

(** ** The loops *)

Lemma for_each_app {S A} (l1 l2 : list A) (body : A -> M S unit) s :
  for_each (l1 ++ l2) body s = (for_each l1 body ;;; for_each l2 body) s.
Proof.
  revert s. induction l1 as [|a l1 IH]; intros s; cbn [for_each app].
  - reflexivity.
  - unfold bind in *. destruct (body a s) as [[[]|e] s1]; [|reflexivity].
    rewrite IH. reflexivity.
Qed.

Lemma try_one_iteration_caught ph data w ex w' :
  train_one_iteration ph data w = (Raise ex, w') ->
  issubclass ex RuntimeError = true ->
  try_one_iteration ph data w = (Ok tt, add_log (Warning ex) w').
Proof. intros H1 H2. unfold try_one_iteration. rewrite H1, H2. reflexivity. Qed.

Lemma try_one_iteration_propagates ph data w ex w' :
  train_one_iteration ph data w = (Raise ex, w') ->
  issubclass ex RuntimeError = false ->
  try_one_iteration ph data w = (Raise ex, w').
Proof. intros H1 H2. unfold try_one_iteration. rewrite H1, H2. reflexivity. Qed.

Lemma try_one_iteration_raises ph data w ex w' :
  try_one_iteration ph data w = (Raise ex, w') ->
  issubclass ex RuntimeError = false
  /\ train_one_iteration ph data w = (Raise ex, w').
Proof.
  unfold try_one_iteration.
  destruct (train_one_iteration ph data w) as [[[]|e] w1]; [discriminate|].
  destruct (issubclass e RuntimeError) eqn:E; [discriminate|].
  intros [= <- <-]. auto.
Qed.

Lemma for_each_continues {S A} (pre : list A) x post (body : A -> M S unit) s s1 s2 :
  for_each pre body s = (Ok tt, s1) -> body x s1 = (Ok tt, s2) ->
  for_each (pre ++ x :: post) body s = for_each post body s2.
Proof.
  intros Hpre Hx. rewrite for_each_app, (bind_ok _ _ _ _ _ Hpre). cbn [for_each].
  rewrite (bind_ok _ _ _ _ _ Hx). reflexivity.
Qed.

Lemma for_each_raises_at {S A} (pre : list A) x post (body : A -> M S unit) s s1 e s2 :
  for_each pre body s = (Ok tt, s1) -> body x s1 = (Raise e, s2) ->
  for_each (pre ++ x :: post) body s = (Raise e, s2).
Proof.
  intros Hpre Hx. rewrite for_each_app, (bind_ok _ _ _ _ _ Hpre). cbn [for_each].
  apply bind_raise. exact Hx.
Qed.

Lemma bind_ret_tt {S} (c : M S unit) s : (c ;;; ret tt) s = c s.
Proof. unfold bind, ret. destruct (c s) as [[[]|e] s1]; reflexivity. Qed.

(** A turn of the loop whose iteration raises an instance of
    [RuntimeError], and one whose iteration raises something else. *)
Lemma fetch_and_try_caught ph fetch data w w1 ex w2 :
  on_aux fetch w = (Ok data, w1) ->
  train_one_iteration ph data w1 = (Raise ex, w2) ->
  issubclass ex RuntimeError = true ->
  fetch_and_try ph fetch w = (Ok tt, add_log (Warning ex) w2).
Proof.
  intros Hf Hit Hsub. unfold fetch_and_try. rewrite (bind_ok _ _ _ _ _ Hf).
  apply try_one_iteration_caught; assumption.
Qed.

Lemma fetch_and_try_propagates ph fetch data w w1 ex w2 :
  on_aux fetch w = (Ok data, w1) ->
  train_one_iteration ph data w1 = (Raise ex, w2) ->
  issubclass ex RuntimeError = false ->
  fetch_and_try ph fetch w = (Raise ex, w2).
Proof.
  intros Hf Hit Hsub. unfold fetch_and_try. rewrite (bind_ok _ _ _ _ _ Hf).
  apply try_one_iteration_propagates; assumption.
Qed.

(** ** The checkpoint directory *)

Lemma elem_of_glob_checkpoints (f : gmap path file) p :
  p ∈ glob_checkpoints record_dir f
  <-> is_checkpoint_file record_dir p = true /\ is_Some (f !! p).
Proof.
  unfold glob_checkpoints. rewrite list_elem_of_filter, list_elem_of_fmap.
  split.
  - intros [Hm [[q x] [-> Hin]]]. apply elem_of_map_to_list in Hin.
    split; [exact Hm | eauto].
  - intros [Hm [x Hx]]. split; [exact Hm|].
    exists (p, x). split; [reflexivity|]. apply elem_of_map_to_list. exact Hx.
Qed.

Lemma NoDup_glob_checkpoints (f : gmap path file) :
  NoDup (glob_checkpoints record_dir f).
Proof. unfold glob_checkpoints. apply NoDup_filter, NoDup_fst_map_to_list. Qed.

(** The removal loop deletes every listed file and no other. *)
Lemma for_each_os_remove (l : list path) (w : world) :
  NoDup l -> (forall p, p ∈ l -> is_Some (files w !! p)) ->
  exists f, for_each l os_remove w = (Ok tt, set_files f w)
    /\ forall q, f !! q = if bool_decide (q ∈ l) then None else files w !! q.
Proof.
  revert w. induction l as [|p l IH]; intros w Hnd Hin; cbn [for_each].
  - exists (files w). split; [destruct w; reflexivity|].
    intros q. rewrite bool_decide_eq_false_2; [reflexivity | apply not_elem_of_nil].
  - apply NoDup_cons in Hnd as [Hp Hnd].
    destruct (Hin p) as [x Hx]; [left|].
    assert (Hrm : os_remove p w = (Ok tt, set_files (delete p (files w)) w)).
    { unfold os_remove. rewrite bind_get, Hx. reflexivity. }
    rewrite (bind_ok _ _ _ _ _ Hrm).
    destruct (IH (set_files (delete p (files w)) w) Hnd) as (f & Hf & Hlook).
    { intros q Hq. cbn [files set_files]. rewrite lookup_delete_ne.
      - apply Hin. right. exact Hq.
      - intros ->. contradiction. }
    exists f. split; [rewrite Hf; reflexivity|].
    intros q. rewrite Hlook. cbn [files set_files].
    destruct (decide (q = p)) as [->|Hne].
    + rewrite (bool_decide_eq_true_2 (p ∈ p :: l)) by left.
      rewrite lookup_delete_eq. destruct (bool_decide _); reflexivity.
    + rewrite lookup_delete_ne by congruence.
      destruct (bool_decide (q ∈ l)) eqn:E.
      * apply bool_decide_eq_true_1 in E.
        rewrite bool_decide_eq_true_2; [reflexivity | right; exact E].
      * apply bool_decide_eq_false_1 in E.
        rewrite bool_decide_eq_false_2; [reflexivity|].
        intros [?|?]%elem_of_cons; contradiction.
Qed.

Lemma on_aux_frame {A} (c : M X A) w :
  grad_enabled (snd (on_aux c w)) = grad_enabled w
  /\ log (snd (on_aux c w)) = log w
  /\ files (snd (on_aux c w)) = files w
  /\ model_state (w_heap (snd (on_aux c w))) = model_state (w_heap w)
  /\ optimizer_state (w_heap (snd (on_aux c w))) = optimizer_state (w_heap w).
Proof.
  unfold on_aux, on_heap. destruct (c (aux (w_heap w))); cbn. auto 6.
Qed.

Lemma on_aux_inv {A} (c : M X A) w r w' :
  on_aux c w = (r, w') ->
  files w' = files w
  /\ model_state (w_heap w') = model_state (w_heap w)
  /\ optimizer_state (w_heap w') = optimizer_state (w_heap w).
Proof.
  intros H. destruct (on_aux_frame c w) as (_ & _ & H1 & H2 & H3).
  rewrite H in *. cbn [snd] in *. auto.
Qed.

(** ** What the driver leaves as it was *)

Lemma untouched_refl w : untouched w w.
Proof. repeat split. Qed.

Lemma untouched_trans w1 w2 w3 :
  untouched w1 w2 -> untouched w2 w3 -> untouched w1 w3.
Proof. intros (?&?&?) (?&?&?). repeat split; congruence. Qed.

Lemma quiet_ret {A} (a : A) : quiet (ret a).
Proof. intros w. apply untouched_refl. Qed.

Lemma quiet_bind {A B} (c : M world A) (k : A -> M world B) :
  quiet c -> (forall a, quiet (k a)) -> quiet (bind c k).
Proof.
  intros Hc Hk w. unfold bind. specialize (Hc w).
  destruct (c w) as [[a|e] w1]; cbn [snd] in *; [|exact Hc].
  eapply untouched_trans; [exact Hc | apply Hk].
Qed.

Lemma quiet_on_heap {A} (c : M (heap MS OS X) A) : quiet (on_heap c).
Proof.
  intros w. unfold on_heap. destruct (c (w_heap w)). cbn. repeat split.
Qed.

Lemma quiet_on_aux {A} (c : M X A) : quiet (on_aux c).
Proof. apply quiet_on_heap. Qed.

Lemma quiet_with_grad_enabled {A} mode (body : M world A) :
  quiet body -> quiet (with_grad_enabled mode body).
Proof.
  intros Hb w. unfold with_grad_enabled.
  destruct (Hb (set_grad_enabled mode w)) as (_ & H2 & H3).
  destruct (body (set_grad_enabled mode w)) as [r w1]. cbn in *.
  repeat split; assumption.
Qed.

Lemma quiet_get : quiet (@get world).
Proof. intros w. apply untouched_refl. Qed.

Lemma quiet_getitem {A} (d : gmap string A) key : quiet (getitem d key).
Proof. intros w. unfold getitem. destruct (d !! key); apply untouched_refl. Qed.

(** The operations of the collaborators, and what is built from them with
    [;;] and [if], are quiet. *)
Ltac quiet_leaf :=
  first [ apply quiet_on_heap | apply quiet_on_aux | apply quiet_ret
        | apply quiet_get | apply quiet_getitem ].

Ltac quiet_steps :=
  repeat first
    [ quiet_leaf
    | apply quiet_with_grad_enabled
    | apply quiet_bind; [|intros ?]
    | match goal with |- quiet (if ?b then _ else _) => destruct b end ].

Lemma quiet_train_one_iteration ph data : quiet (train_one_iteration ph data).
Proof. unfold train_one_iteration. quiet_steps. Qed.

Lemma logged_trans l1 l2 w1 w2 w3 :
  logged l1 w1 w2 -> logged l2 w2 w3 -> logged (l1 ++ l2) w1 w3.
Proof.
  intros (?&?&H1) (?&?&H2). repeat split; try congruence.
  rewrite H2, H1, app_assoc. reflexivity.
Qed.

Lemma untouched_logged w w' : untouched w w' -> logged [] w w'.
Proof. intros (?&?&?). repeat split; try assumption. rewrite app_nil_r. assumption. Qed.

Lemma quiet_logs_only {A} (c : M world A) : quiet c -> logs_only c.
Proof. intros H w. exists []. apply untouched_logged, H. Qed.

Lemma logs_only_bind {A B} (c : M world A) (k : A -> M world B) :
  logs_only c -> (forall a, logs_only (k a)) -> logs_only (bind c k).
Proof.
  intros Hc Hk w. unfold bind. destruct (Hc w) as [l1 H1].
  destruct (c w) as [[a|e] w1]; cbn [snd] in *; [|eauto].
  destruct (Hk a w1) as [l2 H2]. exists (l1 ++ l2).
  eapply logged_trans; eassumption.
Qed.

Lemma logs_only_logger_info msg : logs_only (logger_info msg).
Proof. intros w. exists [Info msg]. repeat split. Qed.

Lemma logs_only_for_each {A} (l : list A) (body : A -> M world unit) :
  (forall a, logs_only (body a)) -> logs_only (for_each l body).
Proof.
  intros Hb. induction l as [|a l IH]; cbn [for_each].
  - apply quiet_logs_only, quiet_ret.
  - apply logs_only_bind; [apply Hb | intros _; exact IH].
Qed.

(** What an iteration under the handler adds to the log: nothing, or the
    warning for the instance of [RuntimeError] it caught. *)
Lemma try_one_iteration_logged ph data w :
  logged [] w (snd (try_one_iteration ph data w))
  \/ exists ex, issubclass ex RuntimeError = true
       /\ logged [Warning ex] w (snd (try_one_iteration ph data w)).
Proof.
  pose proof (quiet_train_one_iteration ph data w) as Hq.
  unfold try_one_iteration.
  destruct (train_one_iteration ph data w) as [[[]|ex] w1]; cbn [snd] in Hq.
  - left. apply untouched_logged, Hq.
  - destruct (issubclass ex RuntimeError) eqn:E.
    + right. exists ex. split; [exact E|].
      destruct Hq as (H1 & H2 & H3).
      unfold logged, logger_warning, modify. cbn [snd grad_enabled files log add_log].
      rewrite H2. repeat split; assumption.
    + left. apply untouched_logged, Hq.
Qed.

(** The batch loop adds the warnings for what its handler has to catch,
    and nothing else. *)
Lemma batch_loop_logged ph fetches w :
  logged (map Warning (caught ph fetches w)) w
         (snd (for_each fetches (fetch_and_try ph) w))
  /\ Forall (fun ex => issubclass ex RuntimeError = true) (caught ph fetches w)
  /\ length (caught ph fetches w) <= length fetches.
Proof.
  revert w. induction fetches as [|fetch rest IH]; intros w;
    cbn [for_each caught].
  - split; [apply untouched_logged, untouched_refl|].
    split; [constructor | reflexivity].
  - unfold fetch_and_try, bind.
    pose proof (quiet_on_aux fetch w) as Hq.
    destruct (on_aux fetch w) as [[data|e] w1]; cbn [snd] in Hq.
    2:{ split; [apply untouched_logged, Hq|]. split; [constructor | cbn; lia]. }
    pose proof (quiet_train_one_iteration ph data w1) as Hq1.
    unfold try_one_iteration.
    destruct (train_one_iteration ph data w1) as [[[]|ex] w2]; cbn [snd] in Hq1.
    + destruct (IH w2) as (Hl & Hall & Hlen).
      split; [|split; [exact Hall | cbn [length]; lia]].
      apply (logged_trans [] _ w w2); [|exact Hl].
      apply untouched_logged. eapply untouched_trans; eassumption.
    + destruct (issubclass ex RuntimeError) eqn:E.
      * unfold logger_warning, modify.
        destruct (IH (add_log (Warning ex) w2)) as (Hl & Hall & Hlen).
        split; [|split; [constructor; assumption | cbn [length]; lia]].
        change (map Warning (ex :: caught ph rest (add_log (Warning ex) w2)))
          with ([Warning ex] ++ map Warning (caught ph rest (add_log (Warning ex) w2))).
        apply (logged_trans _ _ w (add_log (Warning ex) w2)); [|exact Hl].
        destruct Hq as (H1 & H2 & H3). destruct Hq1 as (H4 & H5 & H6).
        unfold logged. cbn [grad_enabled files log add_log].
        repeat split; congruence.
      * split; [|split; [constructor | cbn; lia]].
        apply untouched_logged. eapply untouched_trans; eassumption.
Qed.

Lemma logs_only_try_one_iteration ph data : logs_only (try_one_iteration ph data).
Proof.
  intros w. destruct (try_one_iteration_logged ph data w) as [H | (ex & _ & H)]; eauto.
Qed.

Lemma logs_only_fetch_and_try ph fetch : logs_only (fetch_and_try ph fetch).
Proof.
  unfold fetch_and_try. apply logs_only_bind.
  - apply quiet_logs_only, quiet_on_aux.
  - intros data. apply logs_only_try_one_iteration.
Qed.

(** The same for what also writes to the log. *)
Ltac logs_only_steps :=
  repeat first
    [ apply logs_only_logger_info
    | apply logs_only_for_each; intros ?
    | apply logs_only_fetch_and_try
    | apply logs_only_try_one_iteration
    | apply quiet_logs_only; quiet_leaf
    | apply logs_only_bind; [|intros ?]
    | match goal with |- logs_only (if ?b then _ else _) => destruct b end
    | match goal with |- logs_only (match ?b with Some _ => _ | None => _ end) =>
        destruct b end ].

Lemma logs_only_run_phase ph : logs_only (run_phase ph).
Proof. unfold run_phase, phase_setup, phase_summary. logs_only_steps. Qed.

Lemma logs_only_train_one_epoch no_val : logs_only (train_one_epoch no_val).
Proof.
  unfold train_one_epoch. apply logs_only_for_each. apply logs_only_run_phase.
Qed.

Lemma logs_only_epoch_training epoch total_epochs :
  logs_only (epoch_training epoch total_epochs).
Proof.
  unfold epoch_training, epoch_start, scheduler_update.
  repeat first [ apply logs_only_train_one_epoch | progress logs_only_steps ].
Qed.

Lemma bind_inv_ok {S A B} (c : M S A) (k : A -> M S B) s b s' :
  bind c k s = (Ok b, s') ->
  exists a s1, c s = (Ok a, s1) /\ k a s1 = (Ok b, s').
Proof.
  unfold bind. destruct (c s) as [[a|e] s1]; [eauto | discriminate].
Qed.

(** The start of a phase logs its header, whatever its outcome. *)
Lemma phase_setup_logged ph w :
  logged [Info (capitalize ph +:+ " phase:")] w (snd (phase_setup ph w)).
Proof.
  unfold phase_setup, logger_info. rewrite bind_modify.
  set (w0 := add_log _ w).
  assert (Hq : quiet (A := list (M X batch))
    ((if is_train ph
      then on_heap model_train;;; on_aux tracker_train
      else on_heap model_eval;;; on_aux tracker_eval);;;
     on_aux (loader_batches ph))) by quiet_steps.
  destruct (Hq w0) as (H1 & H2 & H3).
  repeat split; [rewrite H1 | rewrite H3 | rewrite H2]; reflexivity.
Qed.


(** ** The end of an epoch *)







(** ** The claims about the training driver *)

(** C6.  In a phase, when the iteration on a batch raises an instance of
    [RuntimeError], the handler logs it as a warning and the iteration ends
    there; the phase goes on, in the world the failed iteration left, with
    the fetch of the next batch, then the batches after it and the summary,
    and [train_one_epoch] goes on with it: in the train phase, and in the
    validation phase when the train phase before it has returned.  What an
    iteration under the handler raises is never an instance of
    [RuntimeError].  (An exception that the loader raises when it fetches
    a batch is outside the [try]: the handler does not see it.) *)
Theorem runtime_error_skips_one_batch ph pre fetch post data w w0 w1 w2 ex w3 :
  phase_setup ph w = (Ok (pre ++ fetch :: post), w0) ->
  for_each pre (fetch_and_try ph) w0 = (Ok tt, w1) ->
  on_aux fetch w1 = (Ok data, w2) ->
  train_one_iteration ph data w2 = (Raise ex, w3) ->
  issubclass ex RuntimeError = true ->
  try_one_iteration ph data w2 = (Ok tt, add_log (Warning ex) w3)
  /\ log (add_log (Warning ex) w3) = log w3 ++ [Warning ex]
  /\ run_phase ph w
     = (for_each post (fetch_and_try ph) ;;; phase_summary)
         (add_log (Warning ex) w3)
  /\ (ph = train -> forall no_val,
        train_one_epoch no_val w
        = ((for_each post (fetch_and_try train) ;;; phase_summary) ;;;
           for_each (if no_val then [] else [val]) run_phase)
            (add_log (Warning ex) w3))
  /\ (ph = val -> forall w',
        run_phase train w' = (Ok tt, w) ->
        train_one_epoch false w'
        = (for_each post (fetch_and_try val) ;;; phase_summary)
            (add_log (Warning ex) w3))
  /\ (forall d v e v',
        try_one_iteration ph d v = (Raise e, v') ->
        issubclass e RuntimeError = false).
Proof.
  intros Hset Hpre Hf Hit Hsub.
  assert (Hphase : run_phase ph w
     = (for_each post (fetch_and_try ph) ;;; phase_summary)
         (add_log (Warning ex) w3)).
  { unfold run_phase. rewrite (bind_ok _ _ _ _ _ Hset).
    pose proof (for_each_continues pre fetch post (fetch_and_try ph) _ _ _ Hpre
                  (fetch_and_try_caught _ _ _ _ _ _ _ Hf Hit Hsub)) as Hloop.
    unfold bind. rewrite Hloop. reflexivity. }
  split; [apply try_one_iteration_caught; assumption|].
  split; [reflexivity|].
  split; [exact Hphase|].
  split; [|split].
  - intros -> no_val. unfold train_one_epoch, phases_of.
    destruct no_val; cbn [for_each];
      set (k := fun _ : unit => _); unfold bind at 1; rewrite Hphase;
      reflexivity.
  - intros -> w' Htrain. unfold train_one_epoch, phases_of. cbn [for_each].
    rewrite (bind_ok _ _ _ _ _ Htrain), bind_ret_tt. exact Hphase.
  - intros d v e v' H. apply try_one_iteration_raises in H. tauto.
Qed.


(** C8.  When [fit] resumes from a file that holds the checkpoint [ck] and
    its setup returns, the model and the optimizer hold the states of [ck],
    the first epoch is [ck_epoch ck + 1], the last is
    [ck_epoch ck + epochs], and [fit] runs the epochs of that range in
    order. *)
Theorem resume_starts_after_checkpoint (a : args) (p : path) (ck : checkpoint)
    (w w1 : world) (initial_epoch total_epochs : Z) :
  resume_ckpt a = Some p ->
  files w !! p = Some (CheckpointFile ck) ->
  fit_setup a w = (Ok (initial_epoch, total_epochs), w1) ->
  initial_epoch = (ck_epoch ck + 1)%Z
  /\ total_epochs = (ck_epoch ck + epochs a)%Z
  /\ model_state (w_heap w1) = ck_model_state ck
  /\ optimizer_state (w_heap w1) = ck_optimizer_state_dict ck
  /\ fit record_dir a w
     = (for_each (seqZ (ck_epoch ck + 1) (epochs a))
                 (epoch_body record_dir total_epochs) ;;;
        on_aux tracker_report) w1
  /\ ((0 < epochs a)%Z ->
      exists rest,
        seqZ (ck_epoch ck + 1) (epochs a) = (ck_epoch ck + 1)%Z :: rest).
Proof.
  intros Hres Hfile Hsetup.
  assert (Hmain : initial_epoch = (ck_epoch ck + 1)%Z
    /\ total_epochs = (ck_epoch ck + epochs a)%Z
    /\ model_state (w_heap w1) = ck_model_state ck
    /\ optimizer_state (w_heap w1) = ck_optimizer_state_dict ck).
  { revert Hsetup. unfold fit_setup. rewrite Hres.
    set (w0 := add_log (Info ("Loading checkpoints from " +:+ path_str p +:+ ".")) w).
    assert (Hload :
      (logger_info ("Loading checkpoints from " +:+ path_str p +:+ ".") ;;;
       ck0 <- torch_load p ;; ret (Some ck0)) w = (Ok (Some ck), w0)).
    { unfold logger_info, torch_load, bind, modify, get, ret. cbn [files add_log].
      rewrite Hfile. reflexivity. }
    rewrite (bind_ok _ _ _ _ _ Hload). clear Hload.
    assert (Hinit : initialize_model (model a) (Some ck) w0
      = (Ok tt, set_heap (mkHeap (ck_model_state ck) (optimizer_state (w_heap w0))
                                 (aux (w_heap w0))) w0)) by reflexivity.
    rewrite (bind_ok _ _ _ _ _ Hinit). clear Hinit.
    rewrite bind_get. unfold logger_info at 1. rewrite bind_modify.
    set (w2 := add_log _ _).
    assert (Hm2 : model_state (w_heap w2) = ck_model_state ck) by reflexivity.
    clearbody w2.
    unfold bind at 1.
    destruct (on_aux record_save_params w2) as [[[]|e] w3] eqn:E3; [|discriminate].
    apply on_aux_inv in E3 as (_ & Hm3 & _).
    unfold bind at 1.
    destruct (on_aux load_datasets w3) as [[[]|e] w4] eqn:E4; [|discriminate].
    apply on_aux_inv in E4 as (_ & Hm4 & _).
    unfold logger_info at 1. rewrite bind_modify.
    assert (Hopt : forall w5, get_default_optimizer (Some ck) w5
      = (Ok tt, set_heap (mkHeap (model_state (w_heap w5)) (ck_optimizer_state_dict ck)
                                 (aux (w_heap w5))) w5)) by reflexivity.
    rewrite (bind_ok _ _ _ _ _ (Hopt _)). clear Hopt.
    unfold ret. intros [= <- <- <-].
    cbn [w_heap set_heap model_state optimizer_state add_log].
    repeat split; try lia. congruence. }
  destruct Hmain as (-> & -> & Hm & Ho).
  repeat split; try assumption.
  - unfold fit. rewrite (bind_ok _ _ _ _ _ Hsetup). cbn [fst snd].
    replace (ck_epoch ck + epochs a + 1 - (ck_epoch ck + 1))%Z
      with (epochs a) by lia.
    reflexivity.
  - intros Hpos. rewrite seqZ_cons by exact Hpos. eauto.
Qed.

(** C10.  The handler of the batch loop catches the instances of
    [RuntimeError] and nothing else: whenever an iteration under the
    handler ends normally, the iteration itself did, or it raised an
    instance of [RuntimeError].  An exception that is no instance of it (a
    [TypeError] or an [AttributeError], say), raised by the iteration on a
    batch that the run reaches, is logged by no handler and leaves the
    batch loop, the phase, [train_one_epoch], the epoch and [fit]: the
    batches, the phases and the epochs that follow are not run, and
    neither are the end of the epoch (no checkpoint of it is written) and
    [tracker.report()]. *)
Theorem only_RuntimeError_instances_are_caught
    a w initial_epoch total_epochs wa done epoch todo wb wc
    before ph after wd pre fetch post we wf data wg ex wh :
  fit_setup a w = (Ok (initial_epoch, total_epochs), wa) ->
  seqZ initial_epoch (total_epochs + 1 - initial_epoch) = done ++ epoch :: todo ->
  for_each done (epoch_body record_dir total_epochs) wa = (Ok tt, wb) ->
  epoch_start epoch total_epochs wb = (Ok tt, wc) ->
  phases_of (negb val_exists) = before ++ ph :: after ->
  for_each before run_phase wc = (Ok tt, wd) ->
  phase_setup ph wd = (Ok (pre ++ fetch :: post), we) ->
  for_each pre (fetch_and_try ph) we = (Ok tt, wf) ->
  on_aux fetch wf = (Ok data, wg) ->
  train_one_iteration ph data wg = (Raise ex, wh) ->
  issubclass ex RuntimeError = false ->
  try_one_iteration ph data wg = (Raise ex, wh)
  /\ run_phase ph wd = (Raise ex, wh)
  /\ train_one_epoch (negb val_exists) wc = (Raise ex, wh)
  /\ epoch_body record_dir total_epochs epoch wb = (Raise ex, wh)
  /\ fit record_dir a w = (Raise ex, wh)
  /\ files wh = files wb
  /\ (forall d v v',
        try_one_iteration ph d v = (Ok tt, v') ->
        train_one_iteration ph d v = (Ok tt, v')
        \/ exists e v0, train_one_iteration ph d v = (Raise e, v0)
             /\ issubclass e RuntimeError = true)
  /\ issubclass TypeError RuntimeError = false
  /\ issubclass AttributeError RuntimeError = false.
Proof.
  intros Hsetup Hepochs Hdone Hstart Hphases Hbefore Hset Hpre Hf Hit Hsub.
  assert (Hphase : run_phase ph wd = (Raise ex, wh)).
  { unfold run_phase. rewrite (bind_ok _ _ _ _ _ Hset). apply bind_raise.
    eapply for_each_raises_at; [exact Hpre|].
    eapply fetch_and_try_propagates; eassumption. }
  assert (Hepoch : train_one_epoch (negb val_exists) wc = (Raise ex, wh)).
  { unfold train_one_epoch. cbv zeta. rewrite Hphases.
    eapply for_each_raises_at; eassumption. }
  assert (Htraining : epoch_training epoch total_epochs wb = (Raise ex, wh)).
  { unfold epoch_training. rewrite (bind_ok _ _ _ _ _ Hstart).
    apply bind_raise. exact Hepoch. }
  assert (Hbody : epoch_body record_dir total_epochs epoch wb = (Raise ex, wh))
    by (unfold epoch_body; apply bind_raise; exact Htraining).
  split; [apply try_one_iteration_propagates; assumption|].
  split; [exact Hphase|]. split; [exact Hepoch|]. split; [exact Hbody|].
  split; [|split; [|split; [|split; reflexivity]]].
  - unfold fit. rewrite (bind_ok _ _ _ _ _ Hsetup). cbn [fst snd].
    rewrite Hepochs. apply bind_raise.
    eapply for_each_raises_at; eassumption.
  - destruct (logs_only_epoch_training epoch total_epochs wb) as (l & _ & Hfiles & _).
    rewrite Htraining in Hfiles. exact Hfiles.
  - intros d v v'. unfold try_one_iteration.
    destruct (train_one_iteration ph d v) as [[[]|e] v0] eqn:E.
    + intros [= <-]. left. reflexivity.
    + destruct (issubclass e RuntimeError) eqn:Es; [|discriminate].
      intros _. right. eauto.
Qed.

End TrainFacts.

(** * Further facts about models/cdws_mil.py *)

(** ** Broadcasting against leading dimensions of size 1 *)

Lemma rev_repeat_1 {A} (x : A) n : rev (repeat x n) = repeat x n.
Proof.
  induction n as [|n IH]; [reflexivity|].
  cbn [repeat rev]. rewrite IH. symmetry. apply repeat_cons.
Qed.

Lemma broadcast_rev_nil_r l : broadcast_rev l [] = Some l.
Proof. destruct l; reflexivity. Qed.

Lemma broadcast_leading_ones B n :
  broadcast_shapes (repeat 1 (S n) ++ [3]) [B; 1] = Some (repeat 1 n ++ [B; 3]).
Proof.
  unfold broadcast_shapes. rewrite rev_app_distr, rev_repeat_1.
  cbn [rev app repeat broadcast_rev]. rewrite broadcast_rev_nil_r.
  replace (if 1 =? B then Some (1 :: repeat 1 n) else
           if 1 =? 1 then Some (B :: repeat 1 n) else
           if B =? 1 then Some (1 :: repeat 1 n) else None)
    with (Some (B :: repeat 1 n)).
  2:{ destruct (1 =? B) eqn:E; [apply Nat.eqb_eq in E; subst|]; reflexivity. }
  cbn. rewrite rev_repeat_1, <- app_assoc. reflexivity.
Qed.

Lemma broadcast_into_leading_ones B n :
  broadcast_shapes [B; 3] (repeat 1 n ++ [B; 3]) = Some (repeat 1 n ++ [B; 3]).
Proof.
  unfold broadcast_shapes. rewrite rev_app_distr, rev_repeat_1.
  cbn [rev app broadcast_rev]. rewrite !Nat.eqb_refl.
  cbn. rewrite rev_repeat_1, <- app_assoc. reflexivity.
Qed.

Lemma sum_dim1_two k t d0 d1 rest :
  shape t = d0 :: d1 :: rest -> exists y, sum_dim1 k t = Ok y.
Proof. intros H. unfold sum_dim1. rewrite H. destruct k; eauto. Qed.

Lemma leading_ones_two n B :
  exists d0 d1 rest, repeat 1 n ++ [B; 3] = d0 :: d1 :: rest.
Proof. destruct n as [|[|n]]; cbn; eauto. Qed.

Lemma broadcast_ones_column B : broadcast_shapes [1; 1] [B; 1] = Some [B; 1].
Proof. unfold broadcast_shapes. destruct B as [|[|B]]; reflexivity. Qed.

(** ** The operand indices that a result index reads *)

Lemma bcast_index_2 B C0 b c :
  b < B -> c < C0 -> bcast_index [B; C0] [b; c] = [b; c].
Proof.
  intros Hb Hc. unfold bcast_index. cbn [length Nat.sub skipn bcast_zip].
  rewrite (bcast_keep B b), (bcast_keep C0 c) by assumption. reflexivity.
Qed.

Lemma bcast_index_column B b c :
  b < B -> bcast_index [B; 1] [b; c] = [b; 0].
Proof.
  intros Hb. unfold bcast_index. cbn [length Nat.sub skipn bcast_zip Nat.eqb].
  rewrite (bcast_keep B b) by assumption. reflexivity.
Qed.

Lemma sumQ_ext n (f g : nat -> Q) :
  (forall i, i < n -> (f i == g i)%Q) -> (sumQ n f == sumQ n g)%Q.
Proof.
  induction n as [|n IH]; intros H; cbn [sumQ]; [reflexivity|].
  rewrite IH, (H n) by (intros; try apply H; lia). reflexivity.
Qed.

Lemma bcast_index_row b c : bcast_index [1; 3] [b; c] = [0; c].
Proof. reflexivity. Qed.

(** ** Which exception a layer or a concatenation raises *)

Lemma MaxPool2d_call_raises P x e : MaxPool2d_call P x = Raise e -> e = RuntimeError.
Proof.
  unfold MaxPool2d_call.
  destruct (batching_of (shape x)) as [[b [[C0 H] W]]|];
    [|intros [= <-]; reflexivity].
  destruct (_ && _); [discriminate | intros [= <-]; reflexivity].
Qed.

Lemma cat1_three_raises a b c e bt H1 W1 H2 W2 H3 W3 :
  shape a = planes bt 1 H1 W1 -> shape b = planes bt 1 H2 W2 ->
  shape c = planes bt 1 H3 W3 ->
  cat1 [a; b; c] = Raise e -> e = RuntimeError.
Proof.
  intros Ha Hb Hc. unfold cat1. cbn [List.filter].
  rewrite Ha, Hb, Hc.
  destruct bt as [|B]; cbn [planes shape_eqb]; rewrite ?andb_false_r; cbn [negb];
    rewrite Ha; cbn [planes]; (destruct (forallb _ _); [discriminate|]);
    intros [= <-]; reflexivity.
Qed.

(** The class weights, viewed as [(1, 3, 1, 1)], against the side outputs
    of a single image, which have three dimensions. *)
Lemma broadcast_weights_unbatched n W :
  broadcast_shapes [1; n; W] [1; 3; 1; 1] = Some [1; 3; n; W].
Proof.
  unfold broadcast_shapes. cbn.
  destruct (W =? 1) eqn:EW; destruct (n =? 1) eqn:En; cbn;
    repeat match goal with
           | E : (_ =? 1) = true |- _ => apply Nat.eqb_eq in E; subst
           end;
    reflexivity.
Qed.

Section CdwsMilFurther.

Variables (k_sigmoid k_log : Q -> Q) (k_pow : Q -> Q -> Q).

(** ** The constructor *)

(** X2.  Given the pretrained network (its download is not modelled),
    [__init__] with [_copy_weights_from_vgg16] returns, and the instance it
    builds does not depend on the values that the seven backbone
    convolutions were created with: each holds the weight and the bias of
    the convolution of VGG16 at the index its row of the table names (0, 2,
    5, 7, 10, 12, 14, none of which is a ReLU or a pooling), and these have
    the shape the layer was created with; the padding stays.  The three
    side heads keep the values they were created with. *)
Theorem init_copies_the_pretrained_backbone init theta :
  exists st, __init__ init theta = Ok st
    /\ conv1_1 (layers st) = Conv2d_new 3 64 3 3 1 (theta 0)
    /\ conv1_2 (layers st) = Conv2d_new 64 64 3 3 1 (theta 2)
    /\ conv2_1 (layers st) = Conv2d_new 64 128 3 3 1 (theta 5)
    /\ conv2_2 (layers st) = Conv2d_new 128 128 3 3 1 (theta 7)
    /\ conv3_1 (layers st) = Conv2d_new 128 256 3 3 1 (theta 10)
    /\ conv3_2 (layers st) = Conv2d_new 256 256 3 3 1 (theta 12)
    /\ conv3_3 (layers st) = Conv2d_new 256 256 3 3 1 (theta 14)
    /\ side_conv1 (layers st) = Conv2d_new 64 1 1 1 0 (init 7)
    /\ side_conv2 (layers st) = Conv2d_new 128 1 1 1 0 (init 8)
    /\ side_conv3 (layers st) = Conv2d_new 256 1 1 1 0 (init 9).
Proof. eexists. split; [reflexivity|]. repeat split. Qed.

(** ** The outcomes of a forward pass *)

Lemma forward_outcomes st x :
  is_fusion_weights (fusion_weights st) ->
  single_channel_heads (layers st) ->
  forward k_sigmoid x st = (Raise RuntimeError, st)
  \/ exists h so fo fw,
       forward k_sigmoid x st
       = (Ok h, mkCDWS (layers st) (Some so) (Some fo) fw
                       (side_ac_weights st) (fuse_ac_weight st))
       /\ viewed_fusion_weights fw.
Proof.
  intros (Hn & Hw0 & Hw1 & Hw2) (Hs1 & Hs2 & Hs3).
  set (Q := fun rs : result tensor * CDWS =>
    rs = (Raise RuntimeError, st)
    \/ exists h so fo fw,
         rs = (Ok h, mkCDWS (layers st) (Some so) (Some fo) fw
                            (side_ac_weights st) (fuse_ac_weight st))
         /\ viewed_fusion_weights fw).
  change (Q (forward k_sigmoid x st)).
  unfold forward. rewrite bind_get. cbv zeta.
  rewrite bind_lift.
  destruct (Conv2d_call (conv1_1 (layers st)) x) as [h1|e] eqn:E0;
    [|left; apply Conv2d_call_raises in E0; subst; reflexivity].
  destruct (Conv2d_call_in _ _ _ E0) as (bt & C0 & H0 & W0 & Hx).
  track E0.
  do 12 (rewrite bind_lift;
    match goal with
    | |- Q (match ?r with Ok _ => _ | Raise _ => _ end) =>
        let E := fresh "E" in
        destruct r eqn:E;
        [track E
        | left;
          first [apply Conv2d_call_raises in E | apply MaxPool2d_call_raises in E];
          subst; reflexivity]
    end).
  rewrite Hs1 in Hy1. rewrite Hs2 in Hy5. rewrite Hs3 in Hy10.
  rewrite bind_lift.
  match goal with
  | |- Q (match ?r with Ok _ => _ | Raise _ => _ end) =>
      destruct r as [so|e] eqn:Ec
  end.
  2:{ left.
      apply (cat1_three_raises (t_map k_sigmoid _) (t_map k_sigmoid _)
               (t_map k_sigmoid _) _ _ _ _ _ _ _ _ Hy1 Hy5 Hy10) in Ec.
      subst. reflexivity. }
  assert (Hso : broadcast_shapes (shape so) [1; 3; 1; 1] <> None
                /\ exists d0 d1 rest,
                     forall sh, broadcast_shapes (shape so) [1; 3; 1; 1] = Some sh ->
                                sh = d0 :: d1 :: rest).
  { destruct bt as [|B]; cbn [planes] in Hy1, Hy5, Hy10.
    - rewrite (cat1_three_unbatched (t_map k_sigmoid _) (t_map k_sigmoid _)
        (t_map k_sigmoid _) _ _ _ _ _ _ _ Hy1 Hy5 Hy10 Ec).
      rewrite broadcast_weights_unbatched. split; [discriminate|].
      eexists _, _, _. intros sh [= <-]. reflexivity.
    - rewrite (cat1_three (t_map k_sigmoid _) (t_map k_sigmoid _)
        (t_map k_sigmoid _) _ _ _ _ _ _ _ _ _ _ Hy1 Hy5 Hy10 Ec).
      rewrite broadcast_weights. split; [discriminate|].
      eexists _, _, _. intros sh [= <-]. reflexivity. }
  destruct Hso as (Hsome & d0 & d1 & rest & Hsh).
  rewrite bind_modify, bind_get. cbn [fusion_weights set_side_outputs].
  rewrite bind_lift. unfold view at 1. rewrite Hn.
  change (3 =? numel [1; 3; 1; 1]) with true. cbv iota.
  rewrite bind_modify.
  rewrite bind_lift. unfold t_mul, binop at 1. cbn [shape].
  destruct (broadcast_shapes (shape so) [1; 3; 1; 1]) as [sh|]; [|congruence].
  rewrite (Hsh sh eq_refl).
  rewrite bind_lift. unfold sum_dim1 at 1. cbn [shape].
  rewrite bind_modify. unfold ret.
  right. eexists _, _, _, _. split; [reflexivity|].
  split; [reflexivity|].
  unfold is_fusion_weights. cbn [shape data]. repeat split; assumption.
Qed.

(** X3.  On an instance whose side heads have one channel each and whose
    [fusion_weights] are the three class weights, a forward pass has two
    outcomes only.  It raises [RuntimeError] and leaves the instance exactly
    as it was (every check that can fail comes before the first
    assignment), or it returns, with both outputs assigned and with the
    layers and the two area weights as they were. *)
Theorem forward_is_all_or_nothing st x :
  is_fusion_weights (fusion_weights st) ->
  single_channel_heads (layers st) ->
  match fst (forward k_sigmoid x st) with
  | Raise e => e = RuntimeError /\ snd (forward k_sigmoid x st) = st
  | Ok _ =>
      let st' := snd (forward k_sigmoid x st) in
      side_outputs st' <> None /\ fused_output st' <> None
      /\ layers st' = layers st
      /\ side_ac_weights st' = side_ac_weights st
      /\ fuse_ac_weight st' = fuse_ac_weight st
  end.
Proof.
  intros Hw Hs.
  destruct (forward_outcomes st x Hw Hs) as [E | (h & so & fo & fw & E & _)];
    rewrite E; cbn; repeat split; discriminate.
Qed.

(** [compute_loss] assigns neither a layer nor [fusion_weights]. *)
Lemma compute_loss_keeps tc ta st :
  layers (snd (compute_loss k_log k_pow tc ta st)) = layers st
  /\ fusion_weights (snd (compute_loss k_log k_pow tc ta st)) = fusion_weights st.
Proof.
  set (Q := fun rs : result tensor * CDWS =>
    layers (snd rs) = layers st /\ fusion_weights (snd rs) = fusion_weights st).
  change (Q (compute_loss k_log k_pow tc ta st)).
  assert (Hgoal : forall (r : result tensor) (s : CDWS),
     layers s = layers st -> fusion_weights s = fusion_weights st -> Q (r, s))
    by (intros r s H1 H2; split; assumption).
  unfold compute_loss. rewrite bind_get.
  destruct (side_outputs st) as [so|]; cbn [is_Some_b py_assert];
    [|apply Hgoal; reflexivity].
  unfold bind at 1. cbn [ret].
  destruct (fused_output st) as [fo|]; cbn [is_Some_b py_assert];
    [|apply Hgoal; reflexivity].
  unfold bind at 1. cbn [ret].
  clearbody Q.
  repeat first
    [ rewrite bind_get
    | rewrite bind_modify
    | rewrite bind_lift;
      match goal with
      | |- Q (match ?r with Ok _ => _ | Raise _ => _ end) =>
          destruct r; [| apply Hgoal; reflexivity]
      end ].
  unfold lift. apply Hgoal; reflexivity.
Qed.

(** X4.  [forward] assigns [self.fusion_weights] on every pass that reaches
    the fusion, but only to a view of itself: after any sequence of forward
    and [compute_loss] calls, returning or raising, the attribute still
    holds 0.2, 0.35 and 0.45 in this order, and the layers are those the
    sequence started with. *)
Theorem fusion_weights_survive_every_call st cs :
  is_fusion_weights (fusion_weights st) ->
  single_channel_heads (layers st) ->
  is_fusion_weights (fusion_weights (snd (run_calls k_sigmoid k_log k_pow cs st)))
  /\ layers (snd (run_calls k_sigmoid k_log k_pow cs st)) = layers st.
Proof.
  revert st. induction cs as [|c cs IH]; intros st Hw Hs; cbn [run_calls].
  - split; [exact Hw | reflexivity].
  - assert (Hstep : is_fusion_weights
              (fusion_weights (snd (do_call k_sigmoid k_log k_pow c st)))
            /\ layers (snd (do_call k_sigmoid k_log k_pow c st)) = layers st).
    { destruct c as [x | tc ta]; cbn [do_call].
      - destruct (forward_outcomes st x Hw Hs)
          as [E | (h & so & fo & fw & E & _ & Hfw)]; rewrite E; cbn [snd].
        + split; [exact Hw | reflexivity].
        + split; [exact Hfw | reflexivity].
      - destruct (compute_loss_keeps tc ta st) as [H1 H2].
        rewrite H1, H2. split; [exact Hw | reflexivity]. }
    destruct (do_call k_sigmoid k_log k_pow c st) as [r st1]. cbn [snd] in Hstep.
    destruct Hstep as [Hw1 Hl1].
    assert (Hs1 : single_channel_heads (layers st1)) by (rewrite Hl1; exact Hs).
    destruct (IH st1 Hw1 Hs1) as [Hw2 Hl2].
    destruct (run_calls k_sigmoid k_log k_pow cs st1) as [rs st2].
    cbn [snd] in *. split; [exact Hw2 | congruence].
Qed.

(** ** The two terms of the loss *)

(** X5.  [mil_loss] on an output of shape [(B, C, H, W)], for labels of
    shape [(B,)]: the result has shape [(B, C)], and its entry for sample
    [b] and channel [c] is the cross entropy of the label of [b] against the
    generalized mean of the plane [(b, c)].  It depends on no other sample
    and on no other channel. *)
Theorem mil_loss_is_per_sample_cross_entropy tc o B C0 H W :
  shape tc = [B] -> shape o = [B; C0; H; W] ->
  exists y, mil_loss k_log k_pow (unsqueeze_last tc) (Some o) = Ok y
    /\ shape y = [B; C0]
    /\ forall b c, b < B -> c < C0 ->
         cell y b c
         = (entry tc b * k_log (image_pred k_pow o b c)
            + (1 - entry tc b) * k_log (1 - image_pred k_pow o b c))%Q.
Proof.
  intros Htc Ho.
  assert (Htc' : shape (unsqueeze_last tc) = [B; 1])
    by (cbn; rewrite Htc; reflexivity).
  unfold mil_loss, attr_mean, mean_2_3. rewrite Ho. cbn [rbind].
  unfold t_mul, t_add.
  match goal with |- context [binop Qmult (unsqueeze_last tc) ?v] =>
    destruct (binop_ok Qmult (unsqueeze_last tc) v [B; C0]) as (a & Ea & Ha & Da);
      [rewrite Htc'; apply broadcast_column|]
  end.
  rewrite Ea. cbn [rbind].
  match goal with |- context [binop Qmult ?u ?v] =>
    destruct (binop_ok Qmult u v [B; C0]) as (b' & Eb & Hb & Db);
      [cbn [shape scalar_rsub t_map]; rewrite Htc'; apply broadcast_column|]
  end.
  rewrite Eb. cbn [rbind].
  destruct (binop_ok Qplus a b' [B; C0]) as (y & Ey & Hy & Dy).
  { rewrite Ha, Hb. apply broadcast_same. }
  exists y. split; [exact Ey|]. split; [exact Hy|].
  intros b c Hlt Hc. unfold cell.
  rewrite Dy, Ha, Hb, (bcast_index_2 B C0 b c) by assumption.
  rewrite Da, Db. cbn [shape scalar_rsub t_map]. rewrite Htc'.
  rewrite (bcast_index_column B b c), (bcast_index_2 B C0 b c) by assumption.
  cbn [data t_map scalar_rsub unsqueeze_last removelast].
  unfold image_pred, plane_mean, entry, pixel. rewrite Ho. reflexivity.
Qed.

(** X6.  [ac_loss] on an output of shape [(B, C, H, W)], for targets of
    shape [(B,)]: the result has shape [(B, 1)], not [(B, C)] as the comment
    in the source says, and its entry for sample [b] is the label of [b]
    times one number for the whole batch, the squared gaps between the mean
    of a plane and the target area of its sample summed over all samples
    and all channels ([torch.sum] is called without a dimension). *)
Theorem ac_loss_is_one_number_per_batch tc ta o B C0 H W :
  shape tc = [B] -> shape ta = [B] -> shape o = [B; C0; H; W] ->
  exists y, ac_loss (unsqueeze_last tc) (unsqueeze_last ta) (Some o) = Ok y
    /\ shape y = [B; 1]
    /\ forall b, b < B ->
         (cell y b 0 == entry tc b * area_gap o ta B C0)%Q.
Proof.
  intros Htc Hta Ho.
  assert (Htc' : shape (unsqueeze_last tc) = [B; 1])
    by (cbn; rewrite Htc; reflexivity).
  assert (Hta' : shape (unsqueeze_last ta) = [B; 1])
    by (cbn; rewrite Hta; reflexivity).
  unfold ac_loss, attr_mean, mean_2_3. rewrite Ho. cbn [rbind].
  unfold t_sub, t_mul.
  match goal with |- context [binop Qminus ?u ?v] =>
    destruct (binop_ok Qminus u v [B; C0]) as (d & Ed & Hd & Dd);
      [cbn [shape]; rewrite Hta'; apply broadcast_column_r|]
  end.
  rewrite Ed. cbn [rbind].
  destruct (binop_ok Qmult (unsqueeze_last tc) (sum_all (t_square d)) [B; 1])
    as (y & Ey & Hy & Dy).
  { rewrite Htc'. apply broadcast_scalar. }
  exists y. split; [exact Ey|]. split; [exact Hy|].
  intros b Hb. unfold cell. rewrite Dy, Htc'.
  rewrite (bcast_index_column B b 0) by assumption.
  cbn [data unsqueeze_last removelast sum_all shape t_square t_map].
  rewrite Hd. cbn [sum_over]. unfold entry at 1.
  apply Qmult_comp; [reflexivity|].
  unfold area_gap.
  apply sumQ_ext. intros i Hi. apply sumQ_ext. intros c Hc.
  rewrite Dd. cbn [shape]. rewrite Hta'.
  rewrite (bcast_index_2 B C0 i c), (bcast_index_column B i c) by assumption.
  cbn [data unsqueeze_last removelast].
  unfold plane_mean, entry, pixel. rewrite Ho. reflexivity.
Qed.

(** Targets whose length is not that of the batch. *)
Lemma broadcast_mismatch B B' C0 :
  B' <> B -> B' <> 1 -> B <> 1 -> broadcast_shapes [B'; 1] [B; C0] = None.
Proof.
  intros H1 H2 H3. unfold broadcast_shapes. cbn.
  apply Nat.eqb_neq in H1, H2, H3. rewrite H1, H2, H3.
  destruct (1 =? C0); reflexivity.
Qed.

Lemma broadcast_mismatch_r B B' C0 :
  B' <> B -> B' <> 1 -> B <> 1 -> broadcast_shapes [B; C0] [B'; 1] = None.
Proof.
  intros H1 H2 H3. unfold broadcast_shapes. cbn.
  assert (H1' : B <> B') by congruence.
  apply Nat.eqb_neq in H1', H2, H3. rewrite H1', H2, H3.
  destruct (C0 =? 1); reflexivity.
Qed.

(** X7.  On populated outputs for a batch of [B] images, labels (or, with
    labels of length [B], target areas) of another length [B'] make
    [compute_loss] raise [RuntimeError] at the first broadcast, before it
    has assigned anything.  The lengths 1 on either side are left out:
    those broadcast. *)
Theorem compute_loss_refuses_targets_of_another_length st so fo tc ta B B' C0 H W :
  side_outputs st = Some so -> fused_output st = Some fo ->
  shape so = [B; C0; H; W] ->
  B' <> B -> B' <> 1 -> B <> 1 ->
  (shape tc = [B'] \/ (shape tc = [B] /\ shape ta = [B'])) ->
  compute_loss k_log k_pow tc ta st = (Raise RuntimeError, st).
Proof.
  intros Hso Hfo Hsso H1 H2 H3 Hsh.
  unfold compute_loss. rewrite bind_get, Hso, Hfo. cbn [is_Some_b py_assert].
  unfold bind at 1. cbn [ret]. unfold bind at 1. cbn [ret].
  destruct Hsh as [Htc | [Htc Hta]].
  - rewrite bind_lift.
    assert (E : mil_loss k_log k_pow (unsqueeze_last tc) (Some so) = Raise RuntimeError).
    { unfold mil_loss, attr_mean, mean_2_3. rewrite Hsso. cbn [rbind].
      unfold t_mul at 1, binop. cbn [shape unsqueeze_last t_map].
      rewrite Htc. cbn [app]. rewrite broadcast_mismatch by assumption.
      reflexivity. }
    rewrite E. reflexivity.
  - assert (Htc' : shape (unsqueeze_last tc) = [B; 1])
      by (cbn; rewrite Htc; reflexivity).
    destruct (mil_loss_ok k_log k_pow _ so B C0 H W Htc' Hsso) as (m1 & E1 & _).
    rewrite bind_lift, E1, bind_lift.
    assert (E : ac_loss (unsqueeze_last tc) (unsqueeze_last ta) (Some so)
                = Raise RuntimeError).
    { unfold ac_loss, attr_mean, mean_2_3. rewrite Hsso. cbn [rbind].
      unfold t_sub at 1, binop. cbn [shape unsqueeze_last].
      rewrite Hta. cbn [app]. rewrite broadcast_mismatch_r by assumption.
      reflexivity. }
    rewrite E. reflexivity.
Qed.

(** ** The weights that [compute_loss] assigns *)

Lemma compute_loss_attribute_error_n st so fo tc ta B H W z n :
  side_outputs st = Some so -> fused_output st = Some fo ->
  shape so = [B; 3; H; W] -> shape fo = [B; 1; H; W] ->
  shape tc = [B] -> shape ta = [B] ->
  shape (side_ac_weights st) = repeat 1 n ++ [3] ->
  fuse_ac_weight st = PyInt z ->
  compute_loss k_log k_pow tc ta st
    = (Raise AttributeError,
       set_side_ac_weights (unsqueeze_0 (side_ac_weights st)) st).
Proof.
  intros Hso Hfo Hsso Hsfo Htc Hta Hw Hz.
  assert (Htc' : shape (unsqueeze_last tc) = [B; 1])
    by (cbn; rewrite Htc; reflexivity).
  unfold compute_loss. rewrite bind_get, Hso, Hfo. cbn [is_Some_b py_assert].
  unfold bind at 1. cbn [ret]. unfold bind at 1. cbn [ret].
  destruct (mil_loss_ok k_log k_pow _ so B 3 H W Htc' Hsso) as (m1 & E1 & Hm1).
  destruct (ac_loss_gated tc ta so B 3 H W Htc Hta Hsso) as (c1 & E2 & Hc1 & _).
  destruct (mil_loss_ok k_log k_pow _ fo B 1 H W Htc' Hsfo) as (m2 & E3 & Hm2).
  destruct (ac_loss_gated tc ta fo B 1 H W Htc Hta Hsfo) as (c2 & E4 & Hc2 & _).
  rewrite bind_lift, E1, bind_lift, E2, bind_modify, bind_get.
  cbn [side_ac_weights fused_output fuse_ac_weight set_side_ac_weights].
  rewrite ?Hfo, ?Hz.
  destruct (binop_ok Qmult (unsqueeze_0 (side_ac_weights st)) c1
              (repeat 1 n ++ [B; 3])) as (wl & Ewl & Hwl & _).
  { cbn [shape unsqueeze_0]. rewrite Hw, Hc1. apply (broadcast_leading_ones B n). }
  unfold t_mul at 1. rewrite bind_lift, Ewl.
  destruct (binop_ok Qplus m1 wl (repeat 1 n ++ [B; 3])) as (sl & Esl & Hsl & _).
  { rewrite Hm1, Hwl. apply broadcast_into_leading_ones. }
  unfold t_add at 1. rewrite bind_lift, Esl.
  destruct (leading_ones_two n B) as (d0 & d1 & rest & Hd).
  destruct (sum_dim1_two false sl d0 d1 rest) as (s & Es); [congruence|].
  rewrite bind_lift, Es.
  rewrite bind_lift, E3, bind_lift, E4, bind_lift.
  reflexivity.
Qed.

Lemma set_side_ac_weights_same st :
  set_side_ac_weights (side_ac_weights st) st = st.
Proof. destruct st; reflexivity. Qed.

Lemma iter_unsqueeze_shape n w :
  shape (Nat.iter n unsqueeze_0 w) = repeat 1 n ++ shape w.
Proof.
  induction n as [|n IH]; [reflexivity|].
  rewrite Nat.iter_succ. cbn [shape unsqueeze_0 repeat app]. rewrite IH. reflexivity.
Qed.

Lemma iter_unsqueeze_data n w idx :
  data (Nat.iter n unsqueeze_0 w) (repeat 0 n ++ idx) = data w idx.
Proof.
  induction n as [|n IH]; [reflexivity|].
  rewrite Nat.iter_succ. cbn [data unsqueeze_0 repeat app tl]. exact IH.
Qed.

(** X8.  [compute_loss] assigns [self.side_ac_weights] its own
    [unsqueeze(0)] before it raises at [fuse_ac_weight]: every call on
    populated outputs leaves the attribute with one more leading dimension.
    After [n] calls, all of which raise [AttributeError], its shape is [n]
    ones followed by 3, with the three values unchanged. *)
Theorem side_ac_weights_grow_with_every_call st so fo tc ta B H W z n :
  side_outputs st = Some so -> fused_output st = Some fo ->
  shape so = [B; 3; H; W] -> shape fo = [B; 1; H; W] ->
  shape tc = [B] -> shape ta = [B] ->
  shape (side_ac_weights st) = [3] ->
  fuse_ac_weight st = PyInt z ->
  run_calls k_sigmoid k_log k_pow (repeat (ComputeLoss tc ta) n) st
    = (repeat (Raise AttributeError) n,
       set_side_ac_weights (Nat.iter n unsqueeze_0 (side_ac_weights st)) st)
  /\ shape (Nat.iter n unsqueeze_0 (side_ac_weights st)) = repeat 1 n ++ [3]
  /\ forall c, data (Nat.iter n unsqueeze_0 (side_ac_weights st)) (repeat 0 n ++ [c])
               = data (side_ac_weights st) [c].
Proof.
  intros Hso Hfo Hsso Hsfo Htc Hta Hw Hz.
  split; [|split; [rewrite iter_unsqueeze_shape, Hw; reflexivity
                  | intros c; apply iter_unsqueeze_data]].
  assert (Hgen : forall m k st',
    side_outputs st' = Some so -> fused_output st' = Some fo ->
    fuse_ac_weight st' = PyInt z ->
    shape (side_ac_weights st') = repeat 1 k ++ [3] ->
    run_calls k_sigmoid k_log k_pow (repeat (ComputeLoss tc ta) m) st'
    = (repeat (Raise AttributeError) m,
       set_side_ac_weights (Nat.iter m unsqueeze_0 (side_ac_weights st')) st')).
  { induction m as [|m IH]; intros k st' Hso' Hfo' Hz' Hw'.
    - cbn. rewrite set_side_ac_weights_same. reflexivity.
    - cbn [repeat run_calls do_call].
      rewrite (compute_loss_attribute_error_n st' so fo tc ta B H W z k)
        by assumption.
      rewrite (IH (S k)); try assumption.
      + cbn [side_ac_weights set_side_ac_weights]. f_equal.
        unfold set_side_ac_weights. cbn. f_equal.
        rewrite <- Nat.iter_succ_r. reflexivity.
      + cbn. rewrite Hw'. reflexivity. }
  apply (Hgen n 0 st); assumption.
Qed.

(** X9.  Once [fuse_ac_weight] holds a one-element tensor (as
    [side_ac_weights] holds a tensor from the start), the first
    [compute_loss] on populated outputs returns.  The loss has shape [(B,)];
    its entry for sample [b] is the sum over the three side outputs of the
    MIL term plus the weighted area term, plus the MIL term and the weighted
    area term of the fused output.  Both weight attributes are left
    unsqueezed. *)
Theorem compute_loss_with_a_tensor_weight st so fo tc ta B H W wf :
  side_outputs st = Some so -> fused_output st = Some fo ->
  shape so = [B; 3; H; W] -> shape fo = [B; 1; H; W] ->
  shape tc = [B] -> shape ta = [B] ->
  shape (side_ac_weights st) = [3] ->
  fuse_ac_weight st = PyTensor wf -> shape wf = [1] ->
  exists y m1 c1 m2 c2,
    mil_loss k_log k_pow (unsqueeze_last tc) (Some so) = Ok m1
    /\ ac_loss (unsqueeze_last tc) (unsqueeze_last ta) (Some so) = Ok c1
    /\ mil_loss k_log k_pow (unsqueeze_last tc) (Some fo) = Ok m2
    /\ ac_loss (unsqueeze_last tc) (unsqueeze_last ta) (Some fo) = Ok c2
    /\ compute_loss k_log k_pow tc ta st
       = (Ok y, set_fuse_ac_weight (PyTensor (unsqueeze_0 wf))
                  (set_side_ac_weights (unsqueeze_0 (side_ac_weights st)) st))
    /\ shape y = [B]
    /\ forall b, b < B ->
         (entry y b
          == sumQ 3 (fun c => cell m1 b c + entry (side_ac_weights st) c * cell c1 b 0)
             + (cell m2 b 0 + entry wf 0 * cell c2 b 0))%Q.
Proof.
  intros Hso Hfo Hsso Hsfo Htc Hta Hw Hz Hwf.
  assert (Htc' : shape (unsqueeze_last tc) = [B; 1])
    by (cbn; rewrite Htc; reflexivity).
  destruct (mil_loss_ok k_log k_pow _ so B 3 H W Htc' Hsso) as (m1 & E1 & Hm1).
  destruct (ac_loss_gated tc ta so B 3 H W Htc Hta Hsso) as (c1 & E2 & Hc1 & _).
  destruct (mil_loss_ok k_log k_pow _ fo B 1 H W Htc' Hsfo) as (m2 & E3 & Hm2).
  destruct (ac_loss_gated tc ta fo B 1 H W Htc Hta Hsfo) as (c2 & E4 & Hc2 & _).
  destruct (binop_ok Qmult (unsqueeze_0 (side_ac_weights st)) c1 [B; 3])
    as (wl & Ewl & Hwl & Dwl).
  { cbn [shape unsqueeze_0]. rewrite Hw, Hc1. apply broadcast_row_column. }
  destruct (binop_ok Qplus m1 wl [B; 3]) as (sl & Esl & Hsl & Dsl).
  { rewrite Hm1, Hwl. apply broadcast_same. }
  destruct (binop_ok Qmult (unsqueeze_0 wf) c2 [B; 1]) as (wl2 & Ewl2 & Hwl2 & Dwl2).
  { cbn [shape unsqueeze_0]. rewrite Hwf, Hc2. apply broadcast_ones_column. }
  destruct (binop_ok Qplus m2 wl2 [B; 1]) as (fl & Efl & Hfl & Dfl).
  { rewrite Hm2, Hwl2. apply broadcast_same. }
  set (side_loss := mkTensor [B] (fun idx =>
         match idx with
         | i0 :: r => sumQ 3 (fun c => data sl (i0 :: c :: r))
         | _ => 0%Q
         end)).
  assert (Esum : sum_dim1 false sl = Ok side_loss).
  { unfold sum_dim1. rewrite Hsl. reflexivity. }
  assert (Hsq : broadcast_shapes [B] (shape (squeeze fl)) = Some [B]).
  { cbn [shape squeeze]. rewrite Hfl. cbn [List.filter].
    destruct (B =? 1) eqn:EB; cbn [negb Nat.eqb].
    - apply broadcast_scalar.
    - apply broadcast_same. }
  destruct (binop_ok Qplus side_loss (squeeze fl) [B] Hsq) as (y & Ey & Hy & Dy).
  exists y, m1, c1, m2, c2.
  repeat (split; [assumption|]).
  split; [|split; [exact Hy|]].
  - unfold compute_loss. rewrite bind_get, Hso, Hfo. cbn [is_Some_b py_assert].
    unfold bind at 1. cbn [ret]. unfold bind at 1. cbn [ret].
    rewrite bind_lift, E1, bind_lift, E2, bind_modify, bind_get.
    cbn [side_ac_weights fused_output fuse_ac_weight set_side_ac_weights].
    rewrite ?Hfo, ?Hz.
    unfold t_mul at 1. rewrite bind_lift, Ewl.
    unfold t_add at 1. rewrite bind_lift, Esl.
    rewrite bind_lift, Esum.
    rewrite bind_lift, E3, bind_lift, E4, bind_lift.
    cbn [call_to]. rewrite bind_modify, bind_get.
    cbn [fuse_ac_weight set_fuse_ac_weight py_mul].
    unfold t_mul at 1. rewrite bind_lift, Ewl2.
    unfold t_add at 1. rewrite bind_lift, Efl.
    unfold t_add, lift. rewrite Ey. reflexivity.
  - intros b Hb. unfold entry at 1. rewrite Dy.
    assert (Hside : bcast_index (shape side_loss) [b] = [b]).
    { cbn [shape side_loss]. unfold bcast_index.
      cbn [length Nat.sub skipn bcast_zip]. rewrite (bcast_keep B b) by assumption.
      reflexivity. }
    assert (Hfuse : squeeze_index (shape fl) (bcast_index (shape (squeeze fl)) [b])
                    = [b; 0]).
    { cbn [shape squeeze]. rewrite Hfl. cbn [List.filter squeeze_index].
      destruct (B =? 1) eqn:EB; cbn [negb Nat.eqb].
      - apply Nat.eqb_eq in EB. subst B. assert (b = 0) by lia. subst b.
        reflexivity.
      - unfold bcast_index. cbn [length Nat.sub skipn bcast_zip]. rewrite EB.
        reflexivity. }
    rewrite Hside. cbn [data squeeze side_loss]. rewrite Hfuse.
    apply Qplus_comp.
    + apply sumQ_ext. intros c Hc.
      rewrite Dsl, Hm1, Hwl, (bcast_index_2 B 3 b c) by assumption.
      rewrite Dwl. cbn [shape unsqueeze_0]. rewrite Hw, Hc1.
      rewrite bcast_index_row, (bcast_index_column B b c) by assumption.
      cbn [data unsqueeze_0 tl]. unfold cell, entry. reflexivity.
    + rewrite Dfl, Hm2, Hwl2, (bcast_index_2 B 1 b 0) by (assumption || lia).
      rewrite Dwl2. cbn [shape unsqueeze_0]. rewrite Hwf, Hc2.
      rewrite (bcast_index_column B b 0) by assumption.
      unfold bcast_index. cbn [length Nat.sub skipn bcast_zip Nat.eqb].
      cbn [data unsqueeze_0 tl]. unfold cell, entry. reflexivity.
Qed.

End CdwsMilFurther.

(** * Further facts about train.py *)

Section TrainFurther.

Context `{C : Collaborators}.
Variable record_dir : path.

(** ** What the training part of an epoch leaves as it was *)

(** X10.  [with torch.set_grad_enabled(phase == 'train')] is left with the
    mode that was set before it, whether the block returns or raises: after
    an iteration, after an iteration under the handler of the batch loop,
    and after a whole epoch, the grad mode is the one it was before (the
    collaborators are confined to their own state).  The mode of a
    validation phase does not reach what follows. *)
Theorem grad_mode_is_restored ph data no_val w :
  grad_enabled (snd (train_one_iteration ph data w)) = grad_enabled w
  /\ grad_enabled (snd (try_one_iteration ph data w)) = grad_enabled w
  /\ grad_enabled (snd (train_one_epoch no_val w)) = grad_enabled w.
Proof.
  split; [apply (quiet_train_one_iteration ph data w)|].
  split.
  - destruct (logs_only_try_one_iteration ph data w) as (l & H & _). exact H.
  - destruct (logs_only_train_one_epoch no_val w) as (l & H & _). exact H.
Qed.

(** X11.  What [train_one_epoch] itself writes to the log in a phase, and
    nothing else: the header (['Train phase:'] or ['Val phase:']), then one
    warning for each exception that the handler has to catch, in the order
    of the batches ([caught_in_phase] reads them off the iterations
    themselves), and, when the phase returns, the summary of the tracker.
    Every warning is for an instance of [RuntimeError], and there are at
    most as many as the loader gave fetches.  A phase that raises logs no
    summary. *)
Theorem phase_log_is_header_warnings_summary ph w :
  let r := run_phase ph w in
  let exs := caught_in_phase ph w in
  Forall (fun ex => issubclass ex RuntimeError = true) exs
  /\ (forall fetches w0, phase_setup ph w = (Ok fetches, w0) ->
        length exs <= length fetches)
  /\ grad_enabled (snd r) = grad_enabled w
  /\ log (snd r)
     = log w ++ Info (capitalize ph +:+ " phase:") :: map Warning exs
       ++ match fst r with
          | Ok _ => [Info (tracker_log (aux (w_heap (snd r))))]
          | Raise _ => []
          end.
Proof.
  cbv zeta.
  set (Q := fun (exs : list exn) (r : result unit * world) =>
    Forall (fun ex => issubclass ex RuntimeError = true) exs
    /\ (forall fetches w0, phase_setup ph w = (Ok fetches, w0) ->
          length exs <= length fetches)
    /\ grad_enabled (snd r) = grad_enabled w
    /\ log (snd r)
       = log w ++ Info (capitalize ph +:+ " phase:") :: map Warning exs
         ++ match fst r with
            | Ok _ => [Info (tracker_log (aux (w_heap (snd r))))]
            | Raise _ => []
            end).
  change (Q (caught_in_phase ph w) (run_phase ph w)).
  unfold run_phase, caught_in_phase.
  pose proof (phase_setup_logged ph w) as Hs. unfold bind at 1.
  destruct (phase_setup ph w) as [[fetches|e] w0] eqn:Eset; cbn [snd] in Hs.
  2:{ destruct Hs as (H1 & _ & H3). unfold Q. cbn [fst snd map app].
      split; [constructor|]. split; [discriminate|]. split; assumption. }
  destruct (batch_loop_logged ph fetches w0) as (Hl & Hall & Hlen).
  pose proof (logged_trans _ _ _ _ _ Hs Hl) as (H1 & _ & H3).
  unfold bind at 1. unfold Q.
  destruct (for_each fetches (fetch_and_try ph) w0) as [[[]|e] w1];
    cbn [snd fst] in *;
    (split; [exact Hall|]);
    (split; [intros ? ? [= <- <-]; exact Hlen|]).
  - unfold phase_summary. rewrite bind_get. unfold logger_info, modify.
    cbn [fst snd grad_enabled log add_log w_heap].
    split; [exact H1|]. rewrite H3. cbn [app]. rewrite <- !app_assoc. reflexivity.
  - cbn [fst snd]. split; [exact H1|]. rewrite H3. rewrite app_nil_r. reflexivity.
Qed.

(** X12.  From the start of an epoch to the step of the scheduler,
    [train.py] creates and removes no file, whatever the outcome (the
    collaborators are confined to their own state).  When this part raises,
    the epoch is given up there: [tracker.save], the removal of checkpoints
    and [save_checkpoint] are not run, so the checkpoint of the epoch before
    is still on disk. *)
Theorem training_leaves_the_disk_alone epoch total_epochs w :
  let rw := epoch_training epoch total_epochs w in
  files (snd rw) = files w
  /\ grad_enabled (snd rw) = grad_enabled w
  /\ forall ex, fst rw = Raise ex ->
       epoch_body record_dir total_epochs epoch w = (Raise ex, snd rw).
Proof.
  cbv zeta.
  destruct (logs_only_epoch_training epoch total_epochs w) as (l & H1 & H2 & _).
  split; [exact H2|]. split; [exact H1|].
  intros ex Hex. unfold epoch_body. apply bind_raise.
  destruct (epoch_training epoch total_epochs w) as [r w1]. cbn in *.
  rewrite Hex. reflexivity.
Qed.

(** ** The run as a whole *)

(** What the setup of [fit] has done when it returns. *)
Lemma fit_setup_returns a w initial_epoch total_epochs w1 :
  fit_setup a w = (Ok (initial_epoch, total_epochs), w1) ->
  total_epochs = (epochs a + initial_epoch - 1)%Z
  /\ match resume_ckpt a with
     | None => initial_epoch = 1%Z
     | Some p =>
         exists ck, files w !! p = Some (CheckpointFile ck)
           /\ initial_epoch = (ck_epoch ck + 1)%Z
           /\ model_state (w_heap w1) = ck_model_state ck
           /\ optimizer_state (w_heap w1) = ck_optimizer_state_dict ck
     end.
Proof.
  unfold fit_setup. intros H.
  apply bind_inv_ok in H as (ckpt & w2 & Hload & H).
  apply bind_inv_ok in H as ([] & w3 & Hinit & H).
  rewrite bind_get in H. unfold logger_info at 1 in H. rewrite bind_modify in H.
  apply bind_inv_ok in H as ([] & w4 & Hsave & H).
  apply bind_inv_ok in H as ([] & w5 & Hdata & H).
  unfold logger_info at 1 in H. rewrite bind_modify in H.
  apply bind_inv_ok in H as ([] & w6 & Hopt & H).
  unfold ret in H. injection H as <- <- <-.
  split; [reflexivity|].
  apply on_aux_inv in Hsave as (_ & Hm4 & _).
  apply on_aux_inv in Hdata as (_ & Hm5 & _).
  destruct (resume_ckpt a) as [p|].
  - apply bind_inv_ok in Hload as ([] & w7 & Hlog & Hload).
    apply bind_inv_ok in Hload as (ck & w8 & Hload & Hret).
    unfold ret in Hret. injection Hret as <- <-.
    unfold logger_info, modify in Hlog. injection Hlog as <-.
    unfold torch_load in Hload. rewrite bind_get in Hload. cbn [files add_log] in Hload.
    destruct (files w !! p) as [[ck'| |]|] eqn:Ef; try discriminate.
    unfold ret in Hload. injection Hload as -> <-.
    exists ck. split; [reflexivity|]. split; [reflexivity|].
    unfold initialize_model, on_heap, modify in Hinit. cbn in Hinit.
    injection Hinit as <-.
    unfold get_default_optimizer, on_heap, modify in Hopt. cbn in Hopt.
    injection Hopt as <-. cbn [w_heap set_heap model_state optimizer_state add_log].
    split; [|reflexivity].
    cbn [w_heap set_heap model_state add_log] in Hm4. congruence.
  - unfold ret in Hload. injection Hload as <- <-. reflexivity.
Qed.

(** X13.  With [--epochs] 0 or less, [range(initial_epoch, total_epochs + 1)]
    is empty, from a checkpoint or not: [fit] runs its setup and
    [tracker.report()] and nothing between them, no part of an epoch. *)
Theorem fit_with_no_epochs_only_reports a w :
  (epochs a <= 0)%Z ->
  fit record_dir a w = (fit_setup a ;;; on_aux tracker_report) w
  /\ forall initial_epoch total_epochs w1,
       fit_setup a w = (Ok (initial_epoch, total_epochs), w1) ->
       seqZ initial_epoch (total_epochs + 1 - initial_epoch) = [].
Proof.
  intros Hle. split.
  - unfold fit, bind at 1 3.
    destruct (fit_setup a w) as [[[ie te]|e] w1] eqn:Hset; [|reflexivity].
    destruct (fit_setup_returns a w ie te w1 Hset) as [Hte _].
    cbn [fst snd]. rewrite seqZ_nil by lia. reflexivity.
  - intros ie te w1 Hset.
    destruct (fit_setup_returns a w ie te w1 Hset) as [Hte _].
    apply seqZ_nil. lia.
Qed.

(** What the end of an epoch has done when it returns. *)
Lemma epoch_persist_returns epoch w w' :
  epoch_persist record_dir epoch w = (Ok tt, w') ->
  glob_checkpoints record_dir (files w') = [ckpt_path record_dir epoch]
  /\ files w' !! ckpt_path record_dir epoch
     = Some (CheckpointFile (mkCheckpoint epoch (model_state (w_heap w'))
                               (optimizer_state (w_heap w'))))
  /\ files w' !! history_path record_dir
     = Some (HistoryFile (tracker_table (aux (w_heap w)))).
Proof.
  unfold epoch_persist. intros H.
  apply bind_inv_ok in H as ([] & w1 & Hsave & H).
  apply bind_inv_ok in H as ([] & w2 & Hplot & H).
  rewrite bind_get in H.
  apply bind_inv_ok in H as ([] & w3 & Hrm & H).
  rewrite bind_get in H.
  unfold tracker_save in Hsave. rewrite bind_get in Hsave.
  unfold modify in Hsave. injection Hsave as <-.
  apply on_aux_inv in Hplot as (Hf2 & _ & _). cbn [files set_files] in Hf2.
  destruct (for_each_os_remove (glob_checkpoints record_dir (files w2)) w2)
    as (f & Hrm' & Hf).
  { apply NoDup_glob_checkpoints. }
  { intros p Hp. apply elem_of_glob_checkpoints in Hp. tauto. }
  rewrite Hrm' in Hrm. injection Hrm as <-.
  assert (Hfh : f !! history_path record_dir
            = Some (HistoryFile (tracker_table (aux (w_heap w))))).
  { rewrite Hf. rewrite bool_decide_eq_false_2.
    - rewrite Hf2. apply lookup_insert_eq.
    - intros Hin%elem_of_glob_checkpoints.
      rewrite history_path_not_checkpoint in Hin. destruct Hin; discriminate. }
  assert (Hfc : forall p, is_checkpoint_file record_dir p = true -> f !! p = None).
  { intros p Hp. rewrite Hf. destruct (bool_decide _) eqn:E; [reflexivity|].
    apply bool_decide_eq_false_1 in E.
    destruct (files w2 !! p) eqn:Ep; [|reflexivity].
    exfalso. apply E. apply elem_of_glob_checkpoints. eauto. }
  unfold save_checkpoint in H. rewrite bind_get in H. cbn [w_heap set_files] in H.
  destruct (save_checkpoint_error (w_heap w2)); [discriminate|].
  unfold modify in H. injection H as <-.
  cbn [files set_files w_heap].
  split; [|split].
  - apply NoDup_singleton_list; [apply NoDup_glob_checkpoints|].
    intros p. rewrite elem_of_glob_checkpoints. split.
    + intros [Hp [x Hx]].
      destruct (decide (ckpt_path record_dir epoch = p)) as [<-|Hne]; [reflexivity|].
      rewrite lookup_insert_ne in Hx by exact Hne.
      rewrite (Hfc p Hp) in Hx. discriminate.
    + intros ->. split; [apply ckpt_path_is_checkpoint_file|].
      rewrite lookup_insert_eq. eauto.
  - apply lookup_insert_eq.
  - rewrite lookup_insert_ne; [exact Hfh|].
    intros Heq. pose proof (ckpt_path_is_checkpoint_file record_dir epoch) as Hck.
    rewrite Heq, history_path_not_checkpoint in Hck. discriminate.
Qed.

Lemma for_each_snoc_inv {S A} (l : list A) (x : A) (body : A -> M S unit) s s' :
  for_each (l ++ [x]) body s = (Ok tt, s') ->
  exists s1, for_each l body s = (Ok tt, s1) /\ body x s1 = (Ok tt, s').
Proof.
  rewrite for_each_app. intros H.
  apply bind_inv_ok in H as ([] & s1 & H1 & H2). exists s1. split; [exact H1|].
  cbn [for_each] in H2. apply bind_inv_ok in H2 as ([] & s2 & H2 & H3).
  unfold ret in H3. injection H3 as <-. exact H2.
Qed.

Lemma seqZ_snoc m n : (0 <= n)%Z -> seqZ m (n + 1) = seqZ m n ++ [(m + n)%Z].
Proof.
  intros Hn. rewrite seqZ_app by lia. reflexivity.
Qed.

(** When the loop over the epochs [first .. first + n - 1] returns, the
    last epoch has been persisted. *)
Lemma last_epoch_persisted total_epochs first n w w' :
  (1 <= n)%Z ->
  for_each (seqZ first n) (epoch_body record_dir total_epochs) w = (Ok tt, w') ->
  glob_checkpoints record_dir (files w')
    = [ckpt_path record_dir (first + n - 1)]
  /\ files w' !! ckpt_path record_dir (first + n - 1)
     = Some (CheckpointFile (mkCheckpoint (first + n - 1) (model_state (w_heap w'))
                               (optimizer_state (w_heap w'))))
  /\ is_Some (files w' !! history_path record_dir).
Proof.
  intros Hpos Hloop.
  replace n with ((n - 1) + 1)%Z in Hloop by lia.
  rewrite seqZ_snoc in Hloop by lia.
  apply for_each_snoc_inv in Hloop as (w1 & _ & Hlast).
  replace (first + (n - 1))%Z with (first + n - 1)%Z in Hlast by lia.
  unfold epoch_body in Hlast.
  apply bind_inv_ok in Hlast as ([] & w2 & _ & Hper).
  apply epoch_persist_returns in Hper as (Hg & Hc & Hh).
  split; [exact Hg|]. split; [exact Hc|]. eauto.
Qed.

(** X14.  In a record directory that [glob] takes literally: when a run of
    at least one epoch returns, the checkpoint
    directory holds exactly one file that matches [*.pth]: the checkpoint
    of the last epoch, [initial_epoch + epochs - 1], which records that
    epoch and the states that the model and the optimizer have at the end
    of the run; [history.csv] exists.  ([tracker.save] and
    [save_checkpoint] as the spec describes them.) *)
Theorem fit_leaves_the_latest_checkpoint a w w' :
  plain record_dir = true ->
  (1 <= epochs a)%Z -> fit record_dir a w = (Ok tt, w') ->
  exists initial_epoch total_epochs w1,
    fit_setup a w = (Ok (initial_epoch, total_epochs), w1)
    /\ total_epochs = (initial_epoch + epochs a - 1)%Z
    /\ glob_checkpoints record_dir (files w') = [ckpt_path record_dir total_epochs]
    /\ files w' !! ckpt_path record_dir total_epochs
       = Some (CheckpointFile (mkCheckpoint total_epochs (model_state (w_heap w'))
                                 (optimizer_state (w_heap w'))))
    /\ is_Some (files w' !! history_path record_dir).
Proof.
  intros _ Hpos H. unfold fit in H.
  apply bind_inv_ok in H as ([ie te] & w1 & Hset & H). cbn [fst snd] in H.
  apply bind_inv_ok in H as ([] & w2 & Hloop & Hrep).
  destruct (fit_setup_returns a w ie te w1 Hset) as [Hte _].
  exists ie, te, w1. split; [exact Hset|]. split; [lia|].
  replace (te + 1 - ie)%Z with (epochs a) in Hloop by lia.
  apply last_epoch_persisted in Hloop as (Hg & Hc & Hh); [|exact Hpos].
  replace (ie + epochs a - 1)%Z with te in * by lia.
  apply on_aux_inv in Hrep as (Hf & Hm & Ho).
  rewrite Hf, Hm, Ho. split; [exact Hg|]. split; [exact Hc | exact Hh].
Qed.

(** X15.  Saving and loading compose: a run of at least one epoch that
    returned can be resumed from the checkpoint it left.  The setup of the
    resumed run numbers its first epoch one after the last epoch of the
    first run, and starts from the states that the model and the optimizer
    had when the first run ended.  ([torch.load], [initialize_model],
    [get_default_optimizer] and [save_checkpoint] as the spec describes
    them.) *)
Theorem finished_run_can_be_resumed a w w' initial_epoch total_epochs w1
    a' initial_epoch' total_epochs' w2 :
  (1 <= epochs a)%Z ->
  fit_setup a w = (Ok (initial_epoch, total_epochs), w1) ->
  fit record_dir a w = (Ok tt, w') ->
  resume_ckpt a' = Some (ckpt_path record_dir total_epochs) ->
  fit_setup a' w' = (Ok (initial_epoch', total_epochs'), w2) ->
  initial_epoch' = (total_epochs + 1)%Z
  /\ total_epochs' = (total_epochs + epochs a')%Z
  /\ model_state (w_heap w2) = model_state (w_heap w')
  /\ optimizer_state (w_heap w2) = optimizer_state (w_heap w').
Proof.
  intros Hpos Hset Hfit Hres Hset'.
  unfold fit in Hfit. rewrite (bind_ok _ _ _ _ _ Hset) in Hfit. cbn [fst snd] in Hfit.
  apply bind_inv_ok in Hfit as ([] & w3 & Hloop & Hrep).
  destruct (fit_setup_returns a w _ _ _ Hset) as [Hte _].
  replace (total_epochs + 1 - initial_epoch)%Z with (epochs a) in Hloop by lia.
  apply last_epoch_persisted in Hloop as (_ & Hck & _); [|exact Hpos].
  replace (initial_epoch + epochs a - 1)%Z with total_epochs in Hck by lia.
  apply on_aux_inv in Hrep as (Hf & Hm & Ho).
  destruct (fit_setup_returns a' w' _ _ _ Hset') as [Hte' Hck'].
  rewrite Hres in Hck'. destruct Hck' as (ck & Hfile & Hie & Hm' & Ho').
  rewrite Hf, Hck in Hfile. injection Hfile as <-.
  cbn [ck_epoch ck_model_state ck_optimizer_state_dict] in *.
  repeat split; [exact Hie | lia | congruence | congruence].
Qed.

End TrainFurther.

(** ** The names of the checkpoint files *)

Lemma pretty_N_char_1_9 x :
  (0 < x < 10)%N -> pretty_N_char x <> "0"%char /\ pretty_N_char x <> "-"%char.
Proof.
  intros Hx.
  assert (x = 1 \/ x = 2 \/ x = 3 \/ x = 4 \/ x = 5 \/ x = 6
          \/ x = 7 \/ x = 8 \/ x = 9)%N as Hc by lia.
  repeat destruct Hc as [-> | Hc]; try subst x; split; discriminate.
Qed.

Lemma pretty_N_go_head x s : (0 < x)%N -> starts_with_digit_1_9 (pretty_N_go x s).
Proof.
  revert s. induction (N.lt_wf_0 x) as [x _ IH]; intros s Hx.
  rewrite pretty_N_go_step by exact Hx.
  destruct (decide (x < 10)%N) as [Hlt|Hge].
  - rewrite N.div_small by exact Hlt. rewrite pretty_N_go_0.
    rewrite N.mod_small by exact Hlt.
    destruct (pretty_N_char_1_9 x) as [H0 Hd]; [lia|].
    eexists _, _. split; [reflexivity|]. split; assumption.
  - apply IH.
    + apply N.div_lt; lia.
    + apply N.div_str_pos. lia.
Qed.

Lemma pretty_Z_head z : (0 < z)%Z -> starts_with_digit_1_9 (pretty z).
Proof.
  destruct z as [|p|p]; try lia. intros _.
  change (pretty (Z.pos p)) with (pretty_N_go (N.pos p) "").
  apply pretty_N_go_head. lia.
Qed.

Lemma strip_zeros_zeros n s : strip_zeros (zeros n +:+ s) = strip_zeros s.
Proof. induction n as [|n IH]; [reflexivity|]. cbn [zeros]. rewrite append_cons. exact IH. Qed.

Lemma strip_zeros_digit s : starts_with_digit_1_9 s -> strip_zeros s = s.
Proof.
  intros (c & r & -> & H0 & _). cbn [strip_zeros].
  destruct (Ascii.eqb_spec c "0"); [contradiction | reflexivity].
Qed.

Lemma strip_zeros_zfill w z :
  (0 <= z)%Z ->
  strip_zeros (zfill w (pretty z)) = if decide (z = 0%Z) then EmptyString else pretty z.
Proof.
  intros Hz. unfold zfill. rewrite strip_zeros_zeros.
  destruct (decide (z = 0%Z)) as [->|Hne]; [reflexivity|].
  apply strip_zeros_digit, pretty_Z_head. lia.
Qed.

Lemma zfill_pretty_inj w a b :
  (0 <= a)%Z -> (0 <= b)%Z -> zfill w (pretty a) = zfill w (pretty b) -> a = b.
Proof.
  intros Ha Hb Heq. apply (f_equal strip_zeros) in Heq.
  rewrite !strip_zeros_zfill in Heq by assumption.
  destruct (decide (a = 0%Z)) as [->|Hna], (decide (b = 0%Z)) as [->|Hnb].
  - reflexivity.
  - destruct (pretty_Z_head b) as (c & r & E & _); [lia|]. congruence.
  - destruct (pretty_Z_head a) as (c & r & E & _); [lia|]. congruence.
  - apply (inj pretty). exact Heq.
Qed.

(** A zero-filled number does not start with a sign. *)
Lemma zfill_pretty_no_sign w z r :
  (0 <= z)%Z -> zfill w (pretty z) <> String "-" r.
Proof.
  intros Hz. unfold zfill. destruct (w - String.length (pretty z)) as [|k].
  - cbn [zeros]. change (EmptyString +:+ pretty z) with (pretty z).
    destruct (decide (z = 0%Z)) as [->|Hne]; [discriminate|].
    destruct (pretty_Z_head z) as (c & r' & E & _ & Hd); [lia|].
    rewrite E. congruence.
  - cbn [zeros]. rewrite append_cons. discriminate.
Qed.

Lemma format_04d_inj a b : format_04d a = format_04d b -> a = b.
Proof.
  unfold format_04d.
  destruct (Z.ltb_spec a 0), (Z.ltb_spec b 0).
  - change ("-" +:+ ?s) with (String "-" s). intros [= Heq].
    apply zfill_pretty_inj in Heq; lia.
  - change ("-" +:+ ?s) with (String "-" s). intros Heq. symmetry in Heq.
    apply zfill_pretty_no_sign in Heq; [contradiction | assumption].
  - change ("-" +:+ ?s) with (String "-" s). intros Heq.
    apply zfill_pretty_no_sign in Heq; [contradiction | assumption].
  - apply zfill_pretty_inj; assumption.
Qed.

Lemma length_append (s t : string) :
  String.length (s +:+ t) = String.length s + String.length t.
Proof.
  induction s as [|c s IH]; [reflexivity|].
  rewrite append_cons. cbn [String.length]. rewrite IH. reflexivity.
Qed.

Lemma append_inj_r (s t u : string) : s +:+ u = t +:+ u -> s = t.
Proof.
  revert t. induction s as [|c s IH]; intros [|d t] H.
  - reflexivity.
  - apply (f_equal String.length) in H. rewrite !length_append in H.
    cbn [String.length] in H. lia.
  - apply (f_equal String.length) in H. rewrite !length_append in H.
    cbn [String.length] in H. lia.
  - rewrite !append_cons in H. injection H as -> H. f_equal. apply IH. exact H.
Qed.

Lemma ckpt_name_inj a b : ckpt_name a = ckpt_name b -> a = b.
Proof.
  unfold ckpt_name. intros H. apply (inj (String.app "ckpt.")) in H.
  apply append_inj_r in H. apply format_04d_inj. exact H.
Qed.

(** X16.  ['ckpt.{:04d}.pth'.format(epoch)] names a different file for every
    epoch (for negative ones and for those above 9999 also, where the name
    grows longer); and in a record directory that [glob] takes literally,
    each of these files is one that the glob [checkpoints/*.pth] of the
    next rotation finds. *)
Theorem every_epoch_has_its_own_checkpoint_file record_dir a b :
  a <> b ->
  ckpt_path record_dir a <> ckpt_path record_dir b
  /\ (plain record_dir = true ->
      is_checkpoint_file record_dir (ckpt_path record_dir a) = true
      /\ is_checkpoint_file record_dir (ckpt_path record_dir b) = true).
Proof.
  intros Hne. split; [|intros _; split; apply ckpt_path_is_checkpoint_file].
  unfold ckpt_path. intros Heq. apply app_inv_head in Heq.
  apply Hne, ckpt_name_inj. congruence.
Qed.

(** ** The record directory of a resumed run *)

Import PosixPath.

Lemma has_sep_app s t : has_sep (s +:+ t) = has_sep s || has_sep t.
Proof.
  induction s as [|c s IH]; [reflexivity|].
  rewrite append_cons. cbn [has_sep]. rewrite IH, orb_assoc. reflexivity.
Qed.

Lemma all_sep_app s t : all_sep (s +:+ t) = all_sep s && all_sep t.
Proof.
  induction s as [|c s IH]; [reflexivity|].
  rewrite append_cons. cbn [all_sep]. rewrite IH, andb_assoc. reflexivity.
Qed.

Lemma ends_with_sep_cons c s :
  s <> EmptyString -> ends_with_sep (String c s) = ends_with_sep s.
Proof. destruct s; [contradiction | reflexivity]. Qed.

Lemma append_not_empty s t : t <> EmptyString -> s +:+ t <> EmptyString.
Proof. destruct s; [auto | rewrite append_cons; discriminate]. Qed.

Lemma ends_with_sep_app s t :
  t <> EmptyString -> ends_with_sep (s +:+ t) = ends_with_sep t.
Proof.
  intros Ht. induction s as [|c s IH]; [reflexivity|].
  rewrite append_cons, ends_with_sep_cons by (apply append_not_empty, Ht). exact IH.
Qed.

Lemma ends_with_sep_has_sep s : ends_with_sep s = true -> has_sep s = true.
Proof.
  induction s as [|c s IH]; [discriminate|].
  destruct s as [|d s].
  - cbn. intros ->. reflexivity.
  - intros H. cbn [has_sep] in *. rewrite IH by exact H. apply orb_true_r.
Qed.

Lemma all_sep_ends_with_sep s :
  s <> EmptyString -> all_sep s = true -> ends_with_sep s = true.
Proof.
  induction s as [|c s IH]; [contradiction|]. intros _.
  cbn [all_sep]. intros [Hc Hs]%andb_prop.
  destruct s as [|d s]; [exact Hc|].
  rewrite ends_with_sep_cons by discriminate. apply IH; [discriminate | exact Hs].
Qed.

Lemma head_no_sep t : has_sep t = false -> head_to_last_sep t = EmptyString.
Proof. destruct t; [reflexivity|]. cbn [head_to_last_sep]. intros ->. reflexivity. Qed.

Lemma head_app_no_sep s t :
  has_sep t = false -> head_to_last_sep (s +:+ t) = head_to_last_sep s.
Proof.
  intros Ht. induction s as [|c s IH]; [apply head_no_sep, Ht|].
  rewrite append_cons. cbn [head_to_last_sep has_sep].
  rewrite has_sep_app, Ht, orb_false_r, IH. reflexivity.
Qed.

Lemma head_ends_with_sep s : ends_with_sep s = true -> head_to_last_sep s = s.
Proof.
  induction s as [|c s IH]; [reflexivity|]. intros H.
  cbn [head_to_last_sep]. rewrite (ends_with_sep_has_sep _ H).
  destruct s as [|d s]; [reflexivity|].
  rewrite IH; [reflexivity|]. rewrite ends_with_sep_cons in H by discriminate. exact H.
Qed.

Lemma rstrip_app_sep s : rstrip_sep (s +:+ "/") = rstrip_sep s.
Proof.
  induction s as [|c s IH]; [reflexivity|].
  rewrite append_cons. cbn [rstrip_sep all_sep].
  rewrite all_sep_app, andb_true_r, IH. reflexivity.
Qed.

Lemma rstrip_no_trailing s : ends_with_sep s = false -> rstrip_sep s = s.
Proof.
  induction s as [|c s IH]; [reflexivity|]. intros H.
  cbn [rstrip_sep].
  destruct (all_sep (String c s)) eqn:Ea.
  - apply all_sep_ends_with_sep in Ea; [congruence | discriminate].
  - destruct s as [|d s]; [reflexivity|].
    rewrite IH; [reflexivity|]. rewrite ends_with_sep_cons in H by discriminate.
    exact H.
Qed.

Lemma rstrip_empty s : rstrip_sep s = EmptyString -> all_sep s = true.
Proof.
  destruct s as [|c s]; [reflexivity|]. cbn [rstrip_sep].
  destruct (all_sep (String c s)); [reflexivity | discriminate].
Qed.

Lemma ends_with_sep_rstrip s : ends_with_sep (rstrip_sep s) = false.
Proof.
  induction s as [|c s IH]; [reflexivity|].
  cbn [rstrip_sep]. destruct (all_sep (String c s)) eqn:Ea; [reflexivity|].
  destruct (rstrip_sep s) as [|d r] eqn:Er.
  - apply rstrip_empty in Er. cbn [all_sep] in Ea. rewrite Er, andb_true_r in Ea.
    exact Ea.
  - rewrite ends_with_sep_cons by discriminate. exact IH.
Qed.

Lemma eqb_empty_false s : s <> EmptyString -> String.eqb s EmptyString = false.
Proof. destruct s; [contradiction | reflexivity]. Qed.

(** The directory of [d/leaf]. *)
Lemma dirname_join_leaf d leaf :
  has_sep leaf = false -> all_sep d = false -> ends_with_sep d = false ->
  dirname (d +:+ "/" +:+ leaf) = d.
Proof.
  intros Hl Ha He. unfold dirname.
  assert (Hhead : head_to_last_sep (d +:+ "/" +:+ leaf) = d +:+ "/").
  { rewrite <- append_assoc, head_app_no_sep by exact Hl.
    apply head_ends_with_sep. rewrite ends_with_sep_app by discriminate. reflexivity. }
  rewrite Hhead. cbv zeta.
  rewrite eqb_empty_false by (apply append_not_empty; discriminate).
  rewrite all_sep_app, Ha. cbn [negb andb].
  rewrite rstrip_app_sep. apply rstrip_no_trailing, He.
Qed.

Lemma dirname_no_trailing_sep p : no_trailing_sep (dirname p).
Proof.
  unfold dirname, no_trailing_sep. cbv zeta.
  destruct (String.eqb_spec (head_to_last_sep p) EmptyString) as [->|Hne];
    cbn [negb andb]; [left; reflexivity|].
  destruct (all_sep (head_to_last_sep p)) eqn:Ea; cbn [negb].
  - right. exact Ea.
  - left. apply ends_with_sep_rstrip.
Qed.

Lemma has_sep_zeros n : has_sep (zeros n) = false.
Proof. induction n as [|n IH]; [reflexivity | exact IH]. Qed.

Lemma has_sep_pretty_N_char x : is_sep (pretty_N_char x) = false.
Proof.
  unfold pretty_N_char.
  repeat match goal with |- context [match ?y with _ => _ end] => destruct y end;
    reflexivity.
Qed.

Lemma has_sep_pretty_N_go x s : has_sep s = false -> has_sep (pretty_N_go x s) = false.
Proof.
  revert s. induction (N.lt_wf_0 x) as [x _ IH]; intros s Hs.
  destruct (decide (x = 0)%N) as [->|Hne]; [rewrite pretty_N_go_0; exact Hs|].
  rewrite pretty_N_go_step by lia. apply IH.
  - apply N.div_lt; lia.
  - cbn [has_sep]. rewrite has_sep_pretty_N_char, Hs. reflexivity.
Qed.

Lemma has_sep_pretty_Z (z : Z) : has_sep (pretty z) = false.
Proof.
  destruct z as [|p|p]; [reflexivity| |].
  - change (pretty (Z.pos p)) with (pretty_N_go (N.pos p) "").
    apply has_sep_pretty_N_go. reflexivity.
  - change (pretty (Z.neg p)) with (String "-" (pretty_N_go (N.pos p) "")).
    cbn [has_sep]. rewrite has_sep_pretty_N_go; reflexivity.
Qed.

Lemma has_sep_ckpt_name epoch : has_sep (ckpt_name epoch) = false.
Proof.
  unfold ckpt_name, format_04d, zfill.
  destruct (epoch <? 0)%Z;
    rewrite ?has_sep_app, ?has_sep_zeros, ?has_sep_pretty_Z; reflexivity.
Qed.

(** X17.  [osp.dirname(osp.dirname(p))] undoes
    [osp.join(record_dir, 'checkpoints', name)]: for a record directory
    written without a trailing separator, the record directory that
    [__main__] derives from a checkpoint path that [fit] built is that
    directory again.  Every directory that [__main__] derives from a resume
    path is written that way, so a run resumed from a resumed run stays
    where it is. *)
Theorem resuming_stays_in_the_record_directory record_dir epoch :
  no_trailing_sep record_dir ->
  record_dir_of (ckpt_file record_dir epoch) = record_dir
  /\ forall resume_ckpt, no_trailing_sep (record_dir_of resume_ckpt).
Proof.
  intros Hn. split; [|intros p; apply dirname_no_trailing_sep].
  unfold record_dir_of, ckpt_file, join. cbn [fold_left].
  set (d := join_step record_dir "checkpoints").
  assert (Hd : all_sep d = false /\ ends_with_sep d = false /\ d <> EmptyString
               /\ dirname d = record_dir).
  { unfold d, join_step. cbn [starts_with_sep is_sep Ascii.eqb Bool.eqb].
    destruct (String.eqb_spec record_dir EmptyString) as [->|Hne]; cbn [orb].
    - split; [reflexivity|]. split; [reflexivity|]. split; [apply append_not_empty; discriminate | reflexivity].
    - destruct (ends_with_sep record_dir) eqn:Ee.
      + destruct Hn as [Hn|Ha]; [congruence|].
        rewrite all_sep_app, andb_false_r.
        rewrite ends_with_sep_app by discriminate.
        split; [reflexivity|]. split; [reflexivity|].
        split; [apply append_not_empty; discriminate|].
        unfold dirname. rewrite head_app_no_sep by reflexivity.
        rewrite head_ends_with_sep by exact Ee. cbv zeta.
        rewrite Ha, andb_false_r. reflexivity.
      + rewrite !all_sep_app, !andb_false_r.
        rewrite !ends_with_sep_app by discriminate.
        split; [reflexivity|]. split; [reflexivity|].
        split; [apply append_not_empty; discriminate|].
        apply dirname_join_leaf; [reflexivity | | exact Ee].
        destruct (all_sep record_dir) eqn:Ea; [|reflexivity].
        apply all_sep_ends_with_sep in Ea; congruence. }
  destruct Hd as (Ha & He & Hne & Hdir).
  assert (Hj : join_step d (ckpt_name epoch) = d +:+ "/" +:+ ckpt_name epoch).
  { unfold join_step.
    change (starts_with_sep (ckpt_name epoch)) with false. cbv iota.
    rewrite eqb_empty_false by exact Hne. rewrite He. reflexivity. }
  rewrite Hj, dirname_join_leaf by (apply has_sep_ckpt_name || assumption).
  exact Hdir.
Qed.

Lemma concat_app_sep (l1 l2 : list string) :
  l1 <> [] -> l2 <> [] ->
  String.concat "/" (l1 ++ l2)
  = String.concat "/" l1 +:+ "/" +:+ String.concat "/" l2.
Proof.
  intros H1 H2. induction l1 as [|x l1 IH]; [contradiction|].
  destruct l1 as [|y l1].
  - destruct l2 as [|z l2]; [contradiction|]. reflexivity.
  - change (String.concat "/" ((x :: y :: l1) ++ l2))
      with (x +:+ "/" +:+ String.concat "/" ((y :: l1) ++ l2)).
    rewrite IH by discriminate.
    change (String.concat "/" (x :: y :: l1))
      with (x +:+ "/" +:+ String.concat "/" (y :: l1)).
    rewrite !append_assoc. reflexivity.
Qed.

(** The string form of the component list that [fit] is modelled with. *)
Lemma ckpt_file_path_str (record_dir : path) epoch :
  record_dir = []
  \/ (path_str record_dir <> EmptyString
      /\ ends_with_sep (path_str record_dir) = false) ->
  ckpt_file (path_str record_dir) epoch = path_str (ckpt_path record_dir epoch).
Proof.
  intros [-> | [Hne He]]; [reflexivity|].
  assert (Hrd : record_dir <> []) by (intros ->; apply Hne; reflexivity).
  unfold ckpt_file, ckpt_path, path_str, join in *. cbn [fold_left].
  rewrite concat_app_sep by (assumption || discriminate).
  unfold join_step at 2. cbn [starts_with_sep is_sep Ascii.eqb Bool.eqb].
  rewrite eqb_empty_false by exact Hne. rewrite He. cbn [orb].
  unfold join_step.
  change (starts_with_sep (ckpt_name epoch)) with false. cbv iota.
  rewrite eqb_empty_false by (apply append_not_empty, append_not_empty; discriminate).
  rewrite !ends_with_sep_app by discriminate. cbn [ends_with_sep is_sep orb].
  change (String.concat "/" ["checkpoints"; ckpt_name epoch])
    with ("checkpoints" +:+ "/" +:+ ckpt_name epoch).
  rewrite !append_assoc. reflexivity.
Qed.

(** * Closed examples *)

Import Demo Cases.

Lemma result_pair_ok {A S} (rs : result A * S) (a : A) :
  fst rs = Ok a -> rs = (Ok a, snd rs).
Proof. destruct rs as [r s]. cbn. intros ->. reflexivity. Defined.

Lemma result_pair_raise {A S} (rs : result A * S) (e : exn) :
  fst rs = Raise e -> rs = (Raise e, snd rs).
Proof. destruct rs as [r s]. cbn. intros ->. reflexivity. Defined.

Lemma result_pair_returned {A S} (d : A) (rs : result A * S) :
  is_Ok (fst rs) = true -> rs = (Ok (returned d (fst rs)), snd rs).
Proof. destruct rs as [[a|e] s]; cbn; [reflexivity | discriminate]. Defined.

(** ** The model *)

(** The populated instance and the scenario targets: [compute_loss] raises
    [AttributeError]. *)
Lemma compute_loss_raises_AttributeError_witness :
  compute_loss demo_log demo_pow scenario_class scenario_area populated
  = (Raise AttributeError,
     set_side_ac_weights (unsqueeze_0 (side_ac_weights populated)) populated).
Proof.
  apply (compute_loss_raises_AttributeError demo_log demo_pow populated
           scenario_side_outputs scenario_fused_output
           scenario_class scenario_area 2 2 2 10); reflexivity.
Defined.

(** The scenario of the spec, [target_class = [1, 0]] and
    [target_area = [0.3, 0.0]], on the populated instance. *)
Lemma ac_term_gated_but_no_loss_returned_witness :
  fst (compute_loss demo_log demo_pow scenario_class scenario_area populated)
    = Raise AttributeError
  /\ exists side_ac fuse_ac,
       ac_loss (unsqueeze_last scenario_class) (unsqueeze_last scenario_area)
               (side_outputs populated) = Ok side_ac
       /\ ac_loss (unsqueeze_last scenario_class) (unsqueeze_last scenario_area)
                  (fused_output populated) = Ok fuse_ac
       /\ forall b, b < 2 -> (entry scenario_class b == 0)%Q ->
            (cell side_ac b 0 == 0)%Q /\ (cell fuse_ac b 0 == 0)%Q.
Proof.
  apply (ac_term_gated_but_no_loss_returned demo_log demo_pow populated
           scenario_side_outputs scenario_fused_output
           scenario_class scenario_area 2 2 2 10); reflexivity.
Defined.

(** On the instance without pooling the forward pass of a batch of one
    image of 8 by 8 pixels returns, and its fused output is the weighted
    sum of its side outputs. *)
Lemma fusion_on_unpooled :
  is_Ok (fst (forward demo_sigmoid batch_8x8 unpooled)) = true
  /\ exists so fo H W,
       side_outputs (snd (forward demo_sigmoid batch_8x8 unpooled)) = Some so
       /\ fused_output (snd (forward demo_sigmoid batch_8x8 unpooled)) = Some fo
       /\ shape so = [1; 3; H; W] /\ shape fo = [1; 1; H; W]
       /\ forall b i j, b < 1 -> i < H -> j < W ->
            (pixel fo b 0 i j ==
               (2 # 10) * pixel so b 0 i j + (35 # 100) * pixel so b 1 i j
               + (45 # 100) * pixel so b 2 i j)%Q.
Proof.
  assert (Hok : is_Ok (fst (forward demo_sigmoid batch_8x8 unpooled)) = true)
    by (vm_compute; reflexivity).
  split; [exact Hok|].
  apply (fused_output_is_the_weighted_sum demo_sigmoid unpooled batch_8x8
           (returned batch_8x8 (fst (forward demo_sigmoid batch_8x8 unpooled)))
           (snd (forward demo_sigmoid batch_8x8 unpooled)) 1 3 8 8).
  - repeat split.
  - repeat split.
  - reflexivity.
  - apply result_pair_returned. exact Hok.
Defined.

(** On the instance without pooling: a loss call, a forward pass, a loss
    call. *)
Example guard_on_unpooled :
  let cs := [ComputeLoss scenario_class scenario_area; Forward batch_8x8;
             ComputeLoss scenario_class scenario_area] in
  let rs := fst (run_calls demo_sigmoid demo_log demo_pow cs unpooled) in
  let st := snd (run_calls demo_sigmoid demo_log demo_pow cs unpooled) in
  (fst (compute_loss demo_log demo_pow scenario_class scenario_area st)
     = Raise AssertionError
   <-> existsb forward_returned (combine cs rs) = false)
  /\ side_outputs (snd (compute_loss demo_log demo_pow scenario_class scenario_area st))
     = side_outputs st
  /\ fused_output (snd (compute_loss demo_log demo_pow scenario_class scenario_area st))
     = fused_output st.
Proof.
  exact (guard_is_one_shot demo_sigmoid demo_log demo_pow unpooled
           [ComputeLoss scenario_class scenario_area; Forward batch_8x8;
            ComputeLoss scenario_class scenario_area]
           scenario_class scenario_area eq_refl eq_refl).
Qed.

(** The same sequence, run: the first loss call fails the assertion, the
    forward pass returns, and the loss call after it passes the assertion
    and fails further on, at [fuse_ac_weight]. *)
Example unpooled_trace :
  let cs := [ComputeLoss scenario_class scenario_area; Forward batch_8x8;
             ComputeLoss scenario_class scenario_area] in
  map is_Ok (fst (run_calls demo_sigmoid demo_log demo_pow cs unpooled))
    = [false; true; false]
  /\ nth_error (fst (run_calls demo_sigmoid demo_log demo_pow cs unpooled)) 0
     = Some (Raise AssertionError)
  /\ nth_error (fst (run_calls demo_sigmoid demo_log demo_pow cs unpooled)) 2
     = Some (Raise AttributeError).
Proof. vm_compute. repeat split. Qed.

(** The sequence on an instance built by [__init__] with all-zero
    parameters: the forward pass raises, and the assertion fails before and
    after it.  A single image is refused as a batch is. *)
Example constructed_trace :
  let cs := [ComputeLoss scenario_class scenario_area; Forward batch_8x8;
             ComputeLoss scenario_class scenario_area] in
  let st := returned populated (__init__ zero_values zero_values) in
  is_Ok (__init__ zero_values zero_values) = true
  /\ fst (run_calls demo_sigmoid demo_log demo_pow cs st)
     = [Raise AssertionError; Raise RuntimeError; Raise AssertionError]
  /\ fst (forward demo_sigmoid image_8x8 st) = Raise RuntimeError.
Proof. vm_compute. repeat split. Qed.

(** A single image on the instance without pooling: the pass returns, with
    the three side maps stacked by rows and a fused output of four
    dimensions. *)
Example single_image_on_unpooled :
  let st := snd (forward demo_sigmoid image_8x8 unpooled) in
  is_Ok (fst (forward demo_sigmoid image_8x8 unpooled)) = true
  /\ option_map shape (side_outputs st) = Some [1; 24; 8]
  /\ option_map shape (fused_output st) = Some [1; 1; 24; 8].
Proof. vm_compute. repeat split. Qed.

(** ** The training driver *)

(** Three batches, the second of which raises [RuntimeError] in the
    train phase. *)
Lemma runtime_error_skips_one_batch_witness :
  let w := three_batches RuntimeError in
  let w2 := second_fetched RuntimeError w in
  let w3 := second_raised RuntimeError w in
  try_one_iteration train (failing RuntimeError) w2
    = (Ok tt, add_log (Warning RuntimeError) w3)
  /\ log (add_log (Warning RuntimeError) w3) = log w3 ++ [Warning RuntimeError]
  /\ run_phase train w
     = (for_each [fetch_of good] (fetch_and_try train) ;;; phase_summary)
         (add_log (Warning RuntimeError) w3)
  /\ (train = train -> forall no_val,
        train_one_epoch no_val w
        = ((for_each [fetch_of good] (fetch_and_try train) ;;; phase_summary) ;;;
           for_each (if no_val then [] else [val]) run_phase)
            (add_log (Warning RuntimeError) w3))
  /\ (train = val -> forall w',
        run_phase train w' = (Ok tt, w) ->
        train_one_epoch false w'
        = (for_each [fetch_of good] (fetch_and_try val) ;;; phase_summary)
            (add_log (Warning RuntimeError) w3))
  /\ (forall d v e v',
        try_one_iteration train d v = (Raise e, v') ->
        issubclass e RuntimeError = false).
Proof.
  exact (runtime_error_skips_one_batch train [fetch_of good]
           (fetch_of (failing RuntimeError)) [fetch_of good]
           (failing RuntimeError)
           (three_batches RuntimeError)
           (phase_ready (three_batches RuntimeError))
           (first_done (three_batches RuntimeError))
           (second_fetched RuntimeError (three_batches RuntimeError))
           RuntimeError
           (second_raised RuntimeError (three_batches RuntimeError))
           (result_pair_ok (phase_setup train (three_batches RuntimeError)) _
              ltac:(vm_compute; reflexivity))
           (result_pair_ok
              (for_each [fetch_of good] (fetch_and_try train)
                 (phase_ready (three_batches RuntimeError))) _
              ltac:(vm_compute; reflexivity))
           (result_pair_ok
              (on_aux (fetch_of (failing RuntimeError))
                 (first_done (three_batches RuntimeError))) _
              ltac:(vm_compute; reflexivity))
           (result_pair_raise
              (train_one_iteration train (failing RuntimeError)
                 (second_fetched RuntimeError (three_batches RuntimeError))) _
              ltac:(vm_compute; reflexivity))
           eq_refl).
Defined.

(** The same batches run in a whole epoch: one warning, and the two other
    batches trained (the model state counts the optimizer steps). *)
Example epoch_with_a_runtime_error :
  let r := train_one_epoch true (toy_world [good; failing RuntimeError; good] ∅) in
  fst r = Ok tt
  /\ log (snd r) = [Info "Train phase:"; Warning RuntimeError; Info ""]
  /\ model_state (w_heap (snd r)) = 2.
Proof. vm_compute. repeat split. Qed.

(** A loader whose second fetch raises [RuntimeError]: the fetch is outside
    the [try], so the exception leaves the epoch, with one batch trained
    and no warning logged. *)
Example fetch_error_is_not_caught :
  let r := train_one_epoch true (toy_world_failing_fetch RuntimeError ∅) in
  fst r = Raise RuntimeError
  /\ log (snd r) = [Info "Train phase:"]
  /\ model_state (w_heap (snd r)) = 1.
Proof. vm_compute. repeat split. Qed.

(** The warnings of the phase are those that [caught_in_phase] reads off
    the iterations. *)
Example caught_in_a_phase :
  caught_in_phase train
    (toy_world [failing RuntimeError; good; failing NotImplementedError] ∅)
  = [RuntimeError; NotImplementedError].
Proof. vm_compute. reflexivity. Qed.


(** The same epoch, run: it returns and leaves two files. *)
Example rotation_at_epoch_8 :
  let r := epoch_body toy_record_dir 8 8 (toy_world [good] disk_with_checkpoint) in
  fst r = Ok tt
  /\ map fst (map_to_list (files (snd r)))
     = [history_path toy_record_dir; ckpt_path toy_record_dir 8].
Proof. vm_compute. repeat split. Qed.

(** Resuming from the checkpoint saved at epoch 7, for three epochs. *)
Lemma resume_starts_after_checkpoint_witness :
  let w := toy_world [good] disk_with_checkpoint in
  let w1 := snd (fit_setup resume_args w) in
  8%Z = (ck_epoch saved_at_7 + 1)%Z
  /\ 10%Z = (ck_epoch saved_at_7 + epochs resume_args)%Z
  /\ model_state (w_heap w1) = ck_model_state saved_at_7
  /\ optimizer_state (w_heap w1) = ck_optimizer_state_dict saved_at_7
  /\ fit toy_record_dir resume_args w
     = (for_each (seqZ (ck_epoch saved_at_7 + 1) (epochs resume_args))
                 (epoch_body toy_record_dir 10) ;;;
        on_aux tracker_report) w1
  /\ ((0 < epochs resume_args)%Z ->
      exists rest,
        seqZ (ck_epoch saved_at_7 + 1) (epochs resume_args)
          = (ck_epoch saved_at_7 + 1)%Z :: rest).
Proof.
  cbv zeta.
  apply (resume_starts_after_checkpoint toy_record_dir resume_args
           (ckpt_path toy_record_dir 7) saved_at_7
           (toy_world [good] disk_with_checkpoint)).
  - reflexivity.
  - vm_compute. reflexivity.
  - apply result_pair_ok. vm_compute. reflexivity.
Defined.

(** The resumed run as a whole: the epochs are 8, 9 and 10, and at the end
    the directory holds the history and the checkpoint of epoch 10 only. *)
Example resumed_run :
  let r := fit toy_record_dir resume_args (toy_world [good] disk_with_checkpoint) in
  fst r = Ok tt
  /\ map fst (map_to_list (files (snd r)))
     = [history_path toy_record_dir; ckpt_path toy_record_dir 10]
  /\ files (snd r) !! ckpt_path toy_record_dir 10
     = Some (CheckpointFile (mkCheckpoint 10 45 (1 # 1000)%Q)).
Proof. vm_compute. repeat split. Qed.

(** A new run of two epochs over three batches, the second of which
    raises [TypeError] in the train phase of the first epoch. *)
Lemma only_RuntimeError_instances_are_caught_witness :
  let a := mkArgs "wessup" 2 None in
  let w := three_batches TypeError in
  let wa := run_ready TypeError in
  let wc := epoch_ready TypeError in
  let wg := second_fetched TypeError wc in
  let wh := second_raised TypeError wc in
  try_one_iteration train (failing TypeError) wg = (Raise TypeError, wh)
  /\ run_phase train wc = (Raise TypeError, wh)
  /\ train_one_epoch (negb val_exists) wc = (Raise TypeError, wh)
  /\ epoch_body toy_record_dir 2 1 wa = (Raise TypeError, wh)
  /\ fit toy_record_dir a w = (Raise TypeError, wh)
  /\ files wh = files wa
  /\ (forall d v v',
        try_one_iteration train d v = (Ok tt, v') ->
        train_one_iteration train d v = (Ok tt, v')
        \/ exists e v0, train_one_iteration train d v = (Raise e, v0)
             /\ issubclass e RuntimeError = true)
  /\ issubclass TypeError RuntimeError = false
  /\ issubclass AttributeError RuntimeError = false.
Proof.
  exact (only_RuntimeError_instances_are_caught toy_record_dir
           (mkArgs "wessup" 2 None) (three_batches TypeError) 1%Z 2%Z
           (run_ready TypeError) [] 1%Z [2%Z]
           (run_ready TypeError) (epoch_ready TypeError)
           [] train [] (epoch_ready TypeError)
           [fetch_of good] (fetch_of (failing TypeError)) [fetch_of good]
           (phase_ready (epoch_ready TypeError))
           (first_done (epoch_ready TypeError))
           (failing TypeError)
           (second_fetched TypeError (epoch_ready TypeError))
           TypeError
           (second_raised TypeError (epoch_ready TypeError))
           (result_pair_ok
              (fit_setup (mkArgs "wessup" 2 None) (three_batches TypeError)) _
              ltac:(vm_compute; reflexivity))
           eq_refl eq_refl
           (result_pair_ok (epoch_start 1 2 (run_ready TypeError)) _
              ltac:(vm_compute; reflexivity))
           eq_refl eq_refl
           (result_pair_ok (phase_setup train (epoch_ready TypeError)) _
              ltac:(vm_compute; reflexivity))
           (result_pair_ok
              (for_each [fetch_of good] (fetch_and_try train)
                 (phase_ready (epoch_ready TypeError))) _
              ltac:(vm_compute; reflexivity))
           (result_pair_ok
              (on_aux (fetch_of (failing TypeError))
                 (first_done (epoch_ready TypeError))) _
              ltac:(vm_compute; reflexivity))
           (result_pair_raise
              (train_one_iteration train (failing TypeError)
                 (second_fetched TypeError (epoch_ready TypeError))) _
              ltac:(vm_compute; reflexivity))
           eq_refl).
Defined.

(** An instance of a subclass of [RuntimeError] is caught as one of
    [RuntimeError] itself: the iteration on the first batch raises
    [NotImplementedError], the epoch ends normally, with the exception
    logged as a warning and the second batch trained. *)
Example NotImplementedError_is_caught :
  issubclass NotImplementedError RuntimeError = true
  /\ fst (train_one_iteration train (failing NotImplementedError)
            (snd (phase_setup train
                    (toy_world [failing NotImplementedError; good] ∅))))
     = Raise NotImplementedError
  /\ fst (train_one_epoch true (toy_world [failing NotImplementedError; good] ∅))
     = Ok tt
  /\ log (snd (train_one_epoch true
                 (toy_world [failing NotImplementedError; good] ∅)))
     = [Info "Train phase:"; Warning NotImplementedError; Info ""]
  /\ model_state (w_heap (snd (train_one_epoch true
                 (toy_world [failing NotImplementedError; good] ∅))))
     = 1.
Proof. vm_compute. repeat split. Qed.

(** ** Further examples *)

(** Two loss calls on the populated instance: both raise, and
    [side_ac_weights] ends with shape (1, 1, 3). *)
Lemma side_ac_weights_grow_with_every_call_witness :
  run_calls demo_sigmoid demo_log demo_pow
    (repeat (ComputeLoss scenario_class scenario_area) 2) populated
    = (repeat (Raise AttributeError) 2,
       set_side_ac_weights (Nat.iter 2 unsqueeze_0 (side_ac_weights populated))
         populated)
  /\ shape (Nat.iter 2 unsqueeze_0 (side_ac_weights populated)) = repeat 1 2 ++ [3]
  /\ forall c, data (Nat.iter 2 unsqueeze_0 (side_ac_weights populated))
                 (repeat 0 2 ++ [c])
               = data (side_ac_weights populated) [c].
Proof.
  apply (side_ac_weights_grow_with_every_call demo_sigmoid demo_log demo_pow
           populated scenario_side_outputs scenario_fused_output
           scenario_class scenario_area 2 2 2 10 2); reflexivity.
Defined.

(** The MIL term of the scenario on the populated side outputs. *)
Lemma mil_loss_is_per_sample_cross_entropy_witness :
  exists y,
    mil_loss demo_log demo_pow (unsqueeze_last scenario_class)
      (Some scenario_side_outputs) = Ok y
    /\ shape y = [2; 3]
    /\ forall b c, b < 2 -> c < 3 ->
         cell y b c
         = (entry scenario_class b
              * demo_log (image_pred demo_pow scenario_side_outputs b c)
            + (1 - entry scenario_class b)
              * demo_log (1 - image_pred demo_pow scenario_side_outputs b c))%Q.
Proof.
  apply (mil_loss_is_per_sample_cross_entropy demo_log demo_pow
           scenario_class scenario_side_outputs 2 3 2 2); reflexivity.
Defined.

(** The area term of the scenario on the populated side outputs. *)
Lemma ac_loss_is_one_number_per_batch_witness :
  exists y,
    ac_loss (unsqueeze_last scenario_class) (unsqueeze_last scenario_area)
      (Some scenario_side_outputs) = Ok y
    /\ shape y = [2; 1]
    /\ forall b, b < 2 ->
         (cell y b 0
          == entry scenario_class b
             * area_gap scenario_side_outputs scenario_area 2 3)%Q.
Proof.
  apply (ac_loss_is_one_number_per_batch scenario_class scenario_area
           scenario_side_outputs 2 3 2 2); reflexivity.
Defined.

(** Three labels for the populated batch of two. *)
Lemma compute_loss_refuses_targets_of_another_length_witness :
  compute_loss demo_log demo_pow three_labels scenario_area populated
  = (Raise RuntimeError, populated).
Proof.
  apply (compute_loss_refuses_targets_of_another_length demo_log demo_pow
           populated scenario_side_outputs scenario_fused_output
           three_labels scenario_area 2 3 3 2 2);
    try reflexivity; try lia.
  left. reflexivity.
Defined.

(** The forward pass on the instance without pooling. *)
Lemma forward_is_all_or_nothing_witness :
  match fst (forward demo_sigmoid batch_8x8 unpooled) with
  | Raise e => e = RuntimeError /\ snd (forward demo_sigmoid batch_8x8 unpooled) = unpooled
  | Ok _ =>
      let st' := snd (forward demo_sigmoid batch_8x8 unpooled) in
      side_outputs st' <> None /\ fused_output st' <> None
      /\ layers st' = layers unpooled
      /\ side_ac_weights st' = side_ac_weights unpooled
      /\ fuse_ac_weight st' = fuse_ac_weight unpooled
  end.
Proof.
  apply (forward_is_all_or_nothing demo_sigmoid unpooled batch_8x8); repeat split.
Defined.

(** A forward pass, a loss call and a forward pass on the instance without
    pooling. *)
Lemma fusion_weights_survive_every_call_witness :
  let cs := [Forward batch_8x8; ComputeLoss scenario_class scenario_area;
             Forward batch_8x8] in
  is_fusion_weights
    (fusion_weights (snd (run_calls demo_sigmoid demo_log demo_pow cs unpooled)))
  /\ layers (snd (run_calls demo_sigmoid demo_log demo_pow cs unpooled))
     = layers unpooled.
Proof.
  cbv zeta.
  apply (fusion_weights_survive_every_call demo_sigmoid demo_log demo_pow unpooled);
    repeat split.
Defined.

(** The scenario on the populated instance whose [fuse_ac_weight] is a
    tensor: a loss of shape (2,). *)
Lemma compute_loss_with_a_tensor_weight_witness :
  exists y m1 c1 m2 c2,
    mil_loss demo_log demo_pow (unsqueeze_last scenario_class)
      (Some scenario_side_outputs) = Ok m1
    /\ ac_loss (unsqueeze_last scenario_class) (unsqueeze_last scenario_area)
         (Some scenario_side_outputs) = Ok c1
    /\ mil_loss demo_log demo_pow (unsqueeze_last scenario_class)
         (Some scenario_fused_output) = Ok m2
    /\ ac_loss (unsqueeze_last scenario_class) (unsqueeze_last scenario_area)
         (Some scenario_fused_output) = Ok c2
    /\ compute_loss demo_log demo_pow scenario_class scenario_area with_tensor_weight
       = (Ok y, set_fuse_ac_weight (PyTensor (unsqueeze_0 ten))
                  (set_side_ac_weights
                     (unsqueeze_0 (side_ac_weights with_tensor_weight))
                     with_tensor_weight))
    /\ shape y = [2]
    /\ forall b, b < 2 ->
         (entry y b
          == sumQ 3 (fun c => cell m1 b c
                              + entry (side_ac_weights with_tensor_weight) c
                                * cell c1 b 0)
             + (cell m2 b 0 + entry ten 0 * cell c2 b 0))%Q.
Proof.
  apply (compute_loss_with_a_tensor_weight demo_log demo_pow with_tensor_weight
           scenario_side_outputs scenario_fused_output
           scenario_class scenario_area 2 2 2 ten); reflexivity.
Defined.

(** A new run of no epoch. *)
Lemma fit_with_no_epochs_only_reports_witness :
  fit toy_record_dir no_epochs (toy_world [good] ∅)
  = (fit_setup no_epochs ;;; on_aux tracker_report) (toy_world [good] ∅)
  /\ forall initial_epoch total_epochs w1,
       fit_setup no_epochs (toy_world [good] ∅)
         = (Ok (initial_epoch, total_epochs), w1) ->
       seqZ initial_epoch (total_epochs + 1 - initial_epoch) = [].
Proof.
  apply (fit_with_no_epochs_only_reports toy_record_dir no_epochs
           (toy_world [good] ∅)).
  cbn. lia.
Defined.

(** A new run of two epochs. *)
Lemma fit_leaves_the_latest_checkpoint_witness :
  let w' := snd (fit toy_record_dir two_epochs (toy_world [good] ∅)) in
  exists initial_epoch total_epochs w1,
    fit_setup two_epochs (toy_world [good] ∅)
    = (Ok (initial_epoch, total_epochs), w1)
    /\ total_epochs = (initial_epoch + epochs two_epochs - 1)%Z
    /\ glob_checkpoints toy_record_dir (files w')
       = [ckpt_path toy_record_dir total_epochs]
    /\ files w' !! ckpt_path toy_record_dir total_epochs
       = Some (CheckpointFile (mkCheckpoint total_epochs (model_state (w_heap w'))
                                 (optimizer_state (w_heap w'))))
    /\ is_Some (files w' !! history_path toy_record_dir).
Proof.
  cbv zeta.
  apply (fit_leaves_the_latest_checkpoint toy_record_dir two_epochs
           (toy_world [good] ∅)).
  - reflexivity.
  - cbn. lia.
  - apply result_pair_ok. vm_compute. reflexivity.
Defined.

(** A new run of two epochs, resumed for three more: the epochs 3 to 5. *)
Lemma finished_run_can_be_resumed_witness :
  let w' := snd (fit toy_record_dir two_epochs (toy_world [good] ∅)) in
  let w2 := snd (fit_setup resume_after_two w') in
  3%Z = (2 + 1)%Z
  /\ 5%Z = (2 + epochs resume_after_two)%Z
  /\ model_state (w_heap w2) = model_state (w_heap w')
  /\ optimizer_state (w_heap w2) = optimizer_state (w_heap w').
Proof.
  cbv zeta.
  apply (finished_run_can_be_resumed toy_record_dir two_epochs
           (toy_world [good] ∅)
           (snd (fit toy_record_dir two_epochs (toy_world [good] ∅)))
           1%Z 2%Z (snd (fit_setup two_epochs (toy_world [good] ∅)))
           resume_after_two).
  - cbn. lia.
  - apply result_pair_ok. vm_compute. reflexivity.
  - apply result_pair_ok. vm_compute. reflexivity.
  - reflexivity.
  - apply result_pair_ok. vm_compute. reflexivity.
Defined.

(** The checkpoints of the epochs 7 and 8. *)
Lemma every_epoch_has_its_own_checkpoint_file_witness :
  ckpt_path toy_record_dir 7 <> ckpt_path toy_record_dir 8
  /\ (plain toy_record_dir = true ->
      is_checkpoint_file toy_record_dir (ckpt_path toy_record_dir 7) = true
      /\ is_checkpoint_file toy_record_dir (ckpt_path toy_record_dir 8) = true).
Proof.
  apply (every_epoch_has_its_own_checkpoint_file toy_record_dir 7 8). lia.
Defined.

(** A record directory that is a pattern for [glob], and one that is
    not. *)
Example plain_directories :
  plain ["records"; "run[1]"] = false /\ plain toy_record_dir = true.
Proof. split; reflexivity. Qed.

(** The checkpoint of epoch 7 under [records/run]. *)
Lemma resuming_stays_in_the_record_directory_witness :
  record_dir_of (ckpt_file "records/run" 7) = "records/run"
  /\ forall resume_ckpt, no_trailing_sep (record_dir_of resume_ckpt).
Proof.
  apply (resuming_stays_in_the_record_directory "records/run" 7).
  left. reflexivity.
Defined.

(** The paths themselves.  A trailing separator of the record directory is
    not recovered, and a bare file name gives the empty directory. *)
Example resumed_paths :
  ckpt_file "records/run" 7 = "records/run/checkpoints/ckpt.0007.pth"
  /\ record_dir_of "records/run/checkpoints/ckpt.0007.pth" = "records/run"
  /\ record_dir_of (ckpt_file "records/run/" 7) = "records/run"
  /\ record_dir_of "ckpt.0007.pth" = "".
Proof. vm_compute. repeat split. Qed.
